(** * Paper-Auto-Summarize: a shallow embedding of the batch pipeline

    The development follows the two scripts that carry the logic of the
    repository:

    - [auto_runner.py]: bucket catalogue, folder scan, selector parsing,
      text extraction and the per-bucket processing loop with its global
      index counter;
    - [scenario_rescoring.py]: loading of the combined table, the weighted
      scenario score, the level table and the per-scenario ranking tables.

    Part I holds the definitions (Python built-ins first, then one module per
    script); Part II holds the lemmas and theorems on the documented
    behaviour, Part III further properties of the two scripts.

    Conventions of the embedding.
    - A Python [str] is a Rocq [string] holding its UTF-8 bytes.  Equality,
      ordering, [startswith], splitting on and removal of an ASCII character
      are the same on bytes and on code points.  [str.strip], [str.lower],
      [str.upper], [int] and [float] are modelled on their ASCII behaviour:
      white space, letters and digits outside ASCII are ordinary characters
      here.
    - Where the length of a text matters ([extract_pdf_text]) the text is a
      list of code points, one entry per character.
    - A Python [float] is a binary64 value of [SpecFloat], with the
      round-to-nearest-even operations of that library.
    - A call that may raise returns a [Py.result]. *)

From Stdlib Require Import ZArith NArith List String Ascii Bool Lia DecimalString.
From Stdlib Require Import Floats.SpecFloat.
From stdpp Require Import gmap strings list sorting.

Local Open Scope string_scope.
Local Open Scope list_scope.

(* ===================================================================== *)
(** * Part I: definitions                                                 *)
(* ===================================================================== *)

(** ** Python built-ins used by the scripts *)
Module Py.

(** Exceptions the modelled code raises, and the outcome of a call. *)
Inductive exn : Type :=
| ValueError (msg : string)
| IndexError.

Inductive result (A : Type) : Type :=
| Ok (a : A)
| Raise (e : exn).
Arguments Ok {A} a.
Arguments Raise {A} e.

Definition bind {A B : Type} (r : result A) (k : A -> result B) : result B :=
  match r with
  | Ok a => k a
  | Raise e => Raise e
  end.

(** *** str *)

(** [c.isspace()] on ASCII: TAB..CR, FS..US and the space. *)
Definition isspace (c : ascii) : bool :=
  let n := nat_of_ascii c in
  ((9 <=? n)%nat && (n <=? 13)%nat) || ((28 <=? n)%nat && (n <=? 32)%nat).

Fixpoint lstrip (s : string) : string :=
  match s with
  | EmptyString => EmptyString
  | String c s' => if isspace c then lstrip s' else s
  end.

Fixpoint rstrip (s : string) : string :=
  match s with
  | EmptyString => EmptyString
  | String c s' =>
      match rstrip s' with
      | EmptyString => if isspace c then EmptyString else String c EmptyString
      | r => String c r
      end
  end.

(** [s.strip()] *)
Definition strip (s : string) : string := rstrip (lstrip s).

(** [s.split(sep)] for a one-character separator: never the empty list. *)
Fixpoint split (sep : ascii) (s : string) : list string :=
  match s with
  | EmptyString => [EmptyString]
  | String c s' =>
      if Ascii.eqb c sep then EmptyString :: split sep s'
      else match split sep s' with
           | p :: ps => String c p :: ps
           | [] => [String c EmptyString]
           end
  end.

(** The line feed, as a string. *)
Definition nl : string := String "010"%char EmptyString.

(** [s.startswith(p)] *)
Definition startswith (s p : string) : bool := String.prefix p s.

(** [s[n:]] *)
Fixpoint drop (n : nat) (s : string) : string :=
  match n, s with
  | O, _ => s
  | S n', String _ s' => drop n' s'
  | S _, EmptyString => EmptyString
  end.



(** [sep.join(parts)] *)
Fixpoint join (sep : string) (parts : list string) : string :=
  match parts with
  | [] => EmptyString
  | [p] => p
  | p :: ps => p +:+ sep +:+ join sep ps
  end.

(** [s.replace(c, '')] for a one-character [c]. *)
Fixpoint remove_char (c : ascii) (s : string) : string :=
  match s with
  | EmptyString => EmptyString
  | String d s' => if Ascii.eqb d c then remove_char c s' else String d (remove_char c s')
  end.

(** [c in s] for a one-character [c]. *)
Fixpoint contains_char (c : ascii) (s : string) : bool :=
  match s with
  | EmptyString => false
  | String d s' => Ascii.eqb d c || contains_char c s'
  end.

(** Truth value of a [str]: the empty string is false. *)
Definition truthy (s : string) : bool :=
  match s with
  | EmptyString => false
  | String _ _ => true
  end.

(** [str(n)] for a natural number. *)
Definition str_of_nat (n : nat) : string :=
  DecimalString.NilZero.string_of_uint (Nat.to_uint n).

(** *** pathlib *)

(** [name.rfind('.')], counting from [i]. *)
Fixpoint rfind_dot (name : string) (i : nat) : option nat :=
  match name with
  | EmptyString => None
  | String c rest =>
      match rfind_dot rest (S i) with
      | Some j => Some j
      | None => if Ascii.eqb c "."%char then Some i else None
      end
  end.

(** [Path(name).suffix]: from the last dot on, unless that dot is the first
    or the last character of the name. *)
Definition suffix (name : string) : string :=
  match rfind_dot name 0 with
  | Some i => if (0 <? i)%nat && (i <? String.length name - 1)%nat then drop i name else ""
  | None => ""
  end.

(** [Path(name).stem]: the name without its suffix. *)
Definition stem (name : string) : string :=
  match rfind_dot name 0 with
  | Some i => if (0 <? i)%nat && (i <? String.length name - 1)%nat
              then String.substring 0 i name else name
  | None => name
  end.

(** [c.lower()] on ASCII. *)
Definition lower_char (c : ascii) : ascii :=
  let n := nat_of_ascii c in
  if (65 <=? n)%nat && (n <=? 90)%nat then ascii_of_nat (n + 32) else c.

Fixpoint lower (s : string) : string :=
  match s with
  | EmptyString => EmptyString
  | String c s' => String (lower_char c) (lower s')
  end.

(** [c.upper()] on ASCII. *)
Definition upper_char (c : ascii) : ascii :=
  let n := nat_of_ascii c in
  if (97 <=? n)%nat && (n <=? 122)%nat then ascii_of_nat (n - 32) else c.

Fixpoint upper (s : string) : string :=
  match s with
  | EmptyString => EmptyString
  | String c s' => String (upper_char c) (upper s')
  end.

(** *** list *)

(** [l[i]] for an integer [i]: a negative index counts from the end. *)
Definition getitem {A : Type} (l : list A) (i : Z) : result A :=
  let j := if (i <? 0)%Z then (Z.of_nat (length l) + i)%Z else i in
  if (j <? 0)%Z then Raise IndexError
  else match l !! Z.to_nat j with
       | Some a => Ok a
       | None => Raise IndexError
       end.

(** [[g(x) for x in l]] for a [g] that may raise. *)
Fixpoint for_each {A B : Type} (g : A -> result B) (l : list A) : result (list B) :=
  match l with
  | [] => Ok []
  | x :: l' =>
      match g x with
      | Ok y =>
          match for_each g l' with
          | Ok ys => Ok (y :: ys)
          | Raise e => Raise e
          end
      | Raise e => Raise e
      end
  end.

(** The characters of a text, as a loop over it yields them: every byte
    that is not a continuation byte of UTF-8 starts one. *)
Definition is_continuation (c : ascii) : bool :=
  let n := nat_of_ascii c in (128 <=? n)%nat && (n <? 192)%nat.

Fixpoint characters (s : string) : list string :=
  match s with
  | EmptyString => []
  | String c s' =>
      let rest := characters s' in
      match s' with
      | String d _ =>
          if is_continuation d then
            match rest with
            | ch :: more => String c ch :: more
            | [] => [String c EmptyString]
            end
          else String c EmptyString :: rest
      | EmptyString => String c EmptyString :: rest
      end
  end.

(** [str(z)] for an integer. *)
Definition str_of_Z (z : Z) : string :=
  DecimalString.NilZero.string_of_int (Z.to_int z).

(** *** list.sort *)

(** [l.sort(key=key, reverse=reverse)].  The sort of the language is stable
    and uses only [<] on the keys; on keys that [<] orders totally its
    result is the one stable arrangement, which the insertion below
    computes.  With [reverse=True] the interpreter reverses the list, sorts
    it and reverses the result, which keeps equal keys in input order. *)
Section Sort.
Context {A K : Type} (lt : K -> K -> bool) (key : A -> K).

Fixpoint insert_sorted (x : A) (l : list A) : list A :=
  match l with
  | [] => [x]
  | y :: l' =>
      if lt (key y) (key x) then y :: insert_sorted x l' else x :: y :: l'
  end.

Definition stable_sort (l : list A) : list A := foldr insert_sorted [] l.

Definition list_sort (reverse : bool) (l : list A) : list A :=
  if reverse then rev (stable_sort (rev l)) else stable_sort l.

(** [x] may stand before [y] in an ascending list: [y] is not below [x]. *)
Definition not_after (x y : A) : Prop := lt (key y) (key x) = false.

End Sort.

(** *** int *)

Definition is_digit (c : ascii) : bool :=
  let n := nat_of_ascii c in (48 <=? n)%nat && (n <=? 57)%nat.

Definition digit_value (c : ascii) : Z := Z.of_nat (nat_of_ascii c - 48).

(** Digits with single underscores between them; [prev] tells whether the
    previous character was a digit. *)
Fixpoint digits_value (s : string) (acc : Z) (prev : bool) : option Z :=
  match s with
  | EmptyString => if prev then Some acc else None
  | String c s' =>
      if is_digit c then digits_value s' (10 * acc + digit_value c)%Z true
      else if Ascii.eqb c "_"%char
           then (if prev then digits_value s' acc false else None)
           else None
  end.

(** [int(s)] in base ten: surrounding white space, an optional sign, then
    digits.  [None] stands for [ValueError].  The interpreter's limit on the
    number of digits of a literal is left out. *)
Definition int (s : string) : option Z :=
  match strip s with
  | String "+" ds => digits_value ds 0%Z false
  | String "-" ds => Z.opp <$> digits_value ds 0%Z false
  | ds => digits_value ds 0%Z false
  end.

(** [range(a, b)] *)
Definition range (a b : Z) : list Z := seqZ a (b - a).

(** *** float *)

(** binary64 *)
Definition prec : Z := 53.
Definition emax : Z := 1024.

Definition fadd : spec_float -> spec_float -> spec_float := SFadd prec emax.
Definition fmul : spec_float -> spec_float -> spec_float := SFmul prec emax.

(** [x < y], [x <= y], [x == y]: false as soon as one side is a NaN. *)
Definition flt : spec_float -> spec_float -> bool := SFltb.
Definition fle : spec_float -> spec_float -> bool := SFleb.

Definition is_nan (x : spec_float) : bool :=
  match x with
  | S754_nan => true
  | _ => false
  end.

(** The place of a value that is not a NaN in the order of the floats,
    as a triple compared from the left. *)
Definition order_key (x : spec_float) : Z * Z * Z :=
  match x with
  | S754_nan => (0, 0, 0)%Z
  | S754_infinity true => (-2, 0, 0)%Z
  | S754_infinity false => (2, 0, 0)%Z
  | S754_zero _ => (0, 0, 0)%Z
  | S754_finite true m e => (-1, - e, - Zpos m)%Z
  | S754_finite false m e => (1, e, Zpos m)%Z
  end.

Definition lex_lt (a b : Z * Z * Z) : Prop :=
  (fst (fst a) < fst (fst b)
   \/ (fst (fst a) = fst (fst b)
       /\ (snd (fst a) < snd (fst b)
           \/ (snd (fst a) = snd (fst b) /\ snd a < snd b))))%Z.

(** The float nearest to [m * 10^e], with ties to even, as the conversion
    of a decimal literal gives it. *)
Definition float_of_decimal (neg : bool) (m e : Z) : spec_float :=
  match m with
  | Zpos p =>
      if (0 <=? e)%Z
      then binary_normalize prec emax (if neg then - (m * 10 ^ e) else m * 10 ^ e)%Z 0 false
      else SFdiv prec emax (S754_finite neg p 0)
                 (S754_finite false (Z.to_pos (10 ^ (- e))) 0)
  | _ => S754_zero neg
  end.

(** [float(z)] for an integer. *)
Definition float_of_Z (z : Z) : spec_float := binary_normalize prec emax z 0 false.

(** The integer nearest to [n / d], with ties to the even one
    ([0 <= n], [0 < d]). *)
Definition div_half_even (n d : Z) : Z :=
  let q := (n / d)%Z in
  let r := (n mod d)%Z in
  match (2 * r ?= d)%Z with
  | Lt => q
  | Gt => (q + 1)%Z
  | Eq => if Z.even q then q else (q + 1)%Z
  end.

(** The number of tenths nearest to the finite value [m * 2^e]. *)
Definition nearest_tenths (m : positive) (e : Z) : Z :=
  if (0 <=? e)%Z then (10 * Zpos m * 2 ^ e)%Z
  else div_half_even (10 * Zpos m) (2 ^ (- e)).

(** [round(x, 1)]: the interpreter prints the exact value of [x] with one
    digit after the point, correctly rounded with ties to even, and reads
    the result back; zeros, infinities and NaN are returned as they are,
    and the sign is kept. *)
Definition round1 (x : spec_float) : spec_float :=
  match x with
  | S754_finite s m e =>
      match nearest_tenths m e with
      | Zpos n => SFdiv prec emax (S754_finite s n 0) (S754_finite false 10 0)
      | _ => S754_zero s
      end
  | _ => x
  end.

(** A run of digits with single underscores between digits.  [acc] is the
    value read so far, [n] the number of digits read, [prev] tells whether
    the previous character was a digit.  The rest of the string is
    returned; an underscore that is not between two digits ends the run
    and stays in the rest. *)
Fixpoint digit_run (s : string) (acc : Z) (n : nat) (prev : bool) : Z * nat * string :=
  match s with
  | EmptyString => (acc, n, EmptyString)
  | String c s' =>
      if is_digit c then digit_run s' (10 * acc + digit_value c)%Z (S n) true
      else if Ascii.eqb c "_"%char && prev
                && match s' with String d _ => is_digit d | EmptyString => false end
           then digit_run s' acc n false
           else (acc, n, s)
  end.

(** A decimal literal without its sign: digits, an optional point and
    digits (one digit at least on one side), an optional exponent.  The
    result is the pair of the mantissa and the power of ten. *)
Definition decimal_literal (s : string) : option (Z * Z) :=
  let '(m1, n1, r1) := digit_run s 0%Z 0%nat false in
  let '(m2, n2, r2) :=
    match r1 with
    | String "." r => digit_run r m1 0%nat false
    | _ => (m1, 0%nat, r1)
    end in
  if (n1 + n2 =? 0)%nat then None
  else
    match r2 with
    | EmptyString => Some (m2, (- Z.of_nat n2)%Z)
    | String c r =>
        if Ascii.eqb c "e"%char || Ascii.eqb c "E"%char then
          let '(neg, r') :=
            match r with
            | String "+" r' => (false, r')
            | String "-" r' => (true, r')
            | _ => (false, r)
            end in
          let '(x, nx, r3) := digit_run r' 0%Z 0%nat false in
          if (0 <? nx)%nat && negb (truthy r3)
          then Some (m2, ((if neg then - x else x) - Z.of_nat n2)%Z)
          else None
        else None
    end.

Definition float_body (neg : bool) (body : string) : option spec_float :=
  let low := lower body in
  if String.eqb low "inf" || String.eqb low "infinity" then Some (S754_infinity neg)
  else if String.eqb low "nan" then Some S754_nan
  else match decimal_literal body with
       | Some (m, e) => Some (float_of_decimal neg m e)
       | None => None
       end.

(** [float(s)] for a string: surrounding white space, an optional sign,
    then a decimal literal, [inf], [infinity] or [nan] in any letter case.
    [None] stands for [ValueError]. *)
Definition float (s : string) : option spec_float :=
  match strip s with
  | String "+" body => float_body false body
  | String "-" body => float_body true body
  | body => float_body false body
  end.

(** *** Texts as code points *)

(** A text whose length is counted in characters. *)
Definition text : Type := list N.

(** [c.isspace()] on code points (the full Unicode white-space set). *)
Definition u_isspace (c : N) : bool :=
  (((9 <=? c) && (c <=? 13)) || ((28 <=? c) && (c <=? 32))
   || (c =? 133) || (c =? 160) || (c =? 5760)
   || ((8192 <=? c) && (c <=? 8202))
   || (c =? 8232) || (c =? 8233) || (c =? 8239) || (c =? 8287) || (c =? 12288))%N.

(** [bool(t.strip())]: some character of [t] is not white space. *)
Definition u_strip_nonempty (t : text) : bool :=
  existsb (fun c => negb (u_isspace c)) t.

(** [sep.join(parts)] *)
Fixpoint u_join (sep : text) (parts : list text) : text :=
  match parts with
  | [] => []
  | [p] => p
  | p :: ps => p ++ sep ++ u_join sep ps
  end.

(** [str(n)] for a natural number, as code points. *)
Fixpoint uint_codes (d : Decimal.uint) : text :=
  match d with
  | Decimal.Nil => []
  | Decimal.D0 d' => 48%N :: uint_codes d'
  | Decimal.D1 d' => 49%N :: uint_codes d'
  | Decimal.D2 d' => 50%N :: uint_codes d'
  | Decimal.D3 d' => 51%N :: uint_codes d'
  | Decimal.D4 d' => 52%N :: uint_codes d'
  | Decimal.D5 d' => 53%N :: uint_codes d'
  | Decimal.D6 d' => 54%N :: uint_codes d'
  | Decimal.D7 d' => 55%N :: uint_codes d'
  | Decimal.D8 d' => 56%N :: uint_codes d'
  | Decimal.D9 d' => 57%N :: uint_codes d'
  end.

Definition u_str_of_nat (n : nat) : text := uint_codes (Nat.to_uint n).

End Py.

(** ** auto_runner.py *)
Module AutoRunner.

(** *** Configuration constants *)

Definition MAX_PDF_CHARS : nat := Z.to_nat 30000.

(** *** Data structures and the files the script works on *)

Definition ALL_CSV_NAME : string := "_all_papers.csv".

Record FolderStatus : Type := {
  name : string;
  path : string;
  total_pdfs : nat;
  processed : nat;
  pending : nat;
  pdf_files : list string   (* file names inside the folder *)
}.

Record Stats : Type := { success : nat; skip : nat; fail : nat }.

(** One data row of a table: the value of its index column and the
    extracted record it was flattened from. *)
Abbreviation csv_row := (string * string)%type.

(** The part of the file system and of the outside world the processing
    loop touches.
    - [json_files]: the artifacts under the JSON directory, as (folder,
      file name);
    - [csv_files]: the tables under the CSV directory by file name, each
      with the data rows below its header;
    - [error_log]: the lines of the error log, as (file name, message);
    - [llm_calls], [sleeps]: how many requests were sent and how many
      pauses were made. *)
Record World : Type := {
  json_files : gset (string * string);
  csv_files : gmap string (list csv_row);
  error_log : list (string * string);
  llm_calls : nat;
  sleeps : nat
}.

Definition json_exists (w : World) (folder_name pdf : string) : bool :=
  bool_decide ((folder_name, Py.stem pdf +:+ ".json") ∈ json_files w).

Definition write_json (folder_name pdf : string) (w : World) : World :=
  {| json_files := {[ (folder_name, Py.stem pdf +:+ ".json") ]} ∪ json_files w;
     csv_files := csv_files w; error_log := error_log w;
     llm_calls := llm_calls w; sleeps := sleeps w |}.

Definition set_csv_files (f : gmap string (list csv_row) -> gmap string (list csv_row))
    (w : World) : World :=
  {| json_files := json_files w; csv_files := f (csv_files w);
     error_log := error_log w; llm_calls := llm_calls w; sleeps := sleeps w |}.

(** [csv_path.unlink()] *)
Definition unlink_csv (file : string) : World -> World :=
  set_csv_files (delete file).

(** [init_csv]: a table that does not exist is created with its header. *)
Definition init_csv (file : string) : World -> World :=
  set_csv_files (fun m => match m !! file with
                          | Some _ => m
                          | None => <[file := []]> m
                          end).

(** [append_to_csv]: one row at the end of the table. *)
Definition append_to_csv (file : string) (data index_value : string) : World -> World :=
  set_csv_files (fun m => <[file := default [] (m !! file) ++ [(index_value, data)]]> m).

Definition log_error (filename error : string) (w : World) : World :=
  {| json_files := json_files w; csv_files := csv_files w;
     error_log := error_log w ++ [(filename, error)];
     llm_calls := llm_calls w; sleeps := sleeps w |}.

Definition count_llm_call (w : World) : World :=
  {| json_files := json_files w; csv_files := csv_files w;
     error_log := error_log w; llm_calls := S (llm_calls w); sleeps := sleeps w |}.

Definition sleep (w : World) : World :=
  {| json_files := json_files w; csv_files := csv_files w;
     error_log := error_log w; llm_calls := llm_calls w; sleeps := S (sleeps w) |}.

(** [extract_number_from_filename]: the leading digits of the name when an
    underscore or a hyphen follows them, else the empty string. *)
Fixpoint leading_digits (s : string) : string * string :=
  match s with
  | String c s' =>
      if Py.is_digit c then let '(d, r) := leading_digits s' in (String c d, r)
      else (EmptyString, s)
  | EmptyString => (EmptyString, EmptyString)
  end.

Definition extract_number_from_filename (filename : string) : string :=
  match leading_digits filename with
  | (String c d, String sep _) =>
      if Ascii.eqb sep "_"%char || Ascii.eqb sep "-"%char then String c d else ""
  | _ => ""
  end.

(** *** Display widths *)

Section Display.
(** [unicodedata.east_asian_width(char) in ('F', 'W')], the table of the
    Unicode database. *)
Variable wide : N -> bool.

Definition get_display_width (s : Py.text) : nat :=
  fold_left (fun width char => if wide char then (width + 2)%nat else (width + 1)%nat) s 0%nat.

(** [' ' * n] *)
Definition spaces (n : nat) : Py.text := repeat 32%N n.

Definition pad_center (s : Py.text) (width : nat) : Py.text :=
  let current := get_display_width s in
  if (width <=? current)%nat then s
  else
    let total_pad := (width - current)%nat in
    let left := (total_pad / 2)%nat in
    let right := (total_pad - left)%nat in
    spaces left ++ s ++ spaces right.

Definition pad_left (s : Py.text) (width : nat) : Py.text :=
  let current := get_display_width s in
  if (width <=? current)%nat then s
  else s ++ spaces (width - current).

(** The column of the folder names in [display_folder_status]. *)
Definition COL_NAME : nat := 32.

(** ["..."] *)
Definition dots : Py.text := [46; 46; 46]%N.

(** The loop that shortens a name until it fits with the dots, one
    character off the end per turn; [fuel] bounds the number of turns. *)
Fixpoint shorten (fuel : nat) (name_display : Py.text) : option Py.text :=
  if (COL_NAME - 2 <? get_display_width (name_display ++ dots))%nat then
    match fuel with
    | O => None
    | S fuel' => shorten fuel' (removelast name_display)
    end
  else Some name_display.

(** The name as the table shows it. *)
Definition name_display (fuel : nat) (folder_name : Py.text) : option Py.text :=
  if (COL_NAME - 2 <? get_display_width folder_name)%nat then
    match shorten fuel folder_name with
    | Some shortened => Some (shortened ++ dots)
    | None => None
    end
  else Some folder_name.
End Display.

(** *** clean_json_response *)


(** *** The row of a record: append_to_csv and its helpers *)

(** A value as [json.loads] gives it; the keys of an object are
    distinct. *)
#[local] Unset Elimination Schemes.
Inductive json : Type :=
| JNull
| JBool (b : bool)
| JInt (z : Z)
| JFloat (x : spec_float)
| JStr (s : string)
| JList (items : list json)
| JDict (fields : list (string * json)).
#[local] Set Elimination Schemes.

(** The exceptions that building a row can raise. *)
Inductive failure : Type := AttributeError | TypeError.

(** The column names of [CSV_FIELD_MAP], in the order of [CSV_FIELDS]:
    the line that [init_csv] writes. *)
Definition CSV_HEADERS : list string :=
  ["编号"; "年份"; "期刊"; "作者"; "标题"; "论文类型"; "领域标签"; "关键词";
   "研究对象"; "研究方法"; "研究问题"; "核心结论"; "具体实现路径_简明"; "主要贡献";
   "学术严谨度"; "创新程度"; "实用价值"; "影响范围"; "可读性"; "综合评分"; "推荐等级"].

(** [d.get(key)] on the fields of an object. *)
Fixpoint json_get (d : list (string * json)) (key : string) : option json :=
  match d with
  | [] => None
  | (k, v) :: rest => if String.eqb k key then Some v else json_get rest key
  end.

(** Truth value of a value. *)
Definition json_truthy (v : json) : bool :=
  match v with
  | JNull => false
  | JBool b => b
  | JInt z => negb (z =? 0)%Z
  | JFloat (S754_zero _) => false
  | JFloat _ => true
  | JStr s => Py.truthy s
  | JList [] => false
  | JList (_ :: _) => true
  | JDict [] => false
  | JDict (_ :: _) => true
  end.

Section RowOfRecord.
(** [str(v)] for a float, a list or an object: the text the interpreter
    prints for it. *)
Variable repr : json -> string.

(** [str(v)] *)
Definition json_str (v : json) : string :=
  match v with
  | JStr s => s
  | JNull => "None"
  | JBool true => "True"
  | JBool false => "False"
  | JInt z => Py.str_of_Z z
  | _ => repr v
  end.

(** [f"{i+1}. {item}"] for the items from position [i] on. *)
Fixpoint numbered_items (i : nat) (items : list json) : list string :=
  match items with
  | [] => []
  | item :: rest =>
      (Py.str_of_nat (S i) +:+ ". " +:+ json_str item) :: numbered_items (S i) rest
  end.

Definition format_list_as_numbered (val : json) : string :=
  match val with
  | JList [] => ""
  | JList [item] => json_str item
  | JList items => Py.join Py.nl (numbered_items 0 items)
  | JNull => ""
  | _ => json_str val
  end.

(** [v.get(key, default)]: only an object has this method. *)
Definition get_from (v : json) (key : string) (default_value : json) : json + failure :=
  match v with
  | JDict d => inl (default default_value (json_get d key))
  | _ => inr AttributeError
  end.

(** The seven values that [extract_scores_from_json] returns, by key. *)
Record Scores : Type := {
  score_rigor : json;
  score_innovation : json;
  score_practicality : json;
  score_impact : json;
  score_readability : json;
  overall_score : json;
  recommendation_level : json
}.

Definition extract_scores_from_json (json_obj : list (string * json)) : Scores + failure :=
  let scores := default (JDict []) (json_get json_obj "scores") in
  let recommendation := default (JDict []) (json_get json_obj "recommendation") in
  match get_from scores "rigor" (JStr ""), get_from scores "innovation" (JStr ""),
        get_from scores "practicality" (JStr ""), get_from scores "impact" (JStr ""),
        get_from scores "readability" (JStr ""), get_from scores "overall" (JStr ""),
        get_from recommendation "level" (JStr "") with
  | inl a, inl b, inl c, inl d, inl e, inl f, inl g =>
      inl {| score_rigor := a; score_innovation := b; score_practicality := c;
             score_impact := d; score_readability := e; overall_score := f;
             recommendation_level := g |}
  | _, _, _, _, _, _, _ => inr AttributeError
  end.

(** [str(kw) for kw in keywords]: a list yields its items, a text its
    characters, an object its keys; no other value can be looped over. *)
Definition keyword_texts (keywords : json) : list string + failure :=
  match keywords with
  | JList items => inl (map json_str items)
  | JStr s => inl (Py.characters s)
  | JDict d => inl (map fst d)
  | _ => inr TypeError
  end.

(** The lines for one entry of the implementation path. *)
Definition path_lines (idx : nat) (key : string) (value : json) : list string + failure :=
  match value with
  | JDict d =>
      let keywords := default (JList []) (json_get d "keywords") in
      match default (JStr "") (json_get d "description") with
      | JStr text =>
          let description := Py.strip text in
          let tail := if Py.truthy description then ["   → " +:+ description] else [] in
          if json_truthy keywords then
            match keyword_texts keywords with
            | inl kws =>
                inl ((Py.str_of_nat idx +:+ ". " +:+ key +:+ " ["
                      +:+ Py.join " | " kws +:+ "]") :: tail)
            | inr e => inr e
            end
          else inl ((Py.str_of_nat idx +:+ ". " +:+ key) :: tail)
      | _ => inr AttributeError
      end
  | _ => inl [Py.str_of_nat idx +:+ ". " +:+ key +:+ ": " +:+ json_str value]
  end.

(** The loop over the entries, numbered from [idx]. *)
Fixpoint path_loop (idx : nat) (entries : list (string * json)) : list string + failure :=
  match entries with
  | [] => inl []
  | (key, value) :: rest =>
      match path_lines idx key value with
      | inl first =>
          match path_loop (S idx) rest with
          | inl more => inl (first ++ more)
          | inr e => inr e
          end
      | inr e => inr e
      end
  end.

Definition format_implementation_path (impl_path_dict : json) : string + failure :=
  if negb (json_truthy impl_path_dict) then inl ""
  else
    match impl_path_dict with
    | JStr s => inl s
    | JDict d =>
        match path_loop 1 d with
        | inl lines => inl (Py.join Py.nl lines)
        | inr e => inr e
        end
    | _ => inl (json_str impl_path_dict)
    end.

(** [", ".join(str(v) for v in val)] for a list, else the text of a
    value that is true. *)
Definition joined_cell (val : json) : string :=
  match val with
  | JList items => Py.join ", " (map json_str items)
  | _ => if json_truthy val then json_str val else ""
  end.

(** [str(val) if val else ""] *)
Definition score_cell (val : json) : string :=
  if json_truthy val then json_str val else "".

(** The last branch of the loop: [None] gives an empty cell. *)
Definition plain_cell (data : list (string * json)) (key : string) : string :=
  match default (JStr "") (json_get data key) with
  | JNull => ""
  | val => json_str val
  end.

(** The row that [append_to_csv] writes for the record [data], cell by
    cell in the order of [CSV_FIELDS]. *)
Definition append_to_csv_row (data : list (string * json)) (index_value : string)
  : list string + failure :=
  match extract_scores_from_json data with
  | inr e => inr e
  | inl scores_data =>
      match format_implementation_path (default (JStr "") (json_get data "implementation_path")) with
      | inr e => inr e
      | inl path_cell =>
          inl [ index_value;
                plain_cell data "year";
                plain_cell data "venue";
                plain_cell data "authors";
                plain_cell data "title";
                plain_cell data "paper_type";
                joined_cell (default (JList []) (json_get data "domain_tags"));
                joined_cell (default (JList []) (json_get data "keywords"));
                plain_cell data "research_object";
                plain_cell data "methodology";
                format_list_as_numbered (default (JStr "") (json_get data "problem"));
                format_list_as_numbered (default (JStr "") (json_get data "conclusion"));
                path_cell;
                plain_cell data "contribution";
                score_cell (score_rigor scores_data);
                score_cell (score_innovation scores_data);
                score_cell (score_practicality scores_data);
                score_cell (score_impact scores_data);
                score_cell (score_readability scores_data);
                score_cell (overall_score scores_data);
                score_cell (recommendation_level scores_data) ]
      end
  end.
End RowOfRecord.

(** **** When a row can be built *)

Definition is_object (v : json) : bool :=
  match v with
  | JDict _ => true
  | _ => false
  end.

(** The values under [scores] and [recommendation] are objects, or are
    absent. *)
Definition scores_ok (data : list (string * json)) : bool :=
  is_object (default (JDict []) (json_get data "scores"))
  && is_object (default (JDict []) (json_get data "recommendation")).

(** An entry of the implementation path that is an object has a text as
    its description, or none, and keywords that can be looped over, or
    none. *)
Definition entry_ok (value : json) : bool :=
  match value with
  | JDict d =>
      match default (JStr "") (json_get d "description") with
      | JStr _ =>
          match default (JList []) (json_get d "keywords") with
          | JInt z => (z =? 0)%Z
          | JFloat (S754_zero _) => true
          | JFloat _ => false
          | JBool b => negb b
          | _ => true
          end
      | _ => false
      end
  | _ => true
  end.

Definition path_ok (data : list (string * json)) : bool :=
  match default (JStr "") (json_get data "implementation_path") with
  | JDict d => forallb (fun entry => entry_ok (snd entry)) d
  | _ => true
  end.

(** The score of a record under [key], as [extract_scores_from_json]
    finds it. *)
Definition score_value (data : list (string * json)) (key : string) : json :=
  match default (JDict []) (json_get data "scores") with
  | JDict d => default (JStr "") (json_get d key)
  | _ => JStr ""
  end.

(** The keys of the scores and the columns they are written to. *)
Definition SCORE_COLUMNS : list (string * string) :=
  [("rigor", "学术严谨度"); ("innovation", "创新程度"); ("practicality", "实用价值");
   ("impact", "影响范围"); ("readability", "可读性"); ("overall", "综合评分")].


(** *** parse_theme_buckets *)

(** One iteration of the loop over the lines of the bucket file.  The first
    test of the source is [line.startswith('## ') and not
    line.startswith('## ')], with the same literal twice. *)
Definition theme_of_line (raw : string) : option string :=
  let line := Py.strip raw in
  if Py.startswith line "## " && negb (Py.startswith line "## ") then
    let theme_name := Py.strip (Py.drop 3 line) in
    if Py.truthy theme_name then Some theme_name else None
  else if Py.startswith line "##" then
    let theme_name := Py.strip (Py.drop 2 line) in
    if Py.truthy theme_name then Some theme_name else None
  else None.

(** [content] is the text of the bucket file. *)
Definition parse_theme_buckets (content : string) : list string :=
  omap theme_of_line (Py.split "010"%char content).

(** *** scan_folders *)

(** What [is_file] and [is_dir] tell about a directory entry. *)
Inductive kind : Type := RegularFile | Directory | OtherKind.

(** An entry directly under the PDF directory, with the entries inside it
    when it is a directory. *)
Record DirEntry : Type := {
  entry_name : string;
  entry_kind : kind;
  children : list (string * kind)
}.

(** [f.is_file() and f.suffix.lower() == '.pdf'] *)
Definition is_pdf_file (file_name : string) (k : kind) : bool :=
  match k with
  | RegularFile => String.eqb (Py.lower (Py.suffix file_name)) ".pdf"
  | _ => false
  end.

Definition count_if {A : Type} (p : A -> bool) (l : list A) : nat :=
  length (List.filter p l).

(** The names of the PDF files directly inside a folder, in the order the
    system yields them. *)
Definition pdf_children (item : DirEntry) : list string :=
  map fst (List.filter (fun f => is_pdf_file (fst f) (snd f)) (children item)).

(** The branch for a sub-folder: its status, if it holds a PDF. *)
Definition folder_status (json : gset (string * string)) (item : DirEntry)
  : option FolderStatus :=
  let folder_name := entry_name item in
  let pdf_files :=
    Py.list_sort String.ltb id false (pdf_children item) in
  match pdf_files with
  | [] => None
  | _ :: _ =>
      let has_json pdf :=
        bool_decide ((folder_name, Py.stem pdf +:+ ".json") ∈ json) in
      Some {| name := folder_name;
              path := folder_name;
              total_pdfs := length pdf_files;
              processed := count_if has_json pdf_files;
              pending := count_if (fun pdf => negb (has_json pdf)) pdf_files;
              pdf_files := pdf_files |}
  end.

(** The first test of the loop, for an entry of the PDF directory. *)
Definition root_pdf (item : DirEntry) : bool :=
  is_pdf_file (entry_name item) (entry_kind item).

(** One iteration of the loop over [PDF_DIR.iterdir()]. *)
Definition scan_step (json : gset (string * string))
    (acc : gmap string FolderStatus * list string) (item : DirEntry)
  : gmap string FolderStatus * list string :=
  let '(folders, root_pdfs) := acc in
  if is_pdf_file (entry_name item) (entry_kind item) then
    (folders, root_pdfs ++ [entry_name item])
  else
    match entry_kind item with
    | Directory =>
        match folder_status json item with
        | Some folder => (<[entry_name item := folder]> folders, root_pdfs)
        | None => acc
        end
    | _ => acc
    end.

(** [root] lists the entries of the PDF directory in the order the system
    yields them.  The folders are collected in a dictionary by name and its
    values are sorted by name; as the names are the keys, no two values
    have the same name and the sorted list does not depend on the order of
    the values. *)
Definition scan_folders (root : list DirEntry) (json : gset (string * string))
  : list FolderStatus * list string :=
  let '(folders, root_pdfs) := fold_left (scan_step json) root (∅, []) in
  (Py.list_sort String.ltb name false (map snd (map_to_list folders)), root_pdfs).

(** *** parse_selection *)

(** What one comma-separated part adds to the set of indices.  In the range
    branch the bare [except] also catches the error of the bounds test, and
    in the other branch [except ValueError] does: either way the error that
    leaves the function names the part. *)
Definition parse_part (part : string) (max_num : Z) : Py.result (list Z) :=
  if Py.contains_char "-" part then
    match Py.split "-" part with
    | [a; b] =>
        match Py.int a, Py.int b with
        | Some start, Some end_ =>
            if (start <? 1)%Z || (max_num <? end_)%Z || (end_ <? start)%Z
            then Py.Raise (Py.ValueError ("无法解析范围: " +:+ part))
            else Py.Ok (Py.range (start - 1) end_)
        | _, _ => Py.Raise (Py.ValueError ("无法解析范围: " +:+ part))
        end
    | _ => Py.Raise (Py.ValueError ("无法解析范围: " +:+ part))
    end
  else
    match Py.int part with
    | Some num =>
        if (num <? 1)%Z || (max_num <? num)%Z
        then Py.Raise (Py.ValueError ("无法解析序号: " +:+ part))
        else Py.Ok [(num - 1)%Z]
    | None => Py.Raise (Py.ValueError ("无法解析序号: " +:+ part))
    end.

(** The loop over the parts; empty parts are passed over. *)
Fixpoint parse_parts (parts : list string) (max_num : Z) (indices : gset Z)
  : Py.result (gset Z) :=
  match parts with
  | [] => Py.Ok indices
  | part :: rest =>
      if negb (Py.truthy part) then parse_parts rest max_num indices
      else
        match parse_part part max_num with
        | Py.Ok new => parse_parts rest max_num (indices ∪ list_to_set new)
        | Py.Raise e => Py.Raise e
        end
  end.

Definition parse_selection (selection : string) (max_num : Z) : Py.result (list Z) :=
  let parts := Py.split "," (Py.remove_char " " selection) in
  match parse_parts parts max_num ∅ with
  | Py.Ok indices => Py.Ok (Py.list_sort Z.ltb id false (elements indices))
  | Py.Raise e => Py.Raise e
  end.

(** *** The selector grammar, in the words of the specification *)

(** A token is a single 1-based number or an inclusive range. *)
Inductive token : Type :=
| Single (n : Z)
| Range (a b : Z).

(** How a token is written: a number is an integer literal without a
    hyphen, a range is two such literals joined by one hyphen. *)
Inductive written_as : string -> token -> Prop :=
| written_single part n :
    Py.contains_char "-" part = false ->
    Py.int part = Some n ->
    written_as part (Single n)
| written_range sa sb a b :
    Py.contains_char "-" sa = false ->
    Py.contains_char "-" sb = false ->
    Py.int sa = Some a ->
    Py.int sb = Some b ->
    written_as (sa +:+ String "-" sb) (Range a b).

(** Both bounds within [1, max_num], and a range not reversed. *)
Definition in_bounds (max_num : Z) (t : token) : Prop :=
  match t with
  | Single n => (1 <= n <= max_num)%Z
  | Range a b => (1 <= a /\ a <= b /\ b <= max_num)%Z
  end.

(** The 0-based indices a token stands for. *)
Definition selects (t : token) (i : Z) : Prop :=
  match t with
  | Single n => i = (n - 1)%Z
  | Range a b => (a - 1 <= i <= b - 1)%Z
  end.

Definition well_formed (max_num : Z) (part : string) : Prop :=
  exists t, written_as part t /\ in_bounds max_num t.


(** *** get_user_choice and get_folder_selection *)

Inductive mode : Type := Quit | All | Select.

(** How the dialogue ends: with a mode, the indices of the folders and
    the overwrite flag; with the [EOFError] of [input] when the answers
    run out; or with an exception of the code between the prompts. *)
Inductive choice : Type :=
| Chosen (m : mode) (selected : list Z) (overwrite : bool)
| EndOfInput
| Failed (e : Py.exn).

(** [[i for i, f in enumerate(folders) if p(f)]], counting from [i]. *)
Fixpoint positions {A : Type} (p : A -> bool) (i : Z) (l : list A) : list Z :=
  match l with
  | [] => []
  | x :: l' => if p x then i :: positions p (i + 1) l' else positions p (i + 1) l'
  end.

(** [confirm in ('', 'y', 'yes')] *)
Definition confirmed (confirm : string) : bool :=
  String.eqb confirm "" || String.eqb confirm "y" || String.eqb confirm "yes".

(** The two loops, which call each other: [inputs] are the lines that
    [input] returns, in order, and every turn of a loop reads one at
    least.  What is printed is left out, and so is the limit of the
    interpreter on the depth of the calls. *)
Fixpoint get_user_choice (folders : list FolderStatus) (inputs : list string)
    {struct inputs} : choice :=
  match inputs with
  | [] => EndOfInput
  | line :: rest =>
      let choice := Py.upper (Py.strip line) in
      if String.eqb choice "Q" then Chosen Quit [] false
      else if String.eqb choice "A" then
        let indices := positions (fun f => (0 <? pending f)%nat) 0 folders in
        match indices with
        | [] => Chosen Quit [] false
        | _ :: _ => Chosen All indices false
        end
      else if String.eqb choice "R" then
        match rest with
        | [] => EndOfInput
        | line2 :: rest2 =>
            let confirm := Py.lower (Py.strip line2) in
            if String.eqb confirm "y"
            then Chosen All (positions (fun f => (0 <? total_pdfs f)%nat) 0 folders) true
            else get_user_choice folders rest2
        end
      else if String.eqb choice "S" then get_folder_selection folders rest
      else get_user_choice folders rest
  end
with get_folder_selection (folders : list FolderStatus) (inputs : list string)
    {struct inputs} : choice :=
  match inputs with
  | [] => EndOfInput
  | line :: rest =>
      let selection := Py.strip line in
      if String.eqb (Py.upper selection) "B" then get_user_choice folders rest
      else
        match parse_selection selection (Z.of_nat (length folders)) with
        | Py.Raise (Py.ValueError _) => get_folder_selection folders rest
        | Py.Raise e => Failed e
        | Py.Ok [] => get_folder_selection folders rest
        | Py.Ok (i :: more) =>
            let indices := i :: more in
            match Py.for_each (Py.getitem folders) indices with
            | Py.Raise (Py.ValueError _) => get_folder_selection folders rest
            | Py.Raise e => Failed e
            | Py.Ok chosen =>
                let has_processed := existsb (fun f => (0 <? processed f)%nat) chosen in
                if has_processed then
                  match rest with
                  | [] => EndOfInput
                  | line2 :: rest2 =>
                      let ow_choice := Py.upper (Py.strip line2) in
                      let overwrite := String.eqb ow_choice "O" in
                      match rest2 with
                      | [] => EndOfInput
                      | line3 :: rest3 =>
                          if confirmed (Py.lower (Py.strip line3))
                          then Chosen Select indices overwrite
                          else get_folder_selection folders rest3
                      end
                  end
                else
                  match rest with
                  | [] => EndOfInput
                  | line3 :: rest3 =>
                      if confirmed (Py.lower (Py.strip line3))
                      then Chosen Select indices false
                      else get_folder_selection folders rest3
                  end
            end
        end
  end.

(** *** What an outcome of the dialogue says about the answers *)

(** - [quit] carries no index and no overwrite;
    - [all] without overwrite carries the folders that have a pending
      document, and there is one;
    - [all] with overwrite carries the folders that hold a document, and
      an answer [R] was followed by the answer [y];
    - [select] carries the list that [parse_selection] gives for one of
      the answers; with overwrite, the next answer was [O] and one of the
      folders selected has a processed document;
    - no exception leaves the dialogue but the end of the answers. *)
Definition answered (folders : list FolderStatus) (inputs : list string)
    (c : choice) : Prop :=
  match c with
  | EndOfInput => True
  | Failed _ => False
  | Chosen Quit selected overwrite => selected = [] /\ overwrite = false
  | Chosen All selected false =>
      selected <> []
      /\ selected = positions (fun f => (0 <? pending f)%nat) 0 folders
  | Chosen All selected true =>
      selected = positions (fun f => (0 <? total_pdfs f)%nat) 0 folders
      /\ exists k r y, inputs !! k = Some r /\ inputs !! S k = Some y
                       /\ Py.upper (Py.strip r) = "R" /\ Py.lower (Py.strip y) = "y"
  | Chosen Select selected overwrite =>
      selected <> []
      /\ exists k line,
           inputs !! k = Some line
           /\ parse_selection (Py.strip line) (Z.of_nat (length folders)) = Py.Ok selected
           /\ (overwrite = true ->
               (exists o, inputs !! S k = Some o /\ Py.upper (Py.strip o) = "O")
               /\ exists i f, i ∈ selected /\ folders !! Z.to_nat i = Some f
                              /\ (0 < processed f)%nat)
  end.

(** *** extract_pdf_text *)

(** The marker appended to a truncated text: two line feeds, then
    a bracketed note of ten characters. *)
Definition TRUNCATION_MARKER : Py.text :=
  [10; 10; 91; 27880; 58; 32; 25991; 26412; 24050; 25130; 26029; 93]%N.

(** Header and body of one page, numbered from 1. *)
Definition page_part (page_num : nat) (t : Py.text) : Py.text :=
  ([45; 45; 45; 32; 31532; 32]%N ++ Py.u_str_of_nat page_num
     ++ [32; 39029; 32; 45; 45; 45; 10]%N) ++ t.

(** The loop over the pages: pages that are blank after stripping are left
    out, the others keep their page number. *)
Fixpoint text_parts (page_num : nat) (doc : list Py.text) : list Py.text :=
  match doc with
  | [] => []
  | t :: rest =>
      if Py.u_strip_nonempty t
      then page_part page_num t :: text_parts (S page_num) rest
      else text_parts (S page_num) rest
  end.

(** The joined text of the document before the length test. *)
Definition full_text (doc : list Py.text) : Py.text :=
  Py.u_join [10; 10]%N (text_parts 1 doc).

(** [doc] is what the PDF library yields: the text of each page in order. *)
Definition extract_pdf_text (doc : list Py.text) : Py.text :=
  let full_text := full_text doc in
  if (MAX_PDF_CHARS <? length full_text)%nat
  then firstn MAX_PDF_CHARS full_text ++ TRUNCATION_MARKER
  else full_text.

(** *** process_folder *)

(** How far the body of the [try] gets for one document: the step that
    raises, with the text of its exception, or the record extracted when
    every step goes through. *)
Inductive attempt : Type :=
| TextError (err : string)            (* extract_pdf_text raises *)
| LlmError (err : string)             (* call_llm raises *)
| JsonDecodeError (err : string)      (* json.loads raises JSONDecodeError *)
| JsonWriteError (err : string) (created : bool)
                                      (* stamping or writing the artifact raises *)
| LocalCsvError (err : string)        (* the append to the folder's table raises *)
| AllCsvError (data err : string)     (* the append to the combined table raises *)
| Completed (data : string).

Section Processing.
(** What the outside world (the PDF library, the service, the disk)
    answers for a document of a folder. *)
Variable attempt_of : string -> string -> attempt.

Definition add_fail (st : Stats) : Stats :=
  {| success := success st; skip := skip st; fail := S (fail st) |}.
Definition add_success (st : Stats) : Stats :=
  {| success := S (success st); skip := skip st; fail := fail st |}.
Definition add_skip (st : Stats) : Stats :=
  {| success := success st; skip := S (skip st); fail := fail st |}.

Definition csv_name (folder_name : string) : string := folder_name +:+ ".csv".

(** The body of the loop over [to_process] without the pause: the [try]
    and its two handlers. *)
Definition process_pdf (folder_name pdf : string)
    (acc : Stats * nat * World) : Stats * nat * World :=
  let '(stats, global_index, w) := acc in
  match attempt_of folder_name pdf with
  | TextError e =>
      (add_fail stats, global_index, log_error pdf e w)
  | LlmError e =>
      (add_fail stats, global_index, log_error pdf e (count_llm_call w))
  | JsonDecodeError e =>
      (add_fail stats, global_index,
       log_error pdf ("JSON解析失败: " +:+ e) (count_llm_call w))
  | JsonWriteError e created =>
      let w1 := count_llm_call w in
      let w2 := if created then write_json folder_name pdf w1 else w1 in
      (add_fail stats, global_index, log_error pdf e w2)
  | LocalCsvError e =>
      let w2 := write_json folder_name pdf (count_llm_call w) in
      (add_fail stats, global_index, log_error pdf e w2)
  | AllCsvError data e =>
      let w2 := write_json folder_name pdf (count_llm_call w) in
      let local_index := extract_number_from_filename pdf in
      let w3 := append_to_csv (csv_name folder_name) data local_index w2 in
      (add_fail stats, global_index, log_error pdf e w3)
  | Completed data =>
      let w2 := write_json folder_name pdf (count_llm_call w) in
      let local_index := extract_number_from_filename pdf in
      let w3 := append_to_csv (csv_name folder_name) data local_index w2 in
      let w4 := append_to_csv ALL_CSV_NAME data (Py.str_of_nat global_index) w3 in
      (add_success stats, S global_index, w4)
  end.

(** The first loop of [process_folder]: the documents to process, and one
    skip for every other document. *)
Definition select_pdf (w : World) (folder_name : string) (overwrite : bool)
    (acc : list string * Stats) (pdf : string) : list string * Stats :=
  let '(to_process, stats) := acc in
  if overwrite || negb (json_exists w folder_name pdf)
  then (to_process ++ [pdf], stats)
  else (to_process, add_skip stats).

(** The second loop: [i] is the 1-based position that [enumerate] gives,
    [n] is [len(to_process)]; a pause follows every document but the
    last. *)
Fixpoint process_all (folder_name : string) (n i : nat) (to_process : list string)
    (acc : Stats * nat * World) : Stats * nat * World :=
  match to_process with
  | [] => acc
  | pdf :: rest =>
      let '(stats, global_index, w) := process_pdf folder_name pdf acc in
      let w' := if (i <? n)%nat then sleep w else w in
      process_all folder_name n (S i) rest (stats, global_index, w')
  end.

(** [process_folder(folder, prompt_template, theme_content, overwrite,
    global_index_start)].  The two texts only enter the request whose
    outcome [attempt_of] gives, so they are not arguments here. *)
Definition process_folder (folder : FolderStatus) (overwrite : bool)
    (global_index_start : nat) (w : World) : (Stats * nat) * World :=
  let stats := {| success := 0; skip := 0; fail := 0 |} in
  let global_index := global_index_start in
  let csv_path := csv_name (name folder) in
  let w := if overwrite && bool_decide (is_Some (csv_files w !! csv_path))
           then unlink_csv csv_path w else w in
  let w := init_csv csv_path w in
  let w := init_csv ALL_CSV_NAME w in
  let '(to_process, stats) :=
    fold_left (select_pdf w (name folder) overwrite) (pdf_files folder) ([], stats) in
  match to_process with
  | [] => ((stats, global_index), w)
  | _ :: _ =>
      let '(stats, global_index, w) :=
        process_all (name folder) (length to_process) 1 to_process
                    (stats, global_index, w) in
      ((stats, global_index), w)
  end.

(** *** main: the loop over the selected folders *)

Definition add_stats (a b : Stats) : Stats :=
  {| success := success a + success b; skip := skip a + skip b;
     fail := fail a + fail b |}.

(** An exception leaves the loop with the files as they are at that
    point, so the world is returned beside the outcome. *)
Fixpoint main_loop (folders : list FolderStatus) (overwrite : bool)
    (selected_indices : list nat) (total_stats : Stats) (global_index : nat)
    (w : World) : Py.result (Stats * nat) * World :=
  match selected_indices with
  | [] => (Py.Ok (total_stats, global_index), w)
  | idx :: rest =>
      match folders !! idx with
      | None => (Py.Raise Py.IndexError, w)
      | Some folder =>
          if negb overwrite && (pending folder =? 0)%nat
          then main_loop folders overwrite rest total_stats global_index w
          else
            let '((stats, global_index'), w') :=
              process_folder folder overwrite global_index w in
            main_loop folders overwrite rest (add_stats total_stats stats)
                      global_index' w'
      end
  end.

(** The part of [main] after the user's choice: the totals start at zero
    and the global index at 1. *)
Definition run_selected (folders : list FolderStatus) (overwrite : bool)
    (selected_indices : list nat) (w : World) : Py.result (Stats * nat) * World :=
  main_loop folders overwrite selected_indices
            {| success := 0; skip := 0; fail := 0 |} 1 w.
End Processing.


(** *** Observations on a run *)

(** The data rows of the combined table. *)
Definition all_rows (w : World) : list csv_row :=
  default [] (csv_files w !! ALL_CSV_NAME).

(** The data rows of the table in the file [file]. *)
Definition table_rows (w : World) (file : string) : list csv_row :=
  default [] (csv_files w !! file).

(** The documents the second loop of [process_folder] works on: all of
    them with [overwrite], else those without an artifact. *)
Definition to_process (w : World) (folder : FolderStatus) (overwrite : bool)
  : list string :=
  List.filter (fun pdf => overwrite || negb (json_exists w (name folder) pdf))
              (pdf_files folder).


(** The rows the documents add when the table of their folder is the
    combined file itself: the row under the number of the file name, then
    the row under the global index. *)
Fixpoint shared_rows (attempt_of : string -> string -> attempt)
    (folder_name : string) (global_index : nat) (pdfs : list string) : list csv_row :=
  match pdfs with
  | [] => []
  | pdf :: rest =>
      match attempt_of folder_name pdf with
      | Completed data =>
          (extract_number_from_filename pdf, data)
          :: (Py.str_of_nat global_index, data)
          :: shared_rows attempt_of folder_name (S global_index) rest
      | AllCsvError data _ =>
          (extract_number_from_filename pdf, data)
          :: shared_rows attempt_of folder_name global_index rest
      | _ => shared_rows attempt_of folder_name global_index rest
      end
  end.

(** The pages of a document with their numbers, from [page_num] on. *)
Definition numbered_pages (page_num : nat) (doc : list Py.text) : list (nat * Py.text) :=
  combine (seq page_num (length doc)) doc.


End AutoRunner.

(** ** scenario_rescoring.py *)
Module Rescoring.

(** *** Dictionaries that keep the order of their keys *)

Fixpoint dict_get {V : Type} (d : list (string * V)) (key : string) : option V :=
  match d with
  | [] => None
  | (k, v) :: rest => if String.eqb k key then Some v else dict_get rest key
  end.

(** [d[key] = v]: the value is replaced where the key stands, or the pair
    is added at the end. *)
Fixpoint dict_set {V : Type} (d : list (string * V)) (key : string) (v : V)
  : list (string * V) :=
  match d with
  | [] => [(key, v)]
  | (k, x) :: rest =>
      if String.eqb k key then (k, v) :: rest else (k, x) :: dict_set rest key v
  end.

(** A row as [csv.DictReader] yields it: column name to text. *)
Abbreviation Row := (list (string * string)).

(** *** Constants and data structures *)

Definition SCORE_TO_LEVEL : list (spec_float * string) :=
  [ (Py.float_of_Z 9, "⭐⭐⭐⭐⭐");
    (Py.float_of_decimal false 75 (-1), "⭐⭐⭐⭐");
    (Py.float_of_Z 6, "⭐⭐⭐");
    (Py.float_of_Z 4, "⭐⭐");
    (Py.float_of_Z 0, "⭐") ].

Record PaperRecord : Type := {
  index : string;
  title : string;
  rigor : spec_float;
  innovation : spec_float;
  practicality : spec_float;
  impact : spec_float;
  readability : spec_float;
  p0_overall : spec_float;
  p0_level : string;
  original_row : Row
}.

Record ScenarioScore : Type := {
  scenario_name : string;
  overall_score : spec_float;
  level : string
}.

(** The [weights] dictionary of a scenario, by key. *)
Record Weights : Type := {
  w_rigor : spec_float;
  w_innovation : spec_float;
  w_practicality : spec_float;
  w_impact : spec_float;
  w_readability : spec_float
}.

Record ScenarioConfig : Type := {
  description : string;
  weights : Weights
}.

(** *** score_to_level *)

(** The loop over the table: the first threshold that the score reaches. *)
Fixpoint first_level (table : list (spec_float * string)) (score : spec_float)
  : option string :=
  match table with
  | [] => None
  | (threshold, lvl) :: rest =>
      if Py.fle threshold score then Some lvl else first_level rest score
  end.

Definition score_to_level (score : spec_float) : string :=
  default "⭐" (first_level SCORE_TO_LEVEL score).

(** *** load_p0_csv *)

(** [float(row.get(key, 0) or 0)]: an absent or empty value gives zero;
    [inr v] stands for the [ValueError] that [float(v)] raises. *)
Definition number_of (r : Row) (key : string) : spec_float + string :=
  match dict_get r key with
  | Some v =>
      if Py.truthy v
      then match Py.float v with
           | Some x => inl x
           | None => inr v
           end
      else inl (Py.float_of_Z 0)
  | None => inl (Py.float_of_Z 0)
  end.







(** *** calculate_scenario_score *)

Definition weighted_sum (paper : PaperRecord) (w : Weights) : spec_float :=
  Py.fadd
    (Py.fadd
       (Py.fadd
          (Py.fadd (Py.fmul (rigor paper) (w_rigor w))
                   (Py.fmul (innovation paper) (w_innovation w)))
          (Py.fmul (practicality paper) (w_practicality w)))
       (Py.fmul (impact paper) (w_impact w)))
    (Py.fmul (readability paper) (w_readability w)).

Definition calculate_scenario_score (paper : PaperRecord) (w : Weights) : ScenarioScore :=
  let overall := weighted_sum paper w in
  let overall := Py.round1 overall in
  let lvl := score_to_level overall in
  {| scenario_name := ""; overall_score := overall; level := lvl |}.

(** *** Tables written *)

(** A cell of a written table: a text or a number. *)
Inductive cell : Type :=
| CStr (s : string)
| CFloat (x : spec_float).

Record Table : Type := {
  file_name : string;
  lines : list (list cell)
}.

(** [csv.DictWriter(f, fieldnames).writerow(row)]: a key outside the field
    names raises [ValueError]; a field name without a value gives an empty
    cell. *)
Definition writerow (fieldnames : list string) (r : list (string * cell))
  : Py.result (list cell) :=
  if forallb (fun kv => existsb (String.eqb (fst kv)) fieldnames) r
  then Py.Ok (map (fun k => default (CStr "") (dict_get r k)) fieldnames)
  else Py.Raise (Py.ValueError "dict contains fields not in fieldnames").

(** *** create_comparison_table *)

Definition comparison_headers (scenarios : list (string * ScenarioConfig)) : list string :=
  ["编号"; "标题"; "学术严谨度"; "创新程度"; "实用价值"; "影响范围"; "可读性";
   "综合评分_P0"; "推荐等级_P0"]
  ++ concat (map (fun sc => ["综合评分_" +:+ fst sc; "推荐等级_" +:+ fst sc]) scenarios).

Definition comparison_line (scenarios : list (string * ScenarioConfig))
    (paper : PaperRecord) : list cell :=
  [CStr (index paper); CStr (title paper); CFloat (rigor paper);
   CFloat (innovation paper); CFloat (practicality paper); CFloat (impact paper);
   CFloat (readability paper); CFloat (p0_overall paper); CStr (p0_level paper)]
  ++ concat (map (fun sc =>
                    let score := calculate_scenario_score paper (weights (snd sc)) in
                    [CFloat (overall_score score); CStr (level score)])
                 scenarios).

Definition create_comparison_table (papers : list PaperRecord)
    (scenarios : list (string * ScenarioConfig)) (output_path : string) : Table :=
  {| file_name := output_path;
     lines := map CStr (comparison_headers scenarios)
              :: map (comparison_line scenarios) papers |}.

(** *** create_scenario_ranking_tables *)

Definition overall_column (name : string) : string := "综合评分_" +:+ name.
Definition level_column (name : string) : string := "推荐等级_" +:+ name.
Definition flag_column : string := "★推荐指数".

(** The papers with their scores, after the sort by score with
    [reverse=True]. *)
Definition scored_papers (papers : list PaperRecord) (w : Weights)
  : list (PaperRecord * ScenarioScore) :=
  Py.list_sort Py.flt (fun x => overall_score (snd x)) true
    (map (fun paper => (paper, calculate_scenario_score paper w)) papers).

(** The mark of the first ten ranks. *)
Definition top_flag (rank : nat) : string :=
  if (rank <=? 10)%nat then "🔥 TOP " +:+ Py.str_of_nat rank else "".

(** The dictionary written for one paper. *)
Definition ranking_row (name : string) (rank : nat)
    (paper : PaperRecord) (score : ScenarioScore) : list (string * cell) :=
  let row := map (fun kv => (fst kv, CStr (snd kv))) (original_row paper) in
  let row := dict_set row (overall_column name) (CFloat (overall_score score)) in
  let row := dict_set row (level_column name) (CStr (level score)) in
  dict_set row flag_column (CStr (top_flag rank)).

(** The loop over the ranked papers; [written] holds the lines written so
    far, which stay in the file when a row raises. *)
Fixpoint write_rows (name : string) (fieldnames : list string) (rank : nat)
    (scored : list (PaperRecord * ScenarioScore)) (written : list (list cell))
  : list (list cell) * option Py.exn :=
  match scored with
  | [] => (written, None)
  | (paper, score) :: rest =>
      match writerow fieldnames (ranking_row name rank paper score) with
      | Py.Ok line => write_rows name fieldnames (S rank) rest (written ++ [line])
      | Py.Raise e => (written, Some e)
      end
  end.

(** The body of the loop over the scenarios: the file is opened before
    the headers are built from [papers[0]]. *)
Definition ranking_table (papers : list PaperRecord) (name : string)
    (cfg : ScenarioConfig) : Table * option Py.exn :=
  let scored := scored_papers papers (weights cfg) in
  let filename := "排序表_" +:+ name +:+ ".csv" in
  match papers with
  | [] => ({| file_name := filename; lines := [] |}, Some Py.IndexError)
  | first :: _ =>
      let headers :=
        map fst (original_row first)
        ++ [overall_column name; level_column name; flag_column] in
      let '(written, err) := write_rows name headers 1 scored [map CStr headers] in
      ({| file_name := filename; lines := written |}, err)
  end.

(** The files written, in order, and the exception that ended the loop,
    if any. *)
Fixpoint create_scenario_ranking_tables (papers : list PaperRecord)
    (scenarios : list (string * ScenarioConfig)) : list Table * option Py.exn :=
  match scenarios with
  | [] => ([], None)
  | (name, cfg) :: rest =>
      match ranking_table papers name cfg with
      | (t, Some e) => ([t], Some e)
      | (t, None) =>
          let '(ts, err) := create_scenario_ranking_tables papers rest in
          (t :: ts, err)
      end
  end.

(** *** The scoring rule, in the words of the specification *)



(** The threshold table read from the top, each bound included. *)
Definition level_by_thresholds (score : spec_float) : string :=
  if Py.fle (Py.float_of_Z 9) score then "⭐⭐⭐⭐⭐"
  else if Py.fle (Py.float_of_decimal false 75 (-1)) score then "⭐⭐⭐⭐"
  else if Py.fle (Py.float_of_Z 6) score then "⭐⭐⭐"
  else if Py.fle (Py.float_of_Z 4) score then "⭐⭐"
  else "⭐".

(** *** Rows that are passed over *)







(** The number of stars of a level, three bytes each. *)
Definition stars (lvl : string) : nat := (String.length lvl / 3)%nat.

(** *** main *)



(** *** Ranking tables, in the words of the specification *)

(** The papers carry rows of one table with the columns [cols]. *)
Definition loaded_from (cols : list string) (papers : list PaperRecord) : Prop :=
  NoDup cols /\ Forall (fun paper => map fst (original_row paper) = cols) papers.

(** The three columns added for a scenario are not columns of the table. *)
Definition fresh_columns (cols : list string) (name : string) : Prop :=
  (overall_column name ∉ cols) /\ (level_column name ∉ cols) /\ (flag_column ∉ cols).


(** The line of a ranked paper: its original values as they are, then the
    score, the level and the mark of its rank. *)
Definition ranking_line (rank : nat) (paper : PaperRecord) (score : ScenarioScore)
  : list cell :=
  map (fun kv => CStr (snd kv)) (original_row paper)
  ++ [CFloat (overall_score score); CStr (level score); CStr (top_flag rank)].

Fixpoint ranking_lines (rank : nat) (scored : list (PaperRecord * ScenarioScore))
  : list (list cell) :=
  match scored with
  | [] => []
  | (paper, score) :: rest => ranking_line rank paper score :: ranking_lines (S rank) rest
  end.

(** The table of a scenario: the header, then one line per ranked paper
    from rank 1 on. *)
Definition expected_table (cols : list string) (papers : list PaperRecord)
    (sc : string * ScenarioConfig) : Table :=
  {| file_name := "排序表_" +:+ fst sc +:+ ".csv";
     lines :=
       map CStr (cols ++ [overall_column (fst sc); level_column (fst sc); flag_column])
       :: ranking_lines 1 (scored_papers papers (weights (snd sc))) |}.

End Rescoring.

(** ** Sample inputs used by the examples of Part II *)
Module Samples.
Import AutoRunner.

(** Two folders: the first has both artifacts already, the second has
    none. *)
Definition folder_a : FolderStatus :=
  {| name := "A"; path := "A"; total_pdfs := 2; processed := 2; pending := 0;
     pdf_files := ["01_a.pdf"; "02_b.pdf"] |}.

Definition folder_b : FolderStatus :=
  {| name := "B"; path := "B"; total_pdfs := 3; processed := 0; pending := 3;
     pdf_files := ["01_c.pdf"; "02_d.pdf"; "03_e.pdf"] |}.

Definition world_0 : World :=
  {| json_files := {[ ("A", "01_a.json"); ("A", "02_b.json") ]};
     csv_files := ∅; error_log := []; llm_calls := 0; sleeps := 0 |}.

(** The answer for the document [02_d.pdf] is not valid JSON; every other
    document goes through. *)
Definition attempts (folder_name pdf : string) : attempt :=
  if String.eqb pdf "02_d.pdf" then JsonDecodeError "Expecting value"
  else Completed pdf.

(** A PDF directory with two loose files, two folders that hold PDF
    files and an empty folder. *)
Definition notes_txt : DirEntry :=
  {| entry_name := "notes.txt"; entry_kind := RegularFile; children := [] |}.

Definition root_0 : list DirEntry :=
  [ notes_txt;
    {| entry_name := "loose.PDF"; entry_kind := RegularFile; children := [] |};
    {| entry_name := "B"; entry_kind := Directory;
       children := [("02_d.pdf", RegularFile); ("01_c.pdf", RegularFile);
                    ("readme.md", RegularFile); ("old.pdf", Directory)] |};
    {| entry_name := "A"; entry_kind := Directory;
       children := [("01_a.pdf", RegularFile); ("02_b.pdf", RegularFile)] |};
    {| entry_name := "Empty"; entry_kind := Directory; children := [] |} ].






(** A folder named like the combined table, with one document, and a
    world whose combined table holds one row. *)
Definition folder_all : FolderStatus :=
  {| name := "_all_papers"; path := "_all_papers"; total_pdfs := 1; processed := 0;
     pending := 1; pdf_files := ["07_x.pdf"] |}.

Definition world_1 : World :=
  {| json_files := ∅; csv_files := {[ "_all_papers.csv" := [("1", "old")] ]};
     error_log := []; llm_calls := 0; sleeps := 0 |}.

(** A record with two scores, one of them zero, and a printer for the
    values that are not texts or integers. *)
Definition record_0 : list (string * json) :=
  [ ("title", JStr "T");
    ("keywords", JList [JStr "a"; JStr "b"]);
    ("scores", JDict [("rigor", JInt 8); ("innovation", JInt 0)]);
    ("recommendation", JDict [("level", JStr "⭐⭐⭐")]) ].

Definition repr_0 (v : json) : string := "?".

(** A width table that knows the unified ideographs only, and a folder
    name of twenty ideographs. *)
Definition wide_cjk (c : N) : bool := ((19968 <=? c) && (c <=? 40959))%N.

End Samples.

(* ===================================================================== *)
(** * Part II: properties                                                 *)
(* ===================================================================== *)

(** ** The sort of the language *)
Section SortProps.
Context {A K : Type} (lt : K -> K -> bool) (key : A -> K).

Lemma insert_sorted_Permutation (x : A) (l : list A) :
  Py.insert_sorted lt key x l ≡ₚ x :: l.
Proof.
  induction l as [| y l IH]; simpl; [reflexivity |].
  destruct (lt (key y) (key x)); [| reflexivity].
  rewrite IH. apply perm_swap.
Qed.

Lemma stable_sort_Permutation (l : list A) : Py.stable_sort lt key l ≡ₚ l.
Proof.
  induction l as [| x l IH]; simpl; [reflexivity |].
  rewrite insert_sorted_Permutation, IH. reflexivity.
Qed.

Lemma list_sort_Permutation (reverse : bool) (l : list A) :
  Py.list_sort lt key reverse l ≡ₚ l.
Proof.
  unfold Py.list_sort. destruct reverse.
  - rewrite <- Permutation_rev, stable_sort_Permutation, <- Permutation_rev. reflexivity.
  - apply stable_sort_Permutation.
Qed.

(** [dom] holds of the keys that [<] orders: there it is asymmetric and
    its negation is transitive. *)
Variable dom : K -> Prop.
Hypothesis lt_asym : forall a b, dom a -> dom b -> lt a b = true -> lt b a = false.
Hypothesis lt_negtrans :
  forall a b c, dom a -> dom b -> dom c ->
                lt b a = false -> lt c b = false -> lt c a = false.

Lemma insert_sorted_StronglySorted (x : A) (l : list A) :
  dom (key x) -> Forall (fun a => dom (key a)) l ->
  StronglySorted (Py.not_after lt key) l ->
  StronglySorted (Py.not_after lt key) (Py.insert_sorted lt key x l).
Proof.
  intros Hx Hdom Hs. induction Hs as [| y l Hs IH Hy]; simpl.
  - repeat constructor.
  - inversion Hdom as [| ? ? Hdy Hdl]; subst.
    destruct (lt (key y) (key x)) eqn:Hlt.
    + constructor; [apply IH; assumption |].
      rewrite (insert_sorted_Permutation x l).
      constructor; [| assumption].
      unfold Py.not_after. apply lt_asym; assumption.
    + constructor; [constructor; assumption |].
      constructor; [exact Hlt |].
      rewrite Forall_forall in Hy, Hdl |- *. intros z Hz.
      unfold Py.not_after in *.
      apply (lt_negtrans (key x) (key y) (key z)); auto.
Qed.

Lemma stable_sort_StronglySorted (l : list A) :
  Forall (fun a => dom (key a)) l ->
  StronglySorted (Py.not_after lt key) (Py.stable_sort lt key l).
Proof.
  induction 1 as [| x l Hx Hl IH]; simpl; [constructor |].
  apply insert_sorted_StronglySorted; try assumption.
  rewrite stable_sort_Permutation. assumption.
Qed.



(** Stability.  [same] is the equality of keys; a key below another is
    not the same as it. *)
Variable same : K -> K -> bool.
Hypothesis lt_not_same :
  forall a b k, lt a b = true -> same a k = true -> same b k = true -> False.




End SortProps.

(** ** Text extraction *)
Section ExtractPdfText.
Import AutoRunner.

Lemma length_truncated (t : Py.text) :
  (MAX_PDF_CHARS < length t)%nat ->
  length (firstn MAX_PDF_CHARS t ++ TRUNCATION_MARKER)
  = (MAX_PDF_CHARS + length TRUNCATION_MARKER)%nat.
Proof.
  intros Hlt. rewrite length_app, length_take. lia.
Qed.

Lemma MAX_PDF_CHARS_value : Z.of_nat MAX_PDF_CHARS = 30000%Z.
Proof. unfold MAX_PDF_CHARS. lia. Qed.

(** C10: a joined text of at most 30000 characters is returned as it is;
    a longer one is cut to its first 30000 characters and the marker of
    12 characters is appended, so the result has 30012 characters, more
    than the budget of 30000. *)
Theorem extract_pdf_text_truncation (doc : list Py.text) :
  ((length (full_text doc) <= MAX_PDF_CHARS)%nat ->
     extract_pdf_text doc = full_text doc)
  /\ ((MAX_PDF_CHARS < length (full_text doc))%nat ->
        extract_pdf_text doc
        = firstn MAX_PDF_CHARS (full_text doc) ++ TRUNCATION_MARKER
        /\ Z.of_nat (length (extract_pdf_text doc)) = (30000 + 12)%Z
        /\ (30000 < Z.of_nat (length (extract_pdf_text doc)))%Z).
Proof.
  unfold extract_pdf_text. split; intros Hlen.
  - destruct (Nat.ltb_spec MAX_PDF_CHARS (length (full_text doc))); [lia | reflexivity].
  - destruct (Nat.ltb_spec MAX_PDF_CHARS (length (full_text doc))); [| lia].
    rewrite length_truncated by assumption.
    pose proof MAX_PDF_CHARS_value. simpl length. repeat split; lia.
Qed.

(** Both cases occur: a short page is returned under its header, and a
    page of 30000 letters is cut. *)
Example extract_pdf_text_short :
  extract_pdf_text [[104; 105]%N]
  = [45; 45; 45; 32; 31532; 32; 49; 32; 39029; 32; 45; 45; 45; 10; 104; 105]%N.
Proof. vm_compute. reflexivity. Qed.

Example extract_pdf_text_long :
  let doc := [repeat 97%N (Z.to_nat 30000)] in
  Nat.ltb MAX_PDF_CHARS (length (full_text doc)) = true
  /\ Z.of_nat (length (extract_pdf_text doc)) = 30012%Z.
Proof. vm_compute. split; reflexivity. Qed.

End ExtractPdfText.

(** ** The bucket catalogue *)
Section ParseThemeBuckets.
Import AutoRunner.

(** The first branch of [theme_of_line] is never taken. *)
Lemma theme_of_line_second_branch (raw : string) :
  theme_of_line raw
  = if Py.startswith (Py.strip raw) "##"
    then (let theme_name := Py.strip (Py.drop 2 (Py.strip raw)) in
          if Py.truthy theme_name then Some theme_name else None)
    else None.
Proof.
  unfold theme_of_line. cbv zeta.
  rewrite andb_negb_r. reflexivity.
Qed.

(** C4: on a file with a first-level, a second-level and a third-level
    heading, the last two are returned as buckets too, with the surplus
    markers left in the name; a heading without a space after the marker
    is returned as well. *)
Theorem parse_theme_buckets_deeper_headings :
  parse_theme_buckets ("## Top" +:+ Py.nl +:+ "### Sub" +:+ Py.nl +:+ "#### Deep" +:+ Py.nl +:+ "##Tight")
  = ["Top"; "# Sub"; "## Deep"; "Tight"].
Proof. vm_compute. reflexivity. Qed.

End ParseThemeBuckets.

(** ** The processing loop and the global index *)
Section ProcessingProps.
Import AutoRunner.
Variable attempt_of : string -> string -> attempt.

Lemma all_rows_init_csv file w : all_rows (init_csv file w) = all_rows w.
Proof.
  unfold all_rows, init_csv, set_csv_files. simpl.
  destruct (csv_files w !! file) eqn:Hf; [reflexivity |].
  destruct (decide (file = ALL_CSV_NAME)) as [-> | Hne].
  - rewrite lookup_insert_eq, Hf. reflexivity.
  - rewrite lookup_insert_ne by assumption. reflexivity.
Qed.















(** When every document has its artifact, the first loop selects nothing
    and counts one skip per document. *)
Lemma select_pdf_all_exist w folder_name pdfs :
  Forall (fun pdf => json_exists w folder_name pdf = true) pdfs ->
  forall tp st,
    fold_left (select_pdf w folder_name false) pdfs (tp, st)
    = (tp, {| success := success st; skip := skip st + length pdfs; fail := fail st |}).
Proof.
  induction 1 as [| pdf rest Hpdf _ IH]; intros tp st; simpl.
  - rewrite Nat.add_0_r. destruct st; reflexivity.
  - rewrite Hpdf. simpl. rewrite IH. simpl. f_equal. f_equal. lia.
Qed.

(** C2: on a bucket whose documents all have their artifact, a run
    without overwrite selects no document: it sends no request, returns
    zero successes and failures and one skip per document (the bucket's
    total), and hands the global index back as it came. *)
Theorem process_folder_all_skipped folder start w :
  Forall (fun pdf => json_exists w (name folder) pdf = true) (pdf_files folder) ->
  total_pdfs folder = length (pdf_files folder) ->
  process_folder attempt_of folder false start w
  = (({| success := 0; skip := total_pdfs folder; fail := 0 |}, start),
     init_csv ALL_CSV_NAME (init_csv (csv_name (name folder)) w))
  /\ llm_calls (snd (process_folder attempt_of folder false start w)) = llm_calls w
  /\ json_files (snd (process_folder attempt_of folder false start w)) = json_files w
  /\ error_log (snd (process_folder attempt_of folder false start w)) = error_log w
  /\ all_rows (snd (process_folder attempt_of folder false start w)) = all_rows w.
Proof.
  intros Hall Htotal.
  assert (Heq : process_folder attempt_of folder false start w
                = (({| success := 0; skip := total_pdfs folder; fail := 0 |}, start),
                   init_csv ALL_CSV_NAME (init_csv (csv_name (name folder)) w))).
  { unfold process_folder. cbn [andb].
    rewrite select_pdf_all_exist by exact Hall.
    simpl. rewrite Htotal. reflexivity. }
  rewrite Heq. simpl snd. rewrite !all_rows_init_csv.
  repeat split; reflexivity.
Qed.


End ProcessingProps.

(** The folder [A] of the samples has both artifacts: it is passed over
    whole. *)
Lemma process_folder_all_skipped_witness :
  AutoRunner.process_folder Samples.attempts Samples.folder_a false 7 Samples.world_0
  = (({| AutoRunner.success := 0; AutoRunner.skip := 2; AutoRunner.fail := 0 |}, 7%nat),
     AutoRunner.init_csv AutoRunner.ALL_CSV_NAME
       (AutoRunner.init_csv (AutoRunner.csv_name "A") Samples.world_0)).
Proof.
  apply (process_folder_all_skipped Samples.attempts Samples.folder_a 7 Samples.world_0).
  - repeat constructor.
  - reflexivity.
Defined.


(** The run on the sample folders: the first folder is passed over, the
    second gives two successes and one failure, and the counter ends at 3. *)
Example run_selected_sample :
  fst (AutoRunner.run_selected Samples.attempts
         [Samples.folder_a; Samples.folder_b] false [0%nat; 1%nat] Samples.world_0)
  = Py.Ok ({| AutoRunner.success := 2; AutoRunner.skip := 0; AutoRunner.fail := 1 |}, 3%nat)
  /\ AutoRunner.all_rows
       (snd (AutoRunner.run_selected Samples.attempts
               [Samples.folder_a; Samples.folder_b] false [0%nat; 1%nat] Samples.world_0))
     = [("1", "01_c.pdf"); ("2", "03_e.pdf")].
Proof. vm_compute. split; reflexivity. Qed.

(** ** The selector *)
Section ParseSelection.
Import AutoRunner.

Lemma split_no_sep (c : ascii) (s : string) :
  Py.contains_char c s = false -> Py.split c s = [s].
Proof.
  induction s as [| d s IH]; simpl; [reflexivity |].
  intros H. apply orb_false_iff in H as [Hd Hs].
  rewrite Hd, (IH Hs). reflexivity.
Qed.

Lemma split_app_sep (c : ascii) (a b : string) :
  Py.contains_char c a = false ->
  Py.split c (a +:+ String c b) = a :: Py.split c b.
Proof.
  induction a as [| d a IH]; simpl.
  - intros _. rewrite Ascii.eqb_refl. reflexivity.
  - intros H. apply orb_false_iff in H as [Hd Ha].
    rewrite Hd, (IH Ha). reflexivity.
Qed.

Lemma contains_char_app_sep (c : ascii) (a b : string) :
  Py.contains_char c (a +:+ String c b) = true.
Proof.
  induction a as [| d a IH]; simpl.
  - rewrite Ascii.eqb_refl. reflexivity.
  - rewrite IH. apply orb_true_r.
Qed.

Lemma split_nonempty (c : ascii) (s : string) : Py.split c s <> [].
Proof.
  destruct s as [| d s]; simpl; [discriminate |].
  destruct (Ascii.eqb d c); [discriminate |].
  destruct (Py.split c s); discriminate.
Qed.

Lemma split_singleton_inv (c : ascii) (s x : string) :
  Py.split c s = [x] -> s = x /\ Py.contains_char c x = false.
Proof.
  revert x. induction s as [| d s IH]; simpl; intros x.
  - intros [= <-]. split; reflexivity.
  - destruct (Ascii.eqb d c) eqn:Hd.
    + intros [= _ H]. exfalso. exact (split_nonempty c s H).
    + destruct (Py.split c s) as [| p ps] eqn:Hs; [intros [= <-] |].
      * exfalso. exact (split_nonempty c s Hs).
      * intros [= <- ->]. destruct (IH p eq_refl) as [-> Hp].
        split; [reflexivity |]. simpl. rewrite Hd, Hp. reflexivity.
Qed.

Lemma split_pair_inv (c : ascii) (s a b : string) :
  Py.split c s = [a; b] ->
  s = a +:+ String c b
  /\ Py.contains_char c a = false /\ Py.contains_char c b = false.
Proof.
  revert a. induction s as [| d s IH]; simpl; intros a.
  - discriminate.
  - destruct (Ascii.eqb d c) eqn:Hd.
    + intros [= <- H]. apply split_singleton_inv in H as [-> Hb].
      apply Ascii.eqb_eq in Hd. subst d.
      split; [reflexivity | split; [reflexivity | exact Hb]].
    + destruct (Py.split c s) as [| p ps] eqn:Hs; [discriminate |].
      intros [= <- ->]. destruct (IH p eq_refl) as (-> & Hp & Hb).
      split; [reflexivity | split; [| exact Hb]]. simpl. rewrite Hd, Hp. reflexivity.
Qed.

(** A part is written as at most one token. *)
Lemma written_as_inj (part : string) (t t' : token) :
  written_as part t -> written_as part t' -> t = t'.
Proof.
  intros H H'. destruct H as [part n Hc Hn | sa sb a b Ha Hb Hia Hib];
    inversion H' as [part' n' Hc' Hn' | sa' sb' a' b' Ha' Hb' Hia' Hib' Heq]; subst.
  - congruence.
  - rewrite contains_char_app_sep in Hc. discriminate.
  - rewrite contains_char_app_sep in Hc'. discriminate.
  - assert (Hsplit : sa' :: Py.split "-" sb' = sa :: Py.split "-" sb).
    { rewrite <- !split_app_sep by assumption. rewrite Heq. reflexivity. }
    rewrite !split_no_sep in Hsplit by assumption.
    injection Hsplit as -> ->. congruence.
Qed.

(** One part: either it is a well-formed token and the indices added are
    those it stands for, or the error names the part. *)
Lemma parse_part_spec (part : string) (max_num : Z) :
  match parse_part part max_num with
  | Py.Ok new =>
      exists t, written_as part t /\ in_bounds max_num t
                /\ forall i, i ∈ new <-> selects t i
  | Py.Raise e =>
      ~ well_formed max_num part
      /\ (e = Py.ValueError ("无法解析范围: " +:+ part)
          \/ e = Py.ValueError ("无法解析序号: " +:+ part))
  end.
Proof.
  unfold parse_part.
  destruct (Py.contains_char "-" part) eqn:Hc.
  - assert (Hnot_single : forall t, written_as part t ->
              exists sa sb a b, t = Range a b /\ Py.split "-" part = [sa; sb]
                                /\ Py.int sa = Some a /\ Py.int sb = Some b).
    { intros t Ht. destruct Ht as [part n Hc' _ | sa sb a b Ha Hb Hia Hib].
      - congruence.
      - exists sa, sb, a, b. rewrite split_app_sep, split_no_sep by assumption.
        repeat split; assumption. }
    destruct (Py.split "-" part) as [| sa [| sb [| ? ?]]] eqn:Hsplit;
      try (split; [| left; reflexivity];
           intros (t & Ht & _); apply Hnot_single in Ht as (? & ? & ? & ? & _ & [=] & _)).
    destruct (Py.int sa) as [a |] eqn:Hia;
      [destruct (Py.int sb) as [b |] eqn:Hib |].
    + destruct ((a <? 1)%Z || (max_num <? b)%Z || (b <? a)%Z) eqn:Hb.
      * split; [| left; reflexivity].
        intros (t & Ht & Hin). apply Hnot_single in Ht
          as (sa' & sb' & a' & b' & -> & [= <- <-] & Ha' & Hb').
        simpl in Hin. rewrite Hia in Ha'. rewrite Hib in Hb'.
        injection Ha' as <-. injection Hb' as <-. lia.
      * apply split_pair_inv in Hsplit as (-> & Hca & Hcb).
        exists (Range a b). split; [constructor; assumption |].
        split; [simpl; lia |].
        intros i. unfold Py.range. rewrite elem_of_seqZ. simpl. lia.
    + split; [| left; reflexivity].
      intros (t & Ht & _). apply Hnot_single in Ht
        as (sa' & sb' & a' & b' & -> & [= <- <-] & Ha' & Hb'). congruence.
    + split; [| left; reflexivity].
      intros (t & Ht & _). apply Hnot_single in Ht
        as (sa' & sb' & a' & b' & -> & [= <- <-] & Ha' & Hb'). congruence.
  - assert (Hnot_range : forall t, written_as part t ->
              exists n, t = Single n /\ Py.int part = Some n).
    { intros t Ht. destruct Ht as [part n _ Hn | sa sb a b Ha Hb Hia Hib].
      - exists n. split; [reflexivity | assumption].
      - rewrite contains_char_app_sep in Hc. discriminate. }
    destruct (Py.int part) as [num |] eqn:Hint.
    + destruct ((num <? 1)%Z || (max_num <? num)%Z) eqn:Hb.
      * split; [| right; reflexivity].
        intros (t & Ht & Hin). apply Hnot_range in Ht as (n & -> & [= <-]).
        simpl in Hin. lia.
      * exists (Single num). split; [constructor; assumption |].
        split; [simpl; lia |].
        intros i. simpl. rewrite list_elem_of_singleton. reflexivity.
    + split; [| right; reflexivity].
      intros (t & Ht & _). apply Hnot_range in Ht as (n & _ & [=]).
Qed.

(** The loop over the parts. *)
Lemma parse_parts_spec (max_num : Z) (parts : list string) :
  forall acc : gset Z,
    match parse_parts parts max_num acc with
    | Py.Ok indices =>
        Forall (well_formed max_num) (List.filter Py.truthy parts)
        /\ forall i, i ∈ indices <->
                     i ∈ acc
                     \/ exists part t, part ∈ List.filter Py.truthy parts
                                       /\ written_as part t /\ selects t i
    | Py.Raise e =>
        exists part prefix,
          part ∈ List.filter Py.truthy parts
          /\ ~ well_formed max_num part
          /\ e = Py.ValueError (prefix +:+ part)
    end.
Proof.
  induction parts as [| part rest IH]; intros acc; simpl.
  - split; [constructor |]. intros i. split; [auto |].
    intros [Hi | (part & t & Hin & _)]; [exact Hi |]. inversion Hin.
  - destruct (Py.truthy part) eqn:Htruthy; simpl; [| apply IH].
    pose proof (parse_part_spec part max_num) as Hpart.
    destruct (parse_part part max_num) as [new | e].
    + destruct Hpart as (t & Hw & Hb & Hnew).
      specialize (IH (acc ∪ list_to_set new)).
      destruct (parse_parts rest max_num (acc ∪ list_to_set new)) as [indices | e].
      * destruct IH as [Hall Hmem]. split.
        { constructor; [exists t; split; assumption | exact Hall]. }
        intros i. rewrite Hmem, elem_of_union, elem_of_list_to_set, Hnew.
        split.
        -- intros [[Hi | Hi] | (part' & t' & Hin & Hw' & Hs')].
           ++ left. exact Hi.
           ++ right. exists part, t. split; [left | split; assumption].
           ++ right. exists part', t'. split; [right; exact Hin | split; assumption].
        -- intros [Hi | (part' & t' & Hin & Hw' & Hs')]; [left; left; exact Hi |].
           apply elem_of_cons in Hin as [-> | Hin].
           ++ left. right. rewrite (written_as_inj _ _ _ Hw Hw'). exact Hs'.
           ++ right. exists part', t'. split; [exact Hin | split; assumption].
      * destruct IH as (part' & prefix & Hin & Hbad & He).
        exists part', prefix. split; [right; exact Hin | split; assumption].
    + destruct Hpart as [Hbad [He | He]].
      * exists part, "无法解析范围: ". split; [left | split; assumption].
      * exists part, "无法解析序号: ". split; [left | split; assumption].
Qed.

Lemma StronglySorted_strict (l : list Z) :
  StronglySorted (Py.not_after Z.ltb id) l -> NoDup l -> StronglySorted Z.lt l.
Proof.
  induction 1 as [| x l Hs IH Hx]; intros Hnd; [constructor |].
  apply NoDup_cons in Hnd as [Hnotin Hnd].
  constructor; [apply IH; exact Hnd |].
  rewrite Forall_forall in Hx |- *. intros y Hy.
  specialize (Hx y Hy). unfold Py.not_after, id in Hx.
  assert (x <> y) by (intros ->; exact (Hnotin Hy)).
  lia.
Qed.

(** The sorted list of a set of integers: strictly increasing, with the
    members of the set. *)
Lemma sorted_elements (indices : gset Z) :
  StronglySorted Z.lt (Py.list_sort Z.ltb id false (elements indices))
  /\ forall i, i ∈ Py.list_sort Z.ltb id false (elements indices) <-> i ∈ indices.
Proof.
  split.
  - apply StronglySorted_strict.
    + unfold Py.list_sort.
      apply (stable_sort_StronglySorted Z.ltb id (fun _ => True)).
      * intros a b _ _. lia.
      * intros a b c _ _ _. lia.
      * apply Forall_forall. intros; exact I.
    + rewrite (list_sort_Permutation Z.ltb id false). apply NoDup_elements.
  - intros i. rewrite (list_sort_Permutation Z.ltb id false). apply elem_of_elements.
Qed.

End ParseSelection.

(** ** The folder scan *)
Section ScanFolders.
Import AutoRunner.

(** The order of strings. *)
Lemma string_compare_le_trans (a b c : string) :
  String.compare a b <> Gt -> String.compare b c <> Gt -> String.compare a c <> Gt.
Proof.
  revert b c. induction a as [| x a IH]; intros [| y b] [| z c]; simpl;
    try congruence.
  unfold Ascii.compare.
  destruct (N.compare_spec (N_of_ascii x) (N_of_ascii y)) as [Hxy | Hxy | Hxy];
    destruct (N.compare_spec (N_of_ascii y) (N_of_ascii z)) as [Hyz | Hyz | Hyz];
    destruct (N.compare_spec (N_of_ascii x) (N_of_ascii z)) as [Hxz | Hxz | Hxz];
    try congruence; try lia.
  apply IH.
Qed.

Lemma string_ltb_asym (a b : string) :
  String.ltb a b = true -> String.ltb b a = false.
Proof.
  unfold String.ltb. rewrite (String.compare_antisym b a).
  destruct (String.compare a b); simpl; congruence.
Qed.

Lemma string_ltb_negtrans (a b c : string) :
  String.ltb b a = false -> String.ltb c b = false -> String.ltb c a = false.
Proof.
  unfold String.ltb. intros Hba Hcb.
  assert (Hab : String.compare a b <> Gt).
  { rewrite String.compare_antisym. destruct (String.compare b a); simpl; congruence. }
  assert (Hbc : String.compare b c <> Gt).
  { rewrite String.compare_antisym. destruct (String.compare c b); simpl; congruence. }
  pose proof (string_compare_le_trans a b c Hab Hbc) as Hac.
  rewrite String.compare_antisym. destruct (String.compare a c); simpl; congruence.
Qed.

Lemma string_ltb_total (a b : string) :
  a <> b -> String.ltb b a = false -> String.ltb a b = true.
Proof.
  unfold String.ltb. intros Hne. rewrite (String.compare_antisym b a).
  destruct (String.compare a b) eqn:Hc; simpl; try congruence.
  apply String.compare_eq_iff in Hc. contradiction.
Qed.

(** A list sorted by a key without repetition is strictly increasing. *)
Lemma StronglySorted_strict_names {A : Type} (key : A -> string) (l : list A) :
  StronglySorted (Py.not_after String.ltb key) l ->
  NoDup (map key l) ->
  StronglySorted (fun a b => String.ltb (key a) (key b) = true) l.
Proof.
  induction 1 as [| x l Hs IH Hx]; simpl; intros Hnd; [constructor |].
  apply NoDup_cons in Hnd as [Hnotin Hnd].
  constructor; [apply IH; exact Hnd |].
  rewrite Forall_forall in Hx |- *. intros y Hy.
  apply string_ltb_total; [| exact (Hx y Hy)].
  intros Heq. apply Hnotin. rewrite Heq.
  apply list_elem_of_fmap. exists y. split; [reflexivity | exact Hy].
Qed.

Lemma list_sort_names_sorted {A : Type} (key : A -> string) (l : list A) :
  NoDup (map key l) ->
  StronglySorted (fun a b => String.ltb (key a) (key b) = true)
                 (Py.list_sort String.ltb key false l).
Proof.
  intros Hnd. apply StronglySorted_strict_names.
  - unfold Py.list_sort.
    apply (stable_sort_StronglySorted String.ltb key (fun _ => True)).
    + intros a b _ _. apply string_ltb_asym.
    + intros a b c _ _ _. apply string_ltb_negtrans.
    + apply Forall_forall. intros; exact I.
  - assert (Hperm : map key (Py.list_sort String.ltb key false l) ≡ₚ map key l)
      by (apply Permutation_map, list_sort_Permutation).
    rewrite Hperm. exact Hnd.
Qed.

Variable json : gset (string * string).

Lemma is_pdf_file_regular (n : string) (k : kind) :
  is_pdf_file n k = true -> k = RegularFile.
Proof. destruct k; simpl; congruence. Qed.

(** The loop of [scan_folders]: the stray list grows by the PDF files of
    the root in the order they are met, and the dictionary by the
    sub-folders that hold a PDF. *)
Lemma scan_fold_spec (root : list DirEntry) :
  NoDup (map entry_name root) ->
  forall (m0 : gmap string FolderStatus) (r0 : list string),
    (forall item, item ∈ root -> m0 !! entry_name item = None) ->
    snd (fold_left (scan_step json) root (m0, r0))
    = r0 ++ map entry_name (List.filter root_pdf root)
    /\ forall n fs,
         fst (fold_left (scan_step json) root (m0, r0)) !! n = Some fs <->
         m0 !! n = Some fs
         \/ exists item, item ∈ root /\ entry_name item = n
                         /\ entry_kind item = Directory
                         /\ folder_status json item = Some fs.
Proof.
  induction root as [| item rest IH]; intros Hnd m0 r0 Hfresh.
  - simpl. rewrite app_nil_r. split; [reflexivity |].
    intros n fs. split; [auto |].
    intros [H | (item & Hin & _)]; [exact H | inversion Hin].
  - simpl in Hnd. apply NoDup_cons in Hnd as [Hnotin Hnd].
    assert (Hrest : forall item', item' ∈ rest -> entry_name item' <> entry_name item).
    { intros item' Hin Heq. apply Hnotin. rewrite <- Heq.
      apply list_elem_of_fmap. exists item'. split; [reflexivity | exact Hin]. }
    assert (Hitem : m0 !! entry_name item = None) by (apply Hfresh; left).
    assert (Hfresh' : forall item', item' ∈ rest -> m0 !! entry_name item' = None)
      by (intros item' Hin; apply Hfresh; right; exact Hin).
    cbn [fold_left]. unfold scan_step at 2 4. fold (root_pdf item).
    cbn [List.filter].
    destruct (root_pdf item) eqn:Hpdf.
    + destruct (IH Hnd m0 (r0 ++ [entry_name item]) Hfresh') as [Hr Hm].
      split; [rewrite Hr, <- app_assoc; reflexivity |].
      intros n fs. rewrite Hm. split.
      * intros [H | (item' & Hin & H)]; [left; exact H |].
        right. exists item'. split; [right; exact Hin | exact H].
      * intros [H | (item' & Hin & Hn & Hk & Hf)]; [left; exact H |].
        apply elem_of_cons in Hin as [-> | Hin].
        -- apply is_pdf_file_regular in Hpdf. congruence.
        -- right. exists item'. split; [exact Hin |]. split; [exact Hn |].
           split; assumption.
    + destruct (entry_kind item) eqn:Hkind;
        [| destruct (folder_status json item) as [folder |] eqn:Hfs |].
      * destruct (IH Hnd m0 r0 Hfresh') as [Hr Hm].
        split; [exact Hr |]. intros n fs. rewrite Hm. split.
        -- intros [H | (item' & Hin & H)]; [left; exact H |].
           right. exists item'. split; [right; exact Hin | exact H].
        -- intros [H | (item' & Hin & Hn & Hk & Hf)]; [left; exact H |].
           apply elem_of_cons in Hin as [-> | Hin]; [congruence |].
           right. exists item'. split; [exact Hin |]. split; [exact Hn |].
           split; assumption.
      * destruct (IH Hnd (<[entry_name item := folder]> m0) r0) as [Hr Hm].
        { intros item' Hin. rewrite lookup_insert_ne by (apply not_eq_sym, Hrest, Hin).
          apply Hfresh', Hin. }
        split; [exact Hr |]. intros n fs. rewrite Hm. split.
        -- intros [H | (item' & Hin & H)].
           ++ destruct (decide (entry_name item = n)) as [<- | Hne].
              ** rewrite lookup_insert_eq in H. injection H as <-.
                 right. exists item. split; [left |]. split; [reflexivity |].
                 split; assumption.
              ** rewrite lookup_insert_ne in H by exact Hne. left. exact H.
           ++ right. exists item'. split; [right; exact Hin | exact H].
        -- intros [H | (item' & Hin & Hn & Hk & Hf)].
           ++ left. rewrite lookup_insert_ne; [exact H |].
              intros <-. congruence.
           ++ apply elem_of_cons in Hin as [-> | Hin].
              ** left. subst n. rewrite lookup_insert_eq. congruence.
              ** right. exists item'. split; [exact Hin |]. split; [exact Hn |].
                 split; assumption.
      * destruct (IH Hnd m0 r0 Hfresh') as [Hr Hm].
        split; [exact Hr |]. intros n fs. rewrite Hm. split.
        -- intros [H | (item' & Hin & H)]; [left; exact H |].
           right. exists item'. split; [right; exact Hin | exact H].
        -- intros [H | (item' & Hin & Hn & Hk & Hf)]; [left; exact H |].
           apply elem_of_cons in Hin as [-> | Hin]; [congruence |].
           right. exists item'. split; [exact Hin |]. split; [exact Hn |].
           split; assumption.
      * destruct (IH Hnd m0 r0 Hfresh') as [Hr Hm].
        split; [exact Hr |]. intros n fs. rewrite Hm. split.
        -- intros [H | (item' & Hin & H)]; [left; exact H |].
           right. exists item'. split; [right; exact Hin | exact H].
        -- intros [H | (item' & Hin & Hn & Hk & Hf)]; [left; exact H |].
           apply elem_of_cons in Hin as [-> | Hin]; [congruence |].
           right. exists item'. split; [exact Hin |]. split; [exact Hn |].
           split; assumption.
Qed.

Lemma count_if_split {A : Type} (p : A -> bool) (l : list A) :
  (count_if p l + count_if (fun a => negb (p a)) l = length l)%nat.
Proof.
  unfold count_if. induction l as [| x l IH]; simpl; [reflexivity |].
  destruct (p x); simpl; lia.
Qed.

Lemma elem_of_pdf_children (item : DirEntry) (f : string) :
  f ∈ pdf_children item <->
  exists k, (f, k) ∈ children item /\ is_pdf_file f k = true.
Proof.
  unfold pdf_children. rewrite list_elem_of_fmap. split.
  - intros ([f' k] & -> & Hin). apply list_elem_of_In, List.filter_In in Hin as [Hin Hp].
    exists k. split; [apply list_elem_of_In; exact Hin | exact Hp].
  - intros (k & Hin & Hp). exists (f, k). split; [reflexivity |].
    apply list_elem_of_In, List.filter_In. split; [apply list_elem_of_In; exact Hin | exact Hp].
Qed.

(** A sub-folder gives a status exactly when it holds a PDF file; the
    status lists those files and counts them. *)
Lemma folder_status_Some (item : DirEntry) (fs : FolderStatus) :
  folder_status json item = Some fs ->
  name fs = entry_name item
  /\ pdf_files fs <> []
  /\ total_pdfs fs = length (pdf_files fs)
  /\ (processed fs + pending fs = total_pdfs fs)%nat
  /\ pdf_files fs ≡ₚ pdf_children item.
Proof.
  unfold folder_status.
  pose proof (list_sort_Permutation String.ltb id false (pdf_children item)) as Hperm.
  destruct (Py.list_sort String.ltb id false (pdf_children item)) as [| f fs'] eqn:Hsort;
    [discriminate |].
  intros [= <-]. cbn [name pdf_files total_pdfs processed pending].
  split; [reflexivity |]. split; [discriminate |]. split; [reflexivity |].
  split; [exact (count_if_split _ (f :: fs')) | exact Hperm].
Qed.

Lemma folder_status_is_Some (item : DirEntry) :
  is_Some (folder_status json item) <->
  exists f k, (f, k) ∈ children item /\ is_pdf_file f k = true.
Proof.
  split.
  - intros [fs Hfs]. apply folder_status_Some in Hfs as (_ & Hne & _ & _ & Hperm).
    destruct (pdf_files fs) as [| f rest] eqn:Hfiles; [contradiction |].
    assert (Hin : f ∈ pdf_children item) by (rewrite <- Hperm; left).
    apply elem_of_pdf_children in Hin as (k & Hin & Hp). exists f, k. split; assumption.
  - intros (f & k & Hin & Hp).
    assert (Hf : f ∈ pdf_children item) by (apply elem_of_pdf_children; eauto).
    unfold folder_status.
    pose proof (list_sort_Permutation String.ltb id false (pdf_children item)) as Hperm.
    destruct (Py.list_sort String.ltb id false (pdf_children item)) as [| f' fs'];
      [| eexists; reflexivity].
    rewrite <- Hperm in Hf. inversion Hf.
Qed.

Lemma NoDup_map_inj {A B : Type} (f : A -> B) (l : list A) (x y : A) :
  NoDup (map f l) -> x ∈ l -> y ∈ l -> f x = f y -> x = y.
Proof.
  induction l as [| a l IH]; simpl; intros Hnd Hx Hy Heq; [inversion Hx |].
  apply NoDup_cons in Hnd as [Hnotin Hnd].
  apply elem_of_cons in Hx as [-> | Hx]; apply elem_of_cons in Hy as [-> | Hy].
  - reflexivity.
  - exfalso. apply Hnotin. rewrite Heq. apply list_elem_of_fmap. eauto.
  - exfalso. apply Hnotin. rewrite <- Heq. apply list_elem_of_fmap. eauto.
  - apply IH; assumption.
Qed.

(** C8, as amended: the buckets are exactly the directories directly
    under the root that hold at least one PDF file, in strictly
    increasing order of name; the stray list holds exactly the regular
    files directly under the root whose suffix is .pdf in any letter
    case, in the order they are met, and none of them is a bucket.  The
    names of the entries of a directory are distinct. *)
Theorem scan_folders_buckets_and_strays (root : list DirEntry) :
  NoDup (map entry_name root) ->
  (forall fs, fs ∈ fst (scan_folders root json) <->
              exists item, item ∈ root /\ entry_kind item = Directory
                           /\ folder_status json item = Some fs)
  /\ (forall item, is_Some (folder_status json item) <->
                   exists f k, (f, k) ∈ children item /\ is_pdf_file f k = true)
  /\ StronglySorted (fun a b => String.ltb (name a) (name b) = true)
                    (fst (scan_folders root json))
  /\ snd (scan_folders root json) = map entry_name (List.filter root_pdf root)
  /\ (forall fs stray, fs ∈ fst (scan_folders root json) ->
                       stray ∈ snd (scan_folders root json) -> name fs <> stray).
Proof.
  intros Hnd.
  destruct (scan_fold_spec root Hnd ∅ []) as [Hstray Hmap].
  { intros item _. apply lookup_empty. }
  unfold scan_folders.
  destruct (fold_left (scan_step json) root (∅, [])) as [folders root_pdfs].
  cbn [fst snd] in *.
  assert (Hbuckets : forall fs,
             fs ∈ Py.list_sort String.ltb name false (map snd (map_to_list folders)) <->
             exists item, item ∈ root /\ entry_kind item = Directory
                          /\ folder_status json item = Some fs).
  { intros fs. rewrite (list_sort_Permutation String.ltb name false).
    rewrite list_elem_of_fmap. split.
    - intros ([n fs'] & -> & Hin). apply elem_of_map_to_list in Hin.
      apply Hmap in Hin as [Hin | (item & Hin & _ & Hk & Hf)].
      + rewrite lookup_empty in Hin. discriminate.
      + exists item. split; [exact Hin | split; assumption].
    - intros (item & Hin & Hk & Hf). exists (entry_name item, fs).
      split; [reflexivity |]. apply elem_of_map_to_list. apply Hmap.
      right. exists item. split; [exact Hin |]. split; [reflexivity |].
      split; assumption. }
  split; [exact Hbuckets |].
  split; [exact folder_status_is_Some |].
  split; [| split; [exact Hstray |]].
  - apply list_sort_names_sorted.
    assert (Hkeys : map name (map snd (map_to_list folders)) = map fst (map_to_list folders)).
    { rewrite map_map. apply map_ext_in. intros [n fs] Hin. simpl.
      apply list_elem_of_In, elem_of_map_to_list, Hmap in Hin
        as [Hin | (item & _ & Hn & _ & Hf)].
      - rewrite lookup_empty in Hin. discriminate.
      - apply folder_status_Some in Hf as [Hname _]. congruence. }
    rewrite Hkeys. apply NoDup_fst_map_to_list.
  - intros fs stray Hfs Hst Heq.
    apply Hbuckets in Hfs as (item & Hin & Hk & Hf).
    apply folder_status_Some in Hf as [Hname _].
    rewrite Hstray in Hst. apply list_elem_of_fmap in Hst as (item' & -> & Hin').
    apply list_elem_of_In, List.filter_In in Hin' as [Hin' Hpdf].
    apply list_elem_of_In in Hin'.
    assert (item = item').
    { apply (NoDup_map_inj entry_name root); try assumption. congruence. }
    subst item'. apply is_pdf_file_regular in Hpdf. congruence.
Qed.
End ScanFolders.

(** C8, as stated, fails on a root that holds a text file: the file is
    not a directory, and the stray list is empty. *)
Lemma scan_folders_ignores_other_files :
  AutoRunner.entry_kind Samples.notes_txt = AutoRunner.RegularFile
  /\ AutoRunner.scan_folders [Samples.notes_txt] ∅ = ([], []).
Proof. split; [reflexivity | vm_compute; reflexivity]. Qed.

(** The sample directory: one stray file, two buckets in order of name. *)
Lemma scan_folders_buckets_and_strays_witness :
  snd (AutoRunner.scan_folders Samples.root_0 ∅) = ["loose.PDF"]
  /\ map AutoRunner.name (fst (AutoRunner.scan_folders Samples.root_0 ∅)) = ["A"; "B"].
Proof.
  destruct (scan_folders_buckets_and_strays ∅ Samples.root_0) as (_ & _ & _ & Hstray & _).
  - repeat constructor; rewrite ?list_elem_of_In; simpl; intuition discriminate.
  - split; [rewrite Hstray; reflexivity | vm_compute; reflexivity].
Defined.

(** The scan of the sample directory in full. *)
Example scan_folders_sample :
  AutoRunner.scan_folders Samples.root_0 {[ ("A", "01_a.json") ]}
  = ([ {| AutoRunner.name := "A"; AutoRunner.path := "A"; AutoRunner.total_pdfs := 2;
          AutoRunner.processed := 1; AutoRunner.pending := 1;
          AutoRunner.pdf_files := ["01_a.pdf"; "02_b.pdf"] |};
       {| AutoRunner.name := "B"; AutoRunner.path := "B"; AutoRunner.total_pdfs := 2;
          AutoRunner.processed := 0; AutoRunner.pending := 2;
          AutoRunner.pdf_files := ["01_c.pdf"; "02_d.pdf"] |} ],
     ["loose.PDF"]).
Proof. vm_compute. reflexivity. Qed.

(** ** The scenario score *)
Section ScenarioScore.
Import Rescoring.




(** The loop over the table and the cascade of tests agree. *)
Lemma score_to_level_thresholds (score : spec_float) :
  score_to_level score = level_by_thresholds score.
Proof.
  unfold score_to_level, level_by_thresholds, SCORE_TO_LEVEL. cbn [first_level].
  repeat match goal with
         | |- context [Py.fle ?t score] => destruct (Py.fle t score); [reflexivity |]
         end.
  reflexivity.
Qed.


(** The example of the specification: dimensions 8, 9, 7, 6, 5 under the
    weights 0.3, 0.25, 0.25, 0.15, 0.05 give 7.6 and the fourth level. *)
Example calculate_scenario_score_sample :
  let dim z := Py.float_of_Z z in
  let paper := {| index := "1"; title := "t"; rigor := dim 8%Z; innovation := dim 9%Z;
                  practicality := dim 7%Z; impact := dim 6%Z; readability := dim 5%Z;
                  p0_overall := dim 0%Z; p0_level := ""; original_row := [] |} in
  let w := {| w_rigor := Py.float_of_decimal false 3 (-1);
              w_innovation := Py.float_of_decimal false 25 (-2);
              w_practicality := Py.float_of_decimal false 25 (-2);
              w_impact := Py.float_of_decimal false 15 (-2);
              w_readability := Py.float_of_decimal false 5 (-2) |} in
  overall_score (calculate_scenario_score paper w) = Py.float_of_decimal false 76 (-1)
  /\ level (calculate_scenario_score paper w) = "⭐⭐⭐⭐".
Proof. vm_compute. split; reflexivity. Qed.
End ScenarioScore.

(** ** Loading the combined table *)
Section LoadP0Csv.
Import Rescoring.








End LoadP0Csv.



(** ** The order of the floats *)
Section FloatOrder.



Lemma flt_nan_l (x : spec_float) : Py.flt S754_nan x = false.
Proof. reflexivity. Qed.




End FloatOrder.

(** ** The ranking tables *)
Section RankingTables.
Import Rescoring.

Lemma dict_set_fresh {V : Type} (d : list (string * V)) (key : string) (v : V) :
  key ∉ map fst d -> dict_set d key v = d ++ [(key, v)].
Proof.
  induction d as [| [k x] d IH]; simpl; intros Hnotin; [reflexivity |].
  apply not_elem_of_cons in Hnotin as [Hne Hnotin].
  destruct (String.eqb_spec k key) as [-> | _]; [contradiction |].
  rewrite IH by exact Hnotin. reflexivity.
Qed.

Lemma dict_get_keys {V : Type} (d : list (string * V)) (x : V) :
  NoDup (map fst d) ->
  map (fun k => default x (dict_get d k)) (map fst d) = map snd d.
Proof.
  induction d as [| [k v] d IH]; simpl; intros Hnd; [reflexivity |].
  apply NoDup_cons in Hnd as [Hnotin Hnd].
  rewrite String.eqb_refl. simpl. f_equal.
  rewrite <- (IH Hnd). apply map_ext_in. intros k' Hk'.
  destruct (String.eqb_spec k k') as [-> | _]; [| reflexivity].
  exfalso. apply Hnotin. apply list_elem_of_In. exact Hk'.
Qed.

Lemma forallb_keys {V : Type} (d : list (string * V)) :
  forallb (fun kv => existsb (String.eqb (fst kv)) (map fst d)) d = true.
Proof.
  apply forallb_forall. intros [k v] Hin. apply existsb_exists.
  exists k. split; [| apply String.eqb_refl].
  apply in_map_iff. exists (k, v). split; [reflexivity | exact Hin].
Qed.

(** The three added columns have three names. *)
Lemma added_columns_distinct (name : string) :
  overall_column name <> level_column name
  /\ overall_column name <> flag_column
  /\ level_column name <> flag_column.
Proof. repeat split; discriminate. Qed.

Lemma ranking_row_eq (cols : list string) (name : string) (rank : nat)
    (paper : PaperRecord) (score : ScenarioScore) :
  map fst (original_row paper) = cols -> fresh_columns cols name ->
  ranking_row name rank paper score
  = map (fun kv => (fst kv, CStr (snd kv))) (original_row paper)
    ++ [(overall_column name, CFloat (overall_score score));
        (level_column name, CStr (level score));
        (flag_column, CStr (top_flag rank))].
Proof.
  intros Hcols (Ho & Hl & Hf).
  destruct (added_columns_distinct name) as (Hol & Hof & Hlf).
  unfold ranking_row.
  assert (Hkeys : map fst (map (fun kv : string * string => (fst kv, CStr (snd kv)))
                             (original_row paper)) = cols)
    by (rewrite map_map; exact Hcols).
  rewrite (dict_set_fresh _ (overall_column name)) by (rewrite Hkeys; exact Ho).
  rewrite (dict_set_fresh _ (level_column name)).
  2:{ rewrite map_app, Hkeys. cbn [map fst].
      rewrite elem_of_app, list_elem_of_singleton. intros [H | H]; [exact (Hl H) |].
      exact (Hol (eq_sym H)). }
  rewrite (dict_set_fresh _ flag_column).
  2:{ rewrite !map_app, Hkeys. cbn [map fst].
      rewrite !elem_of_app, !list_elem_of_singleton.
      intros [[H | H] | H]; [exact (Hf H) | exact (Hof (eq_sym H)) | exact (Hlf (eq_sym H))]. }
  rewrite <- !app_assoc. reflexivity.
Qed.

Lemma NoDup_fieldnames (cols : list string) (name : string) :
  NoDup cols -> fresh_columns cols name ->
  NoDup (cols ++ [overall_column name; level_column name; flag_column]).
Proof.
  intros Hnd (Ho & Hl & Hf).
  destruct (added_columns_distinct name) as (Hol & Hof & Hlf).
  apply NoDup_app. split; [exact Hnd |]. split.
  - intros k Hk Hk'.
    repeat (apply elem_of_cons in Hk' as [-> | Hk']; [contradiction |]).
    inversion Hk'.
  - repeat constructor; rewrite ?not_elem_of_cons; repeat split;
      try assumption; try apply not_elem_of_nil.
Qed.

(** One row goes through the writer and comes out as the line of the
    specification. *)
Lemma writerow_ranking_row (cols : list string) (name : string) (rank : nat)
    (paper : PaperRecord) (score : ScenarioScore) :
  NoDup cols -> map fst (original_row paper) = cols -> fresh_columns cols name ->
  writerow (cols ++ [overall_column name; level_column name; flag_column])
           (ranking_row name rank paper score)
  = Py.Ok (ranking_line rank paper score).
Proof.
  intros Hnd Hcols Hfresh.
  rewrite (ranking_row_eq cols name rank paper score Hcols Hfresh).
  set (rr := map _ (original_row paper) ++ _).
  assert (Hkeys : map fst rr = cols ++ [overall_column name; level_column name; flag_column]).
  { unfold rr. rewrite map_app, map_map. cbn [map fst]. rewrite <- Hcols. reflexivity. }
  unfold writerow. rewrite <- Hkeys, forallb_keys.
  rewrite dict_get_keys by (rewrite Hkeys; apply NoDup_fieldnames; assumption).
  unfold rr, ranking_line. rewrite map_app, map_map. reflexivity.
Qed.

Lemma write_rows_ok (cols : list string) (name : string)
    (scored : list (PaperRecord * ScenarioScore)) :
  NoDup cols -> fresh_columns cols name ->
  Forall (fun x => map fst (original_row (fst x)) = cols) scored ->
  forall rank written,
    write_rows name (cols ++ [overall_column name; level_column name; flag_column])
               rank scored written
    = (written ++ ranking_lines rank scored, None).
Proof.
  intros Hnd Hfresh Hall. induction Hall as [| [paper score] rest Hx _ IH];
    intros rank written; cbn [write_rows ranking_lines].
  - rewrite app_nil_r. reflexivity.
  - rewrite (writerow_ranking_row cols name rank paper score Hnd Hx Hfresh).
    rewrite IH, <- app_assoc. reflexivity.
Qed.

Lemma scored_papers_Permutation (papers : list PaperRecord) (w : Weights) :
  scored_papers papers w
  ≡ₚ map (fun paper => (paper, calculate_scenario_score paper w)) papers.
Proof. unfold scored_papers. apply list_sort_Permutation. Qed.

(** With at least one paper, rows of one table and fresh column names,
    the table of a scenario is written in full. *)
Lemma ranking_table_ok (cols : list string) (papers : list PaperRecord)
    (name : string) (cfg : ScenarioConfig) :
  papers <> [] -> loaded_from cols papers -> fresh_columns cols name ->
  ranking_table papers name cfg = (expected_table cols papers (name, cfg), None).
Proof.
  intros Hne [Hnd Hcols] Hfresh. unfold ranking_table, expected_table.
  destruct papers as [| first rest]; [contradiction |].
  assert (Hfirst : map fst (original_row first) = cols)
    by (inversion Hcols; assumption).
  rewrite Hfirst. cbn [fst snd].
  rewrite (write_rows_ok cols name (scored_papers (first :: rest) (weights cfg)) Hnd Hfresh).
  - reflexivity.
  - rewrite (scored_papers_Permutation (first :: rest) (weights cfg)).
    rewrite Forall_fmap. exact Hcols.
Qed.

Lemma create_scenario_ranking_tables_ok (cols : list string)
    (papers : list PaperRecord) (scenarios : list (string * ScenarioConfig)) :
  papers <> [] -> loaded_from cols papers ->
  Forall (fun sc => fresh_columns cols (fst sc)) scenarios ->
  create_scenario_ranking_tables papers scenarios
  = (map (expected_table cols papers) scenarios, None).
Proof.
  intros Hne Hloaded Hall. induction Hall as [| [name cfg] rest Hfresh _ IH];
    cbn [create_scenario_ranking_tables map]; [reflexivity |].
  rewrite (ranking_table_ok cols papers name cfg Hne Hloaded Hfresh), IH.
  reflexivity.
Qed.









(** C9: without papers the first scenario already fails: its file is
    opened and left empty, and building the header from the first paper
    raises IndexError; no other file is written.  When there is no
    scenario either, nothing is written and nothing raises.  With at
    least one paper (rows of one table, fresh column names) every
    scenario gets its table and nothing raises. *)
Theorem create_scenario_ranking_tables_empty_papers :
  (forall name cfg rest,
      create_scenario_ranking_tables [] ((name, cfg) :: rest)
      = ([ {| file_name := "排序表_" +:+ name +:+ ".csv"; lines := [] |} ],
         Some Py.IndexError))
  /\ create_scenario_ranking_tables [] [] = ([], None)
  /\ (forall cols papers scenarios,
        papers <> [] -> loaded_from cols papers ->
        Forall (fun sc => fresh_columns cols (fst sc)) scenarios ->
        snd (create_scenario_ranking_tables papers scenarios) = None
        /\ length (fst (create_scenario_ranking_tables papers scenarios))
           = length scenarios).
Proof.
  split; [reflexivity |]. split; [reflexivity |].
  intros cols papers scenarios Hne Hloaded Hfresh.
  rewrite (create_scenario_ranking_tables_ok cols papers scenarios Hne Hloaded Hfresh).
  cbn [fst snd]. split; [reflexivity | apply length_map].
Qed.
End RankingTables.


(* ===================================================================== *)
(** * Part III: further properties of the two scripts                     *)
(* ===================================================================== *)

(** ** What a folder costs and leaves behind *)
Section FolderEffects.
Import AutoRunner.
Variable attempt_of : string -> string -> attempt.

(** One document is counted once, as a success or as a failure; a failure
    writes one line to the error log; at most one request is sent, and
    one is sent for every success; no artifact is removed. *)
Lemma process_pdf_effects folder_name pdf st gi w :
  let r := process_pdf attempt_of folder_name pdf (st, gi, w) in
  (success (fst (fst r)) + fail (fst (fst r)) = S (success st + fail st))%nat
  /\ skip (fst (fst r)) = skip st
  /\ (length (error_log (snd r)) + fail st
      = length (error_log w) + fail (fst (fst r)))%nat
  /\ sleeps (snd r) = sleeps w
  /\ (llm_calls w <= llm_calls (snd r) <= S (llm_calls w))%nat
  /\ (llm_calls w + success (fst (fst r)) <= llm_calls (snd r) + success st)%nat
  /\ json_files w ⊆ json_files (snd r)
  /\ (fail (fst (fst r)) = fail st -> json_exists (snd r) folder_name pdf = true).
Proof.
  unfold process_pdf, json_exists.
  destruct (attempt_of folder_name pdf) as [e | e | e | e created | e | data e | data];
    try destruct created; cbv zeta;
    cbn [fst snd add_fail add_success success skip fail error_log sleeps llm_calls
         json_files log_error count_llm_call write_json append_to_csv set_csv_files];
    rewrite ?length_app; cbn [length];
    repeat split; try lia; try set_solver;
    intros Hfail; first [lia | apply bool_decide_eq_true; set_solver].
Qed.

Lemma json_exists_mono (w w' : World) folder_name pdf :
  json_files w ⊆ json_files w' ->
  json_exists w folder_name pdf = true -> json_exists w' folder_name pdf = true.
Proof.
  unfold json_exists. rewrite !bool_decide_eq_true. set_solver.
Qed.

(** The number of pauses of the second loop from position [i] on. *)
Lemma process_all_effects folder_name n to_process :
  forall i st gi w,
    let r := process_all attempt_of folder_name n i to_process (st, gi, w) in
    (success (fst (fst r)) + fail (fst (fst r))
     = success st + fail st + length to_process)%nat
    /\ skip (fst (fst r)) = skip st
    /\ (length (error_log (snd r)) + fail st
        = length (error_log w) + fail (fst (fst r)))%nat
    /\ sleeps (snd r) = (sleeps w + Nat.min (length to_process) (n - i))%nat
    /\ (llm_calls w <= llm_calls (snd r))%nat
    /\ (llm_calls (snd r) + success st + fail st
        <= llm_calls w + success (fst (fst r)) + fail (fst (fst r)))%nat
    /\ (llm_calls w + success (fst (fst r)) <= llm_calls (snd r) + success st)%nat
    /\ json_files w ⊆ json_files (snd r)
    /\ (fail st <= fail (fst (fst r)))%nat
    /\ (fail (fst (fst r)) = fail st ->
        Forall (fun pdf => json_exists (snd r) folder_name pdf = true) to_process).
Proof.
  induction to_process as [| pdf rest IH]; intros i st gi w; cbn [process_all].
  - cbn [fst snd length]. repeat split; try lia; try reflexivity; try (intros _; constructor).
  - pose proof (process_pdf_effects folder_name pdf st gi w) as Hp. cbv zeta in Hp.
    destruct (process_pdf attempt_of folder_name pdf (st, gi, w)) as [[st1 gi1] w1].
    cbn [fst snd] in Hp.
    destruct Hp as (Hcount & Hskip & Hlog & Hsl & Hllm & Hllm' & Hjson & Hexists).
    set (w2 := if (i <? n)%nat then sleep w1 else w1).
    assert (Hw2 : json_files w2 = json_files w1 /\ error_log w2 = error_log w1
                  /\ llm_calls w2 = llm_calls w1
                  /\ sleeps w2 = (sleeps w1 + if (i <? n)%nat then 1 else 0)%nat).
    { unfold w2. destruct (i <? n)%nat; cbn; repeat split; lia. }
    destruct Hw2 as (Hj2 & He2 & Hl2 & Hs2).
    specialize (IH (S i) st1 gi1 w2). cbv zeta in IH.
    destruct (process_all attempt_of folder_name n (S i) rest (st1, gi1, w2))
      as [[st3 gi3] w3].
    cbn [fst snd length] in IH |- *.
    destruct IH as (Hc3 & Hsk3 & Hlog3 & Hsl3 & Hll3 & Hll3' & Hll3'' & Hj3 & Hf3 & Hex3).
    rewrite Hj2 in Hj3. rewrite He2 in Hlog3. rewrite Hl2 in Hll3, Hll3', Hll3''.
    rewrite Hs2 in Hsl3.
    assert (Hfail1 : (fail st <= fail st1)%nat) by lia.
    repeat split; try lia.
    + rewrite Hsl3, Hsl. destruct (Nat.ltb_spec i n); lia.
    + transitivity (json_files w1); assumption.
    + intros Hfail.
      assert (Hf1 : fail st1 = fail st) by lia.
      assert (Hf3' : fail st3 = fail st1) by lia.
      constructor.
      * apply (json_exists_mono w1 w3); [exact Hj3 | apply Hexists, Hf1].
      * apply Hex3, Hf3'.
Qed.

(** The first loop splits the documents: those to process and those
    skipped, which have their artifact. *)
Lemma select_pdf_split w folder_name overwrite pdfs :
  forall tp st,
    let r := fold_left (select_pdf w folder_name overwrite) pdfs (tp, st) in
    (length (fst r) + skip (snd r) = length tp + skip st + length pdfs)%nat
    /\ success (snd r) = success st /\ fail (snd r) = fail st
    /\ (forall pdf, pdf ∈ pdfs -> pdf ∈ fst r \/ json_exists w folder_name pdf = true)
    /\ (forall pdf, pdf ∈ tp -> pdf ∈ fst r)
    /\ (overwrite = false ->
        (skip (snd r) = skip st + count_if (json_exists w folder_name) pdfs)%nat).
Proof.
  induction pdfs as [| pdf rest IH]; intros tp st; cbn [fold_left].
  - cbn [fst snd length count_if List.filter].
    split; [lia |]. split; [reflexivity |]. split; [reflexivity |].
    split; [intros pdf Hin; inversion Hin |]. split; [auto |]. intros _. lia.
  - assert (Hstep : select_pdf w folder_name overwrite (tp, st) pdf
                    = if overwrite || negb (json_exists w folder_name pdf)
                      then (tp ++ [pdf], st) else (tp, add_skip st)) by reflexivity.
    cbv zeta. rewrite Hstep. clear Hstep.
    destruct (overwrite || negb (json_exists w folder_name pdf)) eqn:Hsel.
    + specialize (IH (tp ++ [pdf]) st). cbv zeta in IH.
      destruct IH as (Hlen & Hs & Hf & Hin & Htp & Hskip).
      rewrite length_app in Hlen. cbn [length] in Hlen |- *.
      split; [lia |]. split; [exact Hs |]. split; [exact Hf |].
      split; [| split].
      * intros pdf' Hpdf'. apply elem_of_cons in Hpdf' as [-> | Hpdf'].
        -- left. apply Htp. apply elem_of_app. right. left.
        -- apply Hin, Hpdf'.
      * intros pdf' Hpdf'. apply Htp. apply elem_of_app. left. exact Hpdf'.
      * intros ->. rewrite (Hskip eq_refl). unfold count_if. cbn [List.filter].
        cbn [orb] in Hsel. apply negb_true_iff in Hsel. rewrite Hsel. reflexivity.
    + specialize (IH tp (add_skip st)). cbv zeta in IH.
      destruct IH as (Hlen & Hs & Hf & Hin & Htp & Hskip).
      cbn [add_skip skip success fail length] in *.
      apply orb_false_iff in Hsel as [Ho Hex]. apply negb_false_iff in Hex.
      split; [lia |]. split; [exact Hs |]. split; [exact Hf |].
      split; [| split].
      * intros pdf' Hpdf'. apply elem_of_cons in Hpdf' as [-> | Hpdf'].
        -- right. exact Hex.
        -- apply Hin, Hpdf'.
      * exact Htp.
      * intros _. rewrite (Hskip Ho). unfold count_if. cbn [List.filter].
        rewrite Hex. cbn [length]. lia.
Qed.

(** Preparing the tables touches nothing but the tables. *)
Lemma prepared_world_fields folder_name overwrite w :
  let w0 := init_csv ALL_CSV_NAME
              (init_csv (csv_name folder_name)
                 (if overwrite && bool_decide (is_Some (csv_files w !! csv_name folder_name))
                  then unlink_csv (csv_name folder_name) w else w)) in
  json_files w0 = json_files w /\ error_log w0 = error_log w
  /\ llm_calls w0 = llm_calls w /\ sleeps w0 = sleeps w.
Proof.
  cbv zeta. destruct (overwrite && _); repeat split; reflexivity.
Qed.

Lemma json_exists_same (w w' : World) folder_name pdf :
  json_files w' = json_files w ->
  json_exists w' folder_name pdf = json_exists w folder_name pdf.
Proof. unfold json_exists. intros ->. reflexivity. Qed.

Lemma count_if_ext {A : Type} (p q : A -> bool) (l : list A) :
  (forall a, p a = q a) -> count_if p l = count_if q l.
Proof.
  intros Hpq. unfold count_if. induction l as [| a l IH]; cbn [List.filter]; [reflexivity |].
  rewrite Hpq. destruct (q a); cbn [length]; rewrite IH; reflexivity.
Qed.

(** Everything one call of [process_folder] does to the counters and to
    the world outside the tables. *)
Lemma process_folder_effects folder overwrite start w :
  let r := process_folder attempt_of folder overwrite start w in
  (success (fst (fst r)) + skip (fst (fst r)) + fail (fst (fst r))
   = length (pdf_files folder))%nat
  /\ length (error_log (snd r)) = (length (error_log w) + fail (fst (fst r)))%nat
  /\ sleeps (snd r)
     = (sleeps w + Nat.pred (success (fst (fst r)) + fail (fst (fst r))))%nat
  /\ (llm_calls w + success (fst (fst r)) <= llm_calls (snd r))%nat
  /\ (llm_calls (snd r)
      <= llm_calls w + success (fst (fst r)) + fail (fst (fst r)))%nat
  /\ json_files w ⊆ json_files (snd r)
  /\ (fail (fst (fst r)) = 0%nat ->
      Forall (fun pdf => json_exists (snd r) (name folder) pdf = true) (pdf_files folder))
  /\ (overwrite = false ->
      skip (fst (fst r)) = count_if (json_exists w (name folder)) (pdf_files folder)).
Proof.
  cbv zeta. unfold process_folder.
  pose proof (prepared_world_fields (name folder) overwrite w) as Hw0. cbv zeta in Hw0.
  set (w0 := init_csv ALL_CSV_NAME (init_csv (csv_name (name folder)) _)) in *.
  destruct Hw0 as (Hj0 & He0 & Hl0 & Hs0).
  pose proof (select_pdf_split w0 (name folder) overwrite (pdf_files folder) []
                {| success := 0; skip := 0; fail := 0 |}) as Hsel.
  cbv zeta in Hsel.
  destruct (fold_left (select_pdf w0 (name folder) overwrite) (pdf_files folder) _)
    as [to_process st0].
  cbn [fst snd length success skip fail] in Hsel.
  destruct Hsel as (Hlen & Hsucc & Hfail & Hin & _ & Hskip).
  assert (Hskip' : overwrite = false ->
            skip st0 = count_if (json_exists w (name folder)) (pdf_files folder)).
  { intros Ho. rewrite (Hskip Ho). cbn. apply count_if_ext.
    intros pdf. apply json_exists_same, Hj0. }
  destruct to_process as [| pdf rest].
  - cbn [fst snd length] in *. rewrite Hj0, He0, Hl0, Hs0, Hsucc, Hfail.
    split; [lia |]. split; [lia |]. split; [cbn; lia |]. split; [lia |].
    split; [lia |]. split; [reflexivity |]. split; [| exact Hskip'].
    intros _. apply Forall_forall. intros p Hp.
    destruct (Hin p Hp) as [Hnil | Hex]; [inversion Hnil | exact Hex].
  - pose proof (process_all_effects (name folder) (length (pdf :: rest)) (pdf :: rest)
                  1 st0 start w0) as Hall.
    cbv zeta in Hall.
    destruct (process_all attempt_of (name folder) (length (pdf :: rest)) 1 (pdf :: rest)
                (st0, start, w0)) as [[st1 gi1] w1].
    cbn [fst snd] in Hall |- *.
    destruct Hall as (Hc & Hsk & Hlog & Hsl & Hll & Hll' & Hll'' & Hj & Hfl & Hex).
    rewrite Hj0 in Hj. rewrite He0 in Hlog. rewrite Hl0 in Hll, Hll', Hll''.
    rewrite Hs0 in Hsl. cbn [length] in *.
    split; [lia |]. split; [lia |].
    split; [rewrite Hsl; lia |]. split; [lia |]. split; [lia |].
    split; [exact Hj |]. split; [| rewrite Hsk; exact Hskip'].
    intros Hf1. apply Forall_forall. intros p Hp.
    destruct (Hin p Hp) as [Htp | Hexists].
    + assert (Hf : fail st1 = fail st0) by lia.
      specialize (Hex Hf). rewrite Forall_forall in Hex. apply Hex, Htp.
    + apply (json_exists_mono w w1); [exact Hj |].
      rewrite (json_exists_same w w0) in Hexists by exact Hj0. exact Hexists.
Qed.

(** X1: whatever the outside world answers and whatever the mode, every
    document of the folder is counted exactly once: as a success, as a
    skip or as a failure. *)
Theorem process_folder_counts_every_document folder overwrite start w :
  (success (fst (fst (process_folder attempt_of folder overwrite start w)))
   + skip (fst (fst (process_folder attempt_of folder overwrite start w)))
   + fail (fst (fst (process_folder attempt_of folder overwrite start w)))
   = length (pdf_files folder))%nat.
Proof. apply (process_folder_effects folder overwrite start w). Qed.

(** X2: a folder costs one pause less than the documents it processes
    (none when it processes none); it sends at least one request per
    success and at most one per processed document; and the error log
    gets exactly one line per failure. *)
Theorem process_folder_pauses_requests_and_log folder overwrite start w :
  sleeps (snd (process_folder attempt_of folder overwrite start w))
  = (sleeps w
     + Nat.pred (success (fst (fst (process_folder attempt_of folder overwrite start w)))
                 + fail (fst (fst (process_folder attempt_of folder overwrite start w)))))%nat
  /\ (llm_calls w + success (fst (fst (process_folder attempt_of folder overwrite start w)))
      <= llm_calls (snd (process_folder attempt_of folder overwrite start w)))%nat
  /\ (llm_calls (snd (process_folder attempt_of folder overwrite start w))
      <= llm_calls w
         + success (fst (fst (process_folder attempt_of folder overwrite start w)))
         + fail (fst (fst (process_folder attempt_of folder overwrite start w))))%nat
  /\ length (error_log (snd (process_folder attempt_of folder overwrite start w)))
     = (length (error_log w)
        + fail (fst (fst (process_folder attempt_of folder overwrite start w))))%nat.
Proof.
  destruct (process_folder_effects folder overwrite start w)
    as (_ & Hlog & Hsl & Hl1 & Hl2 & _).
  split; [exact Hsl |]. split; [exact Hl1 |]. split; [exact Hl2 | exact Hlog].
Qed.

(** A table that exists is never removed by the second loop. *)
Lemma process_pdf_keeps_tables folder_name pdf st gi w file :
  is_Some (csv_files w !! file) ->
  is_Some (csv_files (snd (process_pdf attempt_of folder_name pdf (st, gi, w))) !! file).
Proof.
  intros Hfile. unfold process_pdf.
  destruct (attempt_of folder_name pdf) as [e | e | e | e created | e | data e | data];
    try destruct created;
    cbn [snd csv_files log_error count_llm_call write_json append_to_csv set_csv_files];
    rewrite ?lookup_insert; repeat case_decide; try exact Hfile; eexists; reflexivity.
Qed.

Lemma process_all_keeps_tables folder_name n to_process file :
  forall i st gi w,
    is_Some (csv_files w !! file) ->
    is_Some (csv_files (snd (process_all attempt_of folder_name n i to_process (st, gi, w)))
             !! file).
Proof.
  induction to_process as [| pdf rest IH]; intros i st gi w Hfile; cbn [process_all].
  - exact Hfile.
  - pose proof (process_pdf_keeps_tables folder_name pdf st gi w file Hfile) as Hp.
    destruct (process_pdf attempt_of folder_name pdf (st, gi, w)) as [[st1 gi1] w1].
    cbn [snd] in Hp. apply IH. destruct (i <? n)%nat; exact Hp.
Qed.

Lemma init_csv_creates file w : is_Some (csv_files (init_csv file w) !! file).
Proof.
  unfold init_csv, set_csv_files. cbn [csv_files].
  destruct (csv_files w !! file) eqn:Hf.
  - rewrite Hf. eexists; reflexivity.
  - rewrite lookup_insert_eq. eexists; reflexivity.
Qed.

Lemma init_csv_keeps file file' w :
  is_Some (csv_files w !! file') -> is_Some (csv_files (init_csv file w) !! file').
Proof.
  intros Hfile. unfold init_csv, set_csv_files. cbn [csv_files].
  destruct (csv_files w !! file) eqn:Hf; [exact Hfile |].
  rewrite lookup_insert. case_decide; [eexists; reflexivity | exact Hfile].
Qed.

(** [init_csv] leaves a table that exists as it is. *)
Lemma init_csv_existing file w :
  is_Some (csv_files w !! file) -> init_csv file w = w.
Proof.
  intros [rows Hrows]. destruct w. unfold init_csv, set_csv_files.
  cbn [csv_files json_files error_log llm_calls sleeps] in *.
  rewrite Hrows. reflexivity.
Qed.

(** After a call both tables exist. *)
Lemma process_folder_tables_exist folder overwrite start w :
  is_Some (csv_files (snd (process_folder attempt_of folder overwrite start w))
           !! csv_name (name folder))
  /\ is_Some (csv_files (snd (process_folder attempt_of folder overwrite start w))
              !! ALL_CSV_NAME).
Proof.
  unfold process_folder.
  set (w0 := init_csv ALL_CSV_NAME (init_csv (csv_name (name folder)) _)).
  assert (Hlocal : is_Some (csv_files w0 !! csv_name (name folder)))
    by (apply init_csv_keeps, init_csv_creates).
  assert (Hall : is_Some (csv_files w0 !! ALL_CSV_NAME)) by apply init_csv_creates.
  destruct (fold_left _ (pdf_files folder) _) as [to_process st0].
  destruct to_process as [| pdf rest]; [split; assumption |].
  pose proof (process_all_keeps_tables (name folder) (length (pdf :: rest)) (pdf :: rest)
                (csv_name (name folder)) 1 st0 start w0 Hlocal) as H1.
  pose proof (process_all_keeps_tables (name folder) (length (pdf :: rest)) (pdf :: rest)
                ALL_CSV_NAME 1 st0 start w0 Hall) as H2.
  destruct (process_all attempt_of (name folder) (length (pdf :: rest)) 1 (pdf :: rest)
              (st0, start, w0)) as [[st1 gi1] w1].
  split; assumption.
Qed.

(** X4: after a call in which no document failed, a second call without
    overwrite on what the first one left does nothing at all: it skips
    every document, returns the index it was given and leaves the files,
    the log and the counters of requests and pauses exactly as they
    are. *)
Theorem process_folder_rerun_is_noop folder overwrite start w :
  fail (fst (fst (process_folder attempt_of folder overwrite start w))) = 0%nat ->
  process_folder attempt_of folder false
    (snd (fst (process_folder attempt_of folder overwrite start w)))
    (snd (process_folder attempt_of folder overwrite start w))
  = (({| success := 0; skip := length (pdf_files folder); fail := 0 |},
      snd (fst (process_folder attempt_of folder overwrite start w))),
     snd (process_folder attempt_of folder overwrite start w)).
Proof.
  intros Hfail.
  destruct (process_folder_effects folder overwrite start w)
    as (_ & _ & _ & _ & _ & _ & Hexists & _).
  specialize (Hexists Hfail).
  destruct (process_folder_tables_exist folder overwrite start w) as [Hlocal Hall].
  destruct (process_folder attempt_of folder overwrite start w) as [[st1 gi1] w1].
  cbn [fst snd] in *.
  unfold process_folder. cbn [andb].
  rewrite (init_csv_existing (csv_name (name folder)) w1 Hlocal).
  rewrite (init_csv_existing ALL_CSV_NAME w1 Hall).
  rewrite (select_pdf_all_exist w1 (name folder) (pdf_files folder) Hexists).
  reflexivity.
Qed.
End FolderEffects.

(** On the sample folder [B] where every document goes through, the
    second call is a no-op. *)
Lemma process_folder_rerun_is_noop_witness :
  let a := fun _ pdf : string => AutoRunner.Completed pdf in
  fst (AutoRunner.process_folder a Samples.folder_b false 3
         (snd (AutoRunner.process_folder a Samples.folder_b false 1 Samples.world_0)))
  = ({| AutoRunner.success := 0; AutoRunner.skip := 3; AutoRunner.fail := 0 |}, 3%nat).
Proof.
  cbv zeta.
  pose proof (process_folder_rerun_is_noop (fun _ pdf : string => AutoRunner.Completed pdf)
                Samples.folder_b false 1 Samples.world_0 eq_refl) as H.
  vm_compute in H |- *. inversion H. reflexivity.
Defined.

(** ** A whole run *)
Section RunEffects.
Import AutoRunner.
Variable attempt_of : string -> string -> attempt.

Lemma main_loop_effects folders overwrite selected :
  forall total gi w,
    let r := main_loop attempt_of folders overwrite selected total gi w in
    json_files w ⊆ json_files (snd r)
    /\ forall total' gi',
         fst r = Py.Ok (total', gi') ->
         (length (error_log (snd r)) + fail total
          = length (error_log w) + fail total')%nat
         /\ (llm_calls w + success total' <= llm_calls (snd r) + success total)%nat
         /\ (llm_calls (snd r) + success total + fail total
             <= llm_calls w + success total' + fail total')%nat.
Proof.
  induction selected as [| idx rest IH]; intros total gi w; cbn [main_loop].
  - cbn [fst snd]. split; [reflexivity |]. intros total' gi' [= <- <-]. lia.
  - destruct (folders !! idx) as [folder |].
    + destruct (negb overwrite && (pending folder =? 0)%nat); [apply IH |].
      pose proof (process_folder_effects attempt_of folder overwrite gi w) as Hf.
      cbv zeta in Hf.
      destruct (process_folder attempt_of folder overwrite gi w) as [[st1 gi1] w1].
      cbn [fst snd] in Hf. destruct Hf as (_ & Hlog & _ & Hl1 & Hl2 & Hj & _).
      specialize (IH (add_stats total st1) gi1 w1). cbv zeta in IH.
      destruct IH as [Hj' Hok]. split; [transitivity (json_files w1); assumption |].
      intros total' gi' Hres. apply Hok in Hres.
      cbn [add_stats success fail] in Hres. lia.
    + cbn [fst snd]. split; [reflexivity |]. intros total' gi' [=].
Qed.

(** X3: a run never removes an artifact, with or without overwrite; when
    it ends normally the error log has grown by exactly one line per
    failed document, and the requests sent are at least the successes and
    at most the successes plus the failures. *)
Theorem run_keeps_artifacts_and_logs_failures folders overwrite selected w :
  json_files w ⊆ json_files (snd (run_selected attempt_of folders overwrite selected w))
  /\ forall total gi,
       fst (run_selected attempt_of folders overwrite selected w) = Py.Ok (total, gi) ->
       length (error_log (snd (run_selected attempt_of folders overwrite selected w)))
       = (length (error_log w) + fail total)%nat
       /\ (llm_calls w + success total
           <= llm_calls (snd (run_selected attempt_of folders overwrite selected w)))%nat
       /\ (llm_calls (snd (run_selected attempt_of folders overwrite selected w))
           <= llm_calls w + success total + fail total)%nat.
Proof.
  unfold run_selected.
  destruct (main_loop_effects folders overwrite selected
              {| success := 0; skip := 0; fail := 0 |} 1%nat w) as [Hj Hok].
  split; [exact Hj |]. intros total gi Hres. apply Hok in Hres.
  cbn [success fail] in Hres. lia.
Qed.
End RunEffects.

(** ** The scan and the processing loop agree *)
Section ScanThenProcess.
Import AutoRunner.
Variable attempt_of : string -> string -> attempt.

(** X5: for a folder as the scan reports it, a call without overwrite on
    the same artifacts skips exactly the documents the scan counted as
    processed and works on exactly those it counted as pending. *)
Theorem process_folder_matches_scan (item : DirEntry) (fs : FolderStatus) start w :
  folder_status (json_files w) item = Some fs ->
  skip (fst (fst (process_folder attempt_of fs false start w))) = processed fs
  /\ (success (fst (fst (process_folder attempt_of fs false start w)))
      + fail (fst (fst (process_folder attempt_of fs false start w))))%nat
     = pending fs
  /\ (processed fs + pending fs)%nat = total_pdfs fs
  /\ total_pdfs fs = length (pdf_files fs).
Proof.
  intros Hfs.
  destruct (process_folder_effects attempt_of fs false start w)
    as (Hcount & _ & _ & _ & _ & _ & _ & Hskip).
  specialize (Hskip eq_refl).
  unfold folder_status in Hfs.
  destruct (Py.list_sort String.ltb id false (pdf_children item)) as [| f rest] eqn:Hsort;
    [discriminate |].
  injection Hfs as <-. cbn [name processed pending total_pdfs pdf_files] in *.
  pose proof (count_if_split
                (fun pdf => bool_decide ((entry_name item, Py.stem pdf +:+ ".json")
                                         ∈ json_files w)) (f :: rest)) as Hsplit.
  assert (Hsame : count_if (json_exists w (entry_name item)) (f :: rest)
                  = count_if (fun pdf => bool_decide
                                ((entry_name item, Py.stem pdf +:+ ".json") ∈ json_files w))
                             (f :: rest)) by reflexivity.
  rewrite Hsame in Hskip.
  split; [exact Hskip |]. split; [| split; [exact Hsplit | reflexivity]].
  lia.
Qed.
End ScanThenProcess.

(** The folder [A] of the sample directory, with one of its two
    artifacts present. *)
Lemma process_folder_matches_scan_witness :
  let item := {| AutoRunner.entry_name := "A"; AutoRunner.entry_kind := AutoRunner.Directory;
                 AutoRunner.children := [("01_a.pdf", AutoRunner.RegularFile);
                                         ("02_b.pdf", AutoRunner.RegularFile)] |} in
  let w := {| AutoRunner.json_files := {[ ("A", "01_a.json") ]};
              AutoRunner.csv_files := ∅; AutoRunner.error_log := [];
              AutoRunner.llm_calls := 0; AutoRunner.sleeps := 0 |} in
  match AutoRunner.folder_status (AutoRunner.json_files w) item with
  | Some fs =>
      AutoRunner.skip (fst (fst (AutoRunner.process_folder Samples.attempts fs false 1 w)))
      = 1%nat
  | None => False
  end.
Proof.
  cbv zeta.
  set (item := {| AutoRunner.entry_name := "A" |}).
  set (w := {| AutoRunner.json_files := {[ ("A", "01_a.json") ]} |}).
  destruct (AutoRunner.folder_status (AutoRunner.json_files w) item) as [fs |] eqn:Hfs;
    [| vm_compute in Hfs; discriminate].
  destruct (process_folder_matches_scan Samples.attempts item fs 1 w Hfs) as [Hskip _].
  rewrite Hskip. vm_compute in Hfs. injection Hfs as <-. reflexivity.
Defined.

(** ** The table of a folder *)
Section FolderTable.
Import AutoRunner.
Variable attempt_of : string -> string -> attempt.

Lemma select_pdf_filter w folder_name overwrite pdfs :
  forall tp st,
    fst (fold_left (select_pdf w folder_name overwrite) pdfs (tp, st))
    = tp ++ List.filter (fun pdf => overwrite || negb (json_exists w folder_name pdf)) pdfs.
Proof.
  induction pdfs as [| pdf rest IH]; intros tp st; cbn [fold_left List.filter].
  - cbn [fst]. rewrite app_nil_r. reflexivity.
  - assert (Hstep : select_pdf w folder_name overwrite (tp, st) pdf
                    = if overwrite || negb (json_exists w folder_name pdf)
                      then (tp ++ [pdf], st) else (tp, add_skip st)) by reflexivity.
    rewrite Hstep.
    destruct (overwrite || negb (json_exists w folder_name pdf)).
    + rewrite IH, <- app_assoc. reflexivity.
    + apply IH.
Qed.

Lemma table_rows_append_same file data idx w :
  table_rows (append_to_csv file data idx w) file = table_rows w file ++ [(idx, data)].
Proof.
  unfold table_rows, append_to_csv, set_csv_files. cbn [csv_files].
  rewrite lookup_insert_eq. reflexivity.
Qed.

Lemma csv_files_append_other file file' data idx w :
  file' <> file ->
  csv_files (append_to_csv file data idx w) !! file' = csv_files w !! file'.
Proof.
  intros Hne. unfold append_to_csv, set_csv_files. cbn [csv_files].
  apply lookup_insert_ne. congruence.
Qed.



End FolderTable.



(** ** The dialogue *)
Section Dialogue.
Import AutoRunner.
Variable attempt_of : string -> string -> attempt.


Lemma positions_lookup {A : Type} (p : A -> bool) (l : list A) :
  forall i j, j ∈ positions p i l <->
              exists x, l !! Z.to_nat (j - i) = Some x /\ (i <= j)%Z /\ p x = true.
Proof.
  induction l as [| x l IH]; intros i j; cbn [positions].
  - split; [intros H; inversion H | intros (y & Hy & _); discriminate].
  - assert (Htail : j ∈ positions p (i + 1) l <->
                    exists y, (x :: l) !! Z.to_nat (j - i) = Some y
                              /\ (i + 1 <= j)%Z /\ p y = true).
    { rewrite IH. split; intros (y & Hy & Hle & Hp); exists y.
      - replace (Z.to_nat (j - i)) with (S (Z.to_nat (j - (i + 1)))) by lia.
        split; [exact Hy | split; assumption].
      - replace (Z.to_nat (j - i)) with (S (Z.to_nat (j - (i + 1)))) in Hy by lia.
        split; [exact Hy | split; assumption]. }
    destruct (p x) eqn:Hpx.
    + rewrite elem_of_cons, Htail. split.
      * intros [-> | (y & Hy & Hle & Hp)].
        -- exists x. replace (Z.to_nat (i - i)) with 0%nat by lia.
           split; [reflexivity | split; [lia | exact Hpx]].
        -- exists y. split; [exact Hy | split; [lia | exact Hp]].
      * intros (y & Hy & Hle & Hp).
        destruct (decide (j = i)) as [-> | Hne]; [left; reflexivity | right].
        exists y. split; [exact Hy | split; [lia | exact Hp]].
    + rewrite Htail. split.
      * intros (y & Hy & Hle & Hp). exists y. split; [exact Hy | split; [lia | exact Hp]].
      * intros (y & Hy & Hle & Hp). exists y. split; [exact Hy |]. split; [| exact Hp].
        destruct (decide (j = i)) as [-> | Hne]; [| lia].
        replace (Z.to_nat (i - i)) with 0%nat in Hy by lia.
        injection Hy as <-. congruence.
Qed.

(** What [parse_selection] returns is strictly increasing and within the
    bound it was given. *)
Lemma parse_selection_range (selection : string) (max_num : Z) (l : list Z) :
  parse_selection selection max_num = Py.Ok l ->
  StronglySorted Z.lt l /\ Forall (fun i => (0 <= i < max_num)%Z) l.
Proof.
  unfold parse_selection.
  pose proof (parse_parts_spec max_num
                (Py.split "," (Py.remove_char " " selection)) ∅) as Hspec.
  destruct (parse_parts (Py.split "," (Py.remove_char " " selection)) max_num ∅)
    as [indices | e]; [| discriminate].
  intros [= <-]. destruct Hspec as [Hall Hmem].
  destruct (sorted_elements indices) as [Hsorted Helem].
  split; [exact Hsorted |].
  apply Forall_forall. intros i Hi. apply Helem, Hmem in Hi.
  destruct Hi as [Hi | (part & t & Hin & Hw & Hsel)]; [set_solver |].
  rewrite Forall_forall in Hall. destruct (Hall part Hin) as (t' & Hw' & Hb).
  rewrite (written_as_inj _ _ _ Hw Hw') in Hsel.
  destruct t' as [n | a b]; simpl in Hb, Hsel; lia.
Qed.

Lemma getitem_in_range {A : Type} (l : list A) (i : Z) :
  (0 <= i < Z.of_nat (length l))%Z ->
  exists a, Py.getitem l i = Py.Ok a /\ l !! Z.to_nat i = Some a.
Proof.
  intros Hi. unfold Py.getitem.
  destruct (Z.ltb_spec i 0); [lia |]. cbv zeta.
  destruct (Z.ltb_spec i 0); [lia |].
  destruct (l !! Z.to_nat i) as [a |] eqn:Ha; [exists a; split; reflexivity |].
  apply lookup_ge_None in Ha. lia.
Qed.

Lemma for_each_getitem {A : Type} (l : list A) (indices : list Z) :
  Forall (fun i => (0 <= i < Z.of_nat (length l))%Z) indices ->
  exists chosen,
    Py.for_each (Py.getitem l) indices = Py.Ok chosen
    /\ forall a, a ∈ chosen -> exists i, i ∈ indices /\ l !! Z.to_nat i = Some a.
Proof.
  induction 1 as [| i indices Hi _ IH]; cbn [Py.for_each].
  - exists []. split; [reflexivity |]. intros a Ha. inversion Ha.
  - destruct (getitem_in_range l i Hi) as (a & -> & Ha).
    destruct IH as (chosen & -> & Hchosen).
    exists (a :: chosen). split; [reflexivity |].
    intros b Hb. apply elem_of_cons in Hb as [-> | Hb].
    + exists i. split; [left | exact Ha].
    + destruct (Hchosen b Hb) as (j & Hj & Hjb). exists j. split; [right; exact Hj | exact Hjb].
Qed.

(** An outcome explained by later answers is explained by all of them. *)
Lemma answered_cons folders line rest c :
  answered folders rest c -> answered folders (line :: rest) c.
Proof.
  destruct c as [[| |] selected [|] | |]; cbn [answered]; try exact (fun H => H).
  - intros (Hsel & k & r & y & Hr & Hy & H). split; [exact Hsel |].
    exists (S k), r, y. split; [exact Hr | split; [exact Hy | exact H]].
  - intros (Hne & k & l & Hl & Hparse & Hov). split; [exact Hne |].
    exists (S k), l. split; [exact Hl | split; [exact Hparse | exact Hov]].
  - intros (Hne & k & l & Hl & Hparse & Hov). split; [exact Hne |].
    exists (S k), l. split; [exact Hl | split; [exact Hparse | exact Hov]].
Qed.

Lemma dialogue_answered folders :
  forall n inputs, (length inputs <= n)%nat ->
    answered folders inputs (get_user_choice folders inputs)
    /\ answered folders inputs (get_folder_selection folders inputs).
Proof.
  induction n as [| n IH]; intros inputs Hlen.
  - destruct inputs; [split; exact I | cbn in Hlen; lia].
  - destruct inputs as [| line rest]; [split; exact I |]. cbn [length] in Hlen.
    assert (Hrest : (length rest <= n)%nat) by lia.
    split.
    + cbn -[Py.for_each Py.getitem parse_selection Py.strip Py.upper Py.lower String.eqb
             confirmed existsb positions answered Nat.ltb Z.of_nat length].
      destruct (String.eqb (Py.upper (Py.strip line)) "Q"); [split; reflexivity |].
      destruct (String.eqb (Py.upper (Py.strip line)) "A").
      { destruct (positions (fun f => (0 <? pending f)%nat) 0 folders) eqn:Hpos;
          [split; reflexivity |].
        cbn [answered]. split; [discriminate | symmetry; exact Hpos]. }
      destruct (String.eqb (Py.upper (Py.strip line)) "R") eqn:HR.
      { destruct rest as [| line2 rest2]; [exact I |].
        destruct (String.eqb (Py.lower (Py.strip line2)) "y") eqn:Hy.
        - cbn [answered]. split; [reflexivity |].
          exists 0%nat, line, line2. split; [reflexivity |]. split; [reflexivity |].
          split; apply String.eqb_eq; assumption.
        - apply answered_cons, answered_cons, IH. cbn [length] in Hrest. lia. }
      destruct (String.eqb (Py.upper (Py.strip line)) "S").
      * apply answered_cons, IH, Hrest.
      * apply answered_cons, IH, Hrest.
    + cbn -[Py.for_each Py.getitem parse_selection Py.strip Py.upper Py.lower String.eqb
             confirmed existsb positions answered Nat.ltb Z.of_nat length].
      destruct (String.eqb (Py.upper (Py.strip line)) "B");
        [apply answered_cons, IH, Hrest |].
      destruct (parse_selection (Py.strip line) (Z.of_nat (length folders)))
        as [[| i more] | e] eqn:Hparse.
      * apply answered_cons, IH, Hrest.
      * destruct (parse_selection_range _ _ _ Hparse) as [_ Hrange].
        destruct (for_each_getitem folders (i :: more) Hrange) as (chosen & Hchosen & Hfrom).
        rewrite Hchosen.
        destruct (existsb (fun f => (0 <? processed f)%nat) chosen) eqn:Hany.
        -- destruct rest as [| line2 [| line3 rest3]]; [exact I | exact I |].
           destruct (confirmed (Py.lower (Py.strip line3))).
           ++ cbn [answered]. split; [discriminate |].
              exists 0%nat, line. split; [reflexivity |]. split; [exact Hparse |].
              intros Hov. split.
              ** exists line2. split; [reflexivity | apply String.eqb_eq, Hov].
              ** apply existsb_exists in Hany as (f & Hf & Hproc).
                 apply list_elem_of_In, Hfrom in Hf as (j & Hj & Hjf).
                 exists j, f. split; [exact Hj |]. split; [exact Hjf |].
                 apply Nat.ltb_lt, Hproc.
           ++ apply answered_cons, answered_cons, answered_cons, IH.
              cbn [length] in Hrest. lia.
        -- destruct rest as [| line3 rest3]; [exact I |].
           destruct (confirmed (Py.lower (Py.strip line3))).
           ++ cbn [answered]. split; [discriminate |].
              exists 0%nat, line. split; [reflexivity |]. split; [exact Hparse |].
              discriminate.
           ++ apply answered_cons, answered_cons, IH. cbn [length] in Hrest. lia.
      * pose proof (parse_parts_spec (Z.of_nat (length folders))
                      (Py.split "," (Py.remove_char " " (Py.strip line))) ∅) as Hspec.
        unfold parse_selection in Hparse.
        destruct (parse_parts (Py.split "," (Py.remove_char " " (Py.strip line)))
                    (Z.of_nat (length folders)) ∅) as [indices | e']; [discriminate |].
        injection Hparse as <-. destruct Hspec as (part & prefix & _ & _ & ->).
        apply answered_cons, IH, Hrest.
Qed.



End Dialogue.


(** ** A scan, a run and a second scan *)
Section ScanRunScan.
Import AutoRunner.
Variable attempt_of : string -> string -> attempt.

Lemma elem_of_scan_folders (json : gset (string * string)) (root : list DirEntry)
    (fs : FolderStatus) :
  NoDup (map entry_name root) ->
  fs ∈ fst (scan_folders root json) <->
  exists item, item ∈ root /\ entry_kind item = Directory
               /\ folder_status json item = Some fs.
Proof.
  intros Hnd.
  destruct (scan_fold_spec json root Hnd ∅ []) as [_ Hmap].
  { intros item _. apply lookup_empty. }
  unfold scan_folders.
  destruct (fold_left (scan_step json) root (∅, [])) as [folders root_pdfs].
  cbn [fst snd] in *.
  rewrite (list_sort_Permutation String.ltb name false).
  rewrite list_elem_of_fmap. split.
  - intros ([n fs'] & -> & Hin). apply elem_of_map_to_list in Hin.
    apply Hmap in Hin as [Hin | (item & Hin & _ & Hk & Hf)].
    + rewrite lookup_empty in Hin. discriminate.
    + exists item. split; [exact Hin | split; assumption].
  - intros (item & Hin & Hk & Hf). exists (entry_name item, fs).
    split; [reflexivity |]. apply elem_of_map_to_list. apply Hmap.
    right. exists item. split; [exact Hin |]. split; [reflexivity |].
    split; assumption.
Qed.

Lemma count_if_zero {A : Type} (p : A -> bool) (l : list A) :
  count_if p l = 0%nat <-> Forall (fun a => p a = false) l.
Proof.
  unfold count_if. induction l as [| a l IH]; cbn [List.filter]; [split; constructor |].
  destruct (p a) eqn:Hp; cbn [length].
  - split; [discriminate | intros H; inversion H; congruence].
  - rewrite IH. split; [intros H; constructor; assumption | intros H; inversion H; assumption].
Qed.

(** Nothing is pending in a folder exactly when every document of it has
    its artifact. *)
Lemma folder_status_pending (w : World) (item : DirEntry) (fs : FolderStatus) :
  folder_status (json_files w) item = Some fs ->
  (pending fs = 0%nat <->
   Forall (fun pdf => json_exists w (name fs) pdf = true) (pdf_files fs))
  /\ (processed fs + pending fs)%nat = total_pdfs fs
  /\ name fs = entry_name item
  /\ pdf_files fs = Py.list_sort String.ltb id false (pdf_children item).
Proof.
  unfold folder_status.
  destruct (Py.list_sort String.ltb id false (pdf_children item)) as [| f rest] eqn:Hsort;
    [discriminate |].
  intros [= <-]. cbn [name processed pending total_pdfs pdf_files].
  split; [| split; [exact (count_if_split _ (f :: rest)) | split; reflexivity]].
  rewrite count_if_zero. unfold json_exists.
  split; intros H; (eapply Forall_impl; [exact H |]); cbn beta; intros pdf Hpdf.
  - apply negb_false_iff in Hpdf. exact Hpdf.
  - rewrite Hpdf. reflexivity.
Qed.

(** When the loop of [main] ends without a new failure, every folder it
    went through was either passed over, with nothing pending, or has
    all its artifacts at the end. *)
Lemma main_loop_complete folders overwrite selected :
  forall total gi w total' gi',
    fst (main_loop attempt_of folders overwrite selected total gi w) = Py.Ok (total', gi') ->
    (fail total <= fail total')%nat
    /\ (fail total' = fail total ->
        forall idx folder,
          idx ∈ selected -> folders !! idx = Some folder ->
          pending folder = 0%nat
          \/ Forall (fun pdf =>
                       json_exists
                         (snd (main_loop attempt_of folders overwrite selected total gi w))
                         (name folder) pdf = true)
                    (pdf_files folder)).
Proof.
  induction selected as [| idx0 rest IH]; intros total gi w total' gi'; cbn [main_loop].
  - cbn [fst]. intros [= <- <-]. split; [lia |]. intros _ idx folder Hin. inversion Hin.
  - destruct (folders !! idx0) as [folder0 |] eqn:Hf0; [| cbn [fst]; discriminate].
    destruct (negb overwrite && (pending folder0 =? 0)%nat) eqn:Hskip.
    + intros Hres. destruct (IH total gi w total' gi' Hres) as [Hle Hall].
      split; [exact Hle |]. intros Heq idx folder Hin Hf.
      apply elem_of_cons in Hin as [-> | Hin]; [| exact (Hall Heq idx folder Hin Hf)].
      left. rewrite Hf0 in Hf. injection Hf as <-.
      apply andb_true_iff in Hskip as [_ Hp]. apply Nat.eqb_eq, Hp.
    + pose proof (process_folder_effects attempt_of folder0 overwrite gi w) as Hpf.
      cbv zeta in Hpf.
      destruct (process_folder attempt_of folder0 overwrite gi w) as [[st1 gi1] w1].
      cbn [fst snd] in Hpf. destruct Hpf as (_ & _ & _ & _ & _ & _ & Hexists & _).
      intros Hres. destruct (IH (add_stats total st1) gi1 w1 total' gi' Hres) as [Hle Hall].
      cbn [add_stats fail] in Hle, Hall.
      split; [lia |]. intros Heq idx folder Hin Hf.
      apply elem_of_cons in Hin as [-> | Hin].
      * right. rewrite Hf0 in Hf. injection Hf as <-.
        destruct (main_loop_effects attempt_of folders overwrite rest
                    (add_stats total st1) gi1 w1) as [Hmono _].
        eapply Forall_impl; [apply Hexists; lia |]. cbn beta. intros pdf Hpdf.
        eapply (json_exists_mono attempt_of); [exact Hmono | exact Hpdf].
      * apply (Hall ltac:(lia) idx folder Hin Hf).
Qed.

(** X9: a scan, then a run over a selection that holds every folder with
    a pending document (as both modes for all folders give it), ending
    without a failure: a second scan of the same directory reports the
    same folders, by name, with nothing pending. *)
Theorem run_without_failure_leaves_nothing_pending
    (root : list DirEntry) (w : World) overwrite (selected : list nat) total gi :
  NoDup (map entry_name root) ->
  (forall idx folder,
      fst (scan_folders root (json_files w)) !! idx = Some folder ->
      (0 < pending folder)%nat -> idx ∈ selected) ->
  fst (run_selected attempt_of (fst (scan_folders root (json_files w)))
                    overwrite selected w) = Py.Ok (total, gi) ->
  fail total = 0%nat ->
  Forall (fun folder => pending folder = 0%nat /\ processed folder = total_pdfs folder)
         (fst (scan_folders root
                 (json_files
                    (snd (run_selected attempt_of (fst (scan_folders root (json_files w)))
                                       overwrite selected w)))))
  /\ forall n,
       n ∈ map name (fst (scan_folders root
                 (json_files
                    (snd (run_selected attempt_of (fst (scan_folders root (json_files w)))
                                       overwrite selected w)))))
       <-> n ∈ map name (fst (scan_folders root (json_files w))).
Proof.
  intros Hnd Hcover Hres Hfail.
  set (folders := fst (scan_folders root (json_files w))) in *.
  set (w' := snd (run_selected attempt_of folders overwrite selected w)).
  unfold run_selected in Hres, w'.
  destruct (main_loop_complete folders overwrite selected _ _ _ _ _ Hres) as [_ Hall].
  specialize (Hall Hfail).
  destruct (main_loop_effects attempt_of folders overwrite selected
              {| success := 0; skip := 0; fail := 0 |} 1%nat w) as [Hmono _].
  fold w' in Hall, Hmono.
  split.
  - apply Forall_forall. intros f' Hf'.
    apply (elem_of_scan_folders _ root f' Hnd) in Hf' as (item & Hitem & Hk & Hst').
    destruct (folder_status_pending w' item f' Hst') as (Hpend' & Hsum' & Hname' & Hfiles').
    assert (Hsome : is_Some (folder_status (json_files w) item)).
    { apply folder_status_is_Some.
      apply (folder_status_is_Some (json_files w') item). eauto. }
    destruct Hsome as [f Hst].
    destruct (folder_status_pending w item f Hst) as (Hpend & _ & Hname & Hfiles).
    assert (Hin : f ∈ folders).
    { apply (elem_of_scan_folders _ root f Hnd). exists item. repeat split; assumption. }
    apply list_elem_of_lookup in Hin as [idx Hidx].
    assert (Hdone : Forall (fun pdf => json_exists w' (name f') pdf = true) (pdf_files f')).
    { rewrite Hname', Hfiles', <- Hname, <- Hfiles.
      destruct (Nat.eq_dec (pending f) 0) as [Hzero | Hpos].
      - apply Hpend in Hzero. eapply Forall_impl; [exact Hzero |]. cbn beta.
        intros pdf Hpdf. eapply (json_exists_mono attempt_of); [exact Hmono | exact Hpdf].
      - destruct (Hall idx f (Hcover idx f Hidx ltac:(lia)) Hidx) as [Hzero | Hdone];
          [contradiction | exact Hdone]. }
    apply Hpend' in Hdone. split; [exact Hdone | lia].
  - intros n. rewrite !list_elem_of_fmap.
    assert (Hboth : forall j j' : gset (string * string),
               (exists f, n = name f /\ f ∈ fst (scan_folders root j)) ->
               exists f, n = name f /\ f ∈ fst (scan_folders root j')).
    { intros j j' (f & -> & Hf).
      apply (elem_of_scan_folders _ root f Hnd) in Hf as (item & Hitem & Hk & Hst).
      assert (Hsome : is_Some (folder_status j' item)).
      { apply folder_status_is_Some. apply (folder_status_is_Some j item). eauto. }
      destruct Hsome as [f' Hst']. exists f'. split.
      - apply folder_status_Some in Hst as [-> _].
        apply folder_status_Some in Hst' as [-> _]. reflexivity.
      - apply (elem_of_scan_folders _ root f' Hnd). exists item.
        repeat split; assumption. }
    split; apply Hboth.
Qed.
End ScanRunScan.

(** The sample directory, where the folder [A] is complete and [B] has
    two pending documents that both go through. *)
Lemma run_without_failure_leaves_nothing_pending_witness :
  Forall (fun folder => AutoRunner.pending folder = 0%nat
                        /\ AutoRunner.processed folder = AutoRunner.total_pdfs folder)
    (fst (AutoRunner.scan_folders Samples.root_0
            (AutoRunner.json_files
               (snd (AutoRunner.run_selected (fun _ pdf => AutoRunner.Completed pdf)
                       (fst (AutoRunner.scan_folders Samples.root_0
                               (AutoRunner.json_files Samples.world_0)))
                       false [1%nat] Samples.world_0))))).
Proof.
  refine (proj1 (run_without_failure_leaves_nothing_pending
                   (fun _ pdf => AutoRunner.Completed pdf) Samples.root_0 Samples.world_0
                   false [1%nat]
                   {| AutoRunner.success := 2; AutoRunner.skip := 0; AutoRunner.fail := 0 |}
                   3%nat _ _ _ _)).
  - repeat constructor; rewrite ?list_elem_of_In; simpl; intuition discriminate.
  - assert (Hf : fst (AutoRunner.scan_folders Samples.root_0
                        (AutoRunner.json_files Samples.world_0))
                 = [ Samples.folder_a;
                     {| AutoRunner.name := "B"; AutoRunner.path := "B";
                        AutoRunner.total_pdfs := 2; AutoRunner.processed := 0;
                        AutoRunner.pending := 2;
                        AutoRunner.pdf_files := ["01_c.pdf"; "02_d.pdf"] |} ])
      by (vm_compute; reflexivity).
    rewrite Hf. intros [| [| idx]] folder Hidx Hpos; cbn in Hidx.
    + injection Hidx as <-. cbn in Hpos. lia.
    + left.
    + discriminate.
  - vm_compute. reflexivity.
  - reflexivity.
Defined.

(** ** Strings *)
Section StringProps.


















End StringProps.

(** ** The answer of the service *)
Section CleanJsonResponse.
Import AutoRunner.



End CleanJsonResponse.

(** ** The number of a file name *)
Section ExtractNumber.
Import AutoRunner.



End ExtractNumber.


(** ** The bucket catalogue, read and written *)
Section ThemeNames.
Import AutoRunner.






End ThemeNames.



(** ** The folder table on the screen *)
Section DisplayWidth.
Import AutoRunner.
Variable wide : N -> bool.

Lemma display_width_fold (s : Py.text) :
  forall acc,
    fold_left (fun width char => if wide char then (width + 2)%nat else (width + 1)%nat) s acc
    = (acc + get_display_width wide s)%nat.
Proof.
  unfold get_display_width. induction s as [| c s IH]; intros acc; cbn [fold_left]; [lia |].
  rewrite (IH (if wide c then (acc + 2)%nat else (acc + 1)%nat)).
  rewrite (IH (if wide c then (0 + 2)%nat else (0 + 1)%nat)).
  destruct (wide c); lia.
Qed.

Lemma display_width_app (s t : Py.text) :
  get_display_width wide (s ++ t)
  = (get_display_width wide s + get_display_width wide t)%nat.
Proof.
  unfold get_display_width at 1. rewrite fold_left_app.
  fold (get_display_width wide s). apply display_width_fold.
Qed.

Lemma display_width_spaces (n : nat) :
  wide 32 = false -> get_display_width wide (spaces n) = n.
Proof.
  intros Hsp. induction n as [| n IH]; [reflexivity |].
  change (spaces (S n)) with ([32%N] ++ spaces n).
  rewrite display_width_app, IH. unfold get_display_width. cbn [fold_left].
  rewrite Hsp. reflexivity.
Qed.

Lemma display_width_removelast (s : Py.text) :
  (get_display_width wide (removelast s) <= get_display_width wide s)%nat.
Proof.
  destruct (decide (s = [])) as [-> | Hne]; [reflexivity |].
  rewrite (app_removelast_last 0%N Hne) at 2. rewrite display_width_app. lia.
Qed.


(** X14: a text shorter than the column is centred in it, with the odd
    space on the right, and then fills the column exactly; a text that is
    as wide as the column or wider is left as it is.  The same holds for
    the alignment to the left. *)
Theorem pad_center_fills_the_column (s : Py.text) (width : nat) :
  wide 32 = false ->
  get_display_width wide (pad_center wide s width)
  = Nat.max width (get_display_width wide s)
  /\ get_display_width wide (pad_left wide s width)
     = Nat.max width (get_display_width wide s)
  /\ ((width <= get_display_width wide s)%nat ->
      pad_center wide s width = s /\ pad_left wide s width = s)
  /\ ((get_display_width wide s < width)%nat ->
      exists left right,
        pad_center wide s width = spaces left ++ s ++ spaces right
        /\ (left + right = width - get_display_width wide s)%nat
        /\ (left <= right <= left + 1)%nat).
Proof.
  intros Hsp. unfold pad_center, pad_left. cbv zeta.
  destruct (Nat.leb_spec width (get_display_width wide s)) as [Hle | Hlt].
  - split; [lia |]. split; [lia |]. split; [split; reflexivity | lia].
  - pose proof (Nat.div_mod_eq (width - get_display_width wide s) 2) as Hdiv.
    pose proof (Nat.mod_upper_bound (width - get_display_width wide s) 2 ltac:(lia)) as Hmod.
    rewrite !display_width_app, !display_width_spaces by exact Hsp.
    split; [lia |]. split; [lia |]. split; [lia |].
    intros _. eexists _, _. split; [reflexivity |]. lia.
Qed.


End DisplayWidth.

(** The heading of the first column, two ideographs, in its six
    columns. *)
Lemma pad_center_fills_the_column_witness :
  AutoRunner.get_display_width Samples.wide_cjk
    (AutoRunner.pad_center Samples.wide_cjk [24207; 21495]%N 6) = 6%nat.
Proof.
  destruct (pad_center_fills_the_column Samples.wide_cjk [24207; 21495]%N 6 eq_refl)
    as [H _].
  exact H.
Defined.


(** ** Loading, scoring and writing: further properties *)
Section RescoringProps.
Import Rescoring.








(** *** Scores that are not numbers *)




Lemma score_to_level_nan : score_to_level S754_nan = "⭐".
Proof. reflexivity. Qed.

End RescoringProps.

(** ** Levels, the comparison table and the whole script *)
Section LevelsAndTables.
Import Rescoring.

Lemma fle_lex (x y : spec_float) :
  Py.fle x y = true <->
  Py.is_nan x = false /\ Py.is_nan y = false
  /\ ~ Py.lex_lt (Py.order_key y) (Py.order_key x).
Proof.
  unfold Py.fle, SFleb, Py.lex_lt.
  destruct x as [[] | [] | | [] mx ex]; destruct y as [[] | [] | | [] my ey];
    simpl;
    try (split; [intros H; first [discriminate | repeat split; lia]
                | intros (Hx & Hy & H); first [reflexivity | discriminate | lia]]).
  - change (Pos.compare_cont Eq mx my) with (Pos.compare mx my).
    destruct (Z.compare_spec ex ey); destruct (Pos.compare_spec mx my); simpl;
      (split; [intros H'; first [discriminate | repeat split; lia]
              | intros (_ & _ & H'); first [reflexivity | lia]]).
  - change (Pos.compare_cont Eq mx my) with (Pos.compare mx my).
    destruct (Z.compare_spec ex ey); destruct (Pos.compare_spec mx my); simpl;
      (split; [intros H'; first [discriminate | repeat split; lia]
              | intros (_ & _ & H'); first [reflexivity | lia]]).
Qed.

Lemma fle_trans (a b c : spec_float) :
  Py.fle a b = true -> Py.fle b c = true -> Py.fle a c = true.
Proof.
  rewrite !fle_lex. unfold Py.lex_lt.
  intros (Ha & Hb & Hab) (_ & Hc & Hbc). split; [exact Ha |]. split; [exact Hc |].
  intros Hca. lia.
Qed.

(** X18: a higher score never has fewer stars; every score, also one
    that is not a number, has between one and five stars; a score below
    zero or not a number has one. *)
Theorem score_to_level_is_monotone :
  (forall a b, Py.fle a b = true ->
               (stars (score_to_level a) <= stars (score_to_level b))%nat)
  /\ (forall x, (1 <= stars (score_to_level x) <= 5)%nat)
  /\ (forall x, score_to_level x ∈ map snd SCORE_TO_LEVEL)
  /\ (forall x, Py.fle (Py.float_of_Z 4) x = false -> score_to_level x = "⭐").
Proof.
  split; [| split; [| split]].
  - intros a b Hab. rewrite !score_to_level_thresholds. unfold level_by_thresholds.
    repeat match goal with
           | |- context [Py.fle ?t a] =>
               let H := fresh "Ha" in
               destruct (Py.fle t a) eqn:H;
               [rewrite (fle_trans t a b H Hab);
                repeat match goal with
                       | |- context [Py.fle ?t' b] => destruct (Py.fle t' b)
                       end; vm_compute; lia |]
           end.
    repeat match goal with
           | |- context [Py.fle ?t b] => destruct (Py.fle t b)
           end; vm_compute; lia.
  - intros x. rewrite score_to_level_thresholds. unfold level_by_thresholds.
    repeat match goal with
           | |- context [Py.fle ?t x] => destruct (Py.fle t x)
           end; vm_compute; lia.
  - intros x. rewrite score_to_level_thresholds. unfold level_by_thresholds.
    repeat match goal with
           | |- context [Py.fle ?t x] => destruct (Py.fle t x)
           end; unfold SCORE_TO_LEVEL; cbn [map snd]; repeat constructor.
  - intros x Hx. rewrite score_to_level_thresholds. unfold level_by_thresholds.
    assert (Hbelow : forall t, Py.fle (Py.float_of_Z 4) t = true -> Py.fle t x = false).
    { intros t Ht. destruct (Py.fle t x) eqn:Htx; [| reflexivity].
      rewrite (fle_trans _ t x Ht Htx) in Hx. discriminate. }
    rewrite !Hbelow by (vm_compute; reflexivity). reflexivity.
Qed.

(** *** The comparison table *)

Lemma lookup_pairs {A B : Type} (f g : A -> B) (l : list A) (k : nat) (a : A) :
  l !! k = Some a ->
  concat (map (fun x => [f x; g x]) l) !! (2 * k)%nat = Some (f a)
  /\ concat (map (fun x => [f x; g x]) l) !! S (2 * k) = Some (g a).
Proof.
  revert k. induction l as [| x l IH]; intros k Hk; [discriminate |].
  destruct k as [| k].
  - injection Hk as <-. split; reflexivity.
  - cbn [map concat]. replace (2 * S k)%nat with (S (S (2 * k))) by lia.
    exact (IH k Hk).
Qed.

Lemma length_pairs {A B : Type} (f g : A -> B) (l : list A) :
  length (concat (map (fun x => [f x; g x]) l)) = (2 * length l)%nat.
Proof. induction l as [| x l IH]; [reflexivity |]. cbn [map concat app length]. lia. Qed.

Lemma lookup_map {A B : Type} (f : A -> B) (l : list A) (i : nat) :
  map f l !! i = option_map f (l !! i).
Proof.
  revert i. induction l as [| x l IH]; intros [| i]; try reflexivity. exact (IH i).
Qed.

(** X19: the comparison table is rectangular, with nine columns and two
    more per scenario, and one line per paper under the header, in the
    order of the papers; under the two headings of a scenario stand the
    score and the level of the paper for that scenario. *)
Theorem comparison_table_columns (papers : list PaperRecord)
    (scenarios : list (string * ScenarioConfig)) (output_path : string) :
  length (lines (create_comparison_table papers scenarios output_path))
  = S (length papers)
  /\ Forall (fun line => length line = (9 + 2 * length scenarios)%nat)
            (lines (create_comparison_table papers scenarios output_path))
  /\ forall i paper k sc,
       papers !! i = Some paper -> scenarios !! k = Some sc ->
       exists header line,
         lines (create_comparison_table papers scenarios output_path) !! 0%nat = Some header
         /\ lines (create_comparison_table papers scenarios output_path) !! S i = Some line
         /\ header !! (9 + 2 * k)%nat = Some (CStr ("综合评分_" +:+ fst sc))
         /\ header !! (10 + 2 * k)%nat = Some (CStr ("推荐等级_" +:+ fst sc))
         /\ line !! (9 + 2 * k)%nat
            = Some (CFloat (overall_score (calculate_scenario_score paper (weights (snd sc)))))
         /\ line !! (10 + 2 * k)%nat
            = Some (CStr (level (calculate_scenario_score paper (weights (snd sc))))).
Proof.
  unfold create_comparison_table. cbn [lines].
  split; [cbn [length]; rewrite length_map; reflexivity |]. split.
  - constructor.
    + rewrite length_map. unfold comparison_headers. rewrite length_app, length_pairs.
      reflexivity.
    + apply Forall_fmap, Forall_forall. intros paper _. unfold compose, comparison_line.
      rewrite length_app, length_pairs. reflexivity.
  - intros i paper k sc Hi Hk.
    exists (map CStr (comparison_headers scenarios)), (comparison_line scenarios paper).
    split; [reflexivity |].
    split; [change ((map (comparison_line scenarios) papers) !! i
                    = Some (comparison_line scenarios paper));
            rewrite lookup_map, Hi; reflexivity |].
    destruct (lookup_pairs (fun sc => "综合评分_" +:+ fst sc) (fun sc => "推荐等级_" +:+ fst sc)
                scenarios k sc Hk) as [Hh1 Hh2].
    destruct (lookup_pairs
                (fun sc => CFloat (overall_score (calculate_scenario_score paper (weights (snd sc)))))
                (fun sc => CStr (level (calculate_scenario_score paper (weights (snd sc)))))
                scenarios k sc Hk) as [Hl1 Hl2].
    unfold comparison_headers, comparison_line.
    rewrite !lookup_map.
    rewrite !lookup_app_r by (cbn [length]; lia). cbn [length].
    replace (9 + 2 * k - 9)%nat with (2 * k)%nat by lia.
    replace (10 + 2 * k - 9)%nat with (S (2 * k)) by lia.
    rewrite Hh1, Hh2. split; [reflexivity |]. split; [reflexivity |].
    split; [exact Hl1 | exact Hl2].
Qed.

(** *** The script as a whole *)


End LevelsAndTables.



(** ** A folder named like the combined table *)
Section SharedTable.
Import AutoRunner.
Variable attempt_of : string -> string -> attempt.

Lemma all_rows_append w data idx :
  all_rows (append_to_csv ALL_CSV_NAME data idx w) = all_rows w ++ [(idx, data)].
Proof.
  unfold all_rows, append_to_csv, set_csv_files. cbn [csv_files].
  rewrite lookup_insert_eq. reflexivity.
Qed.

Lemma process_all_shared folder_name n pdfs :
  csv_name folder_name = ALL_CSV_NAME ->
  forall i st gi w,
    all_rows (snd (process_all attempt_of folder_name n i pdfs (st, gi, w)))
    = all_rows w ++ shared_rows attempt_of folder_name gi pdfs.
Proof.
  intros Heq. induction pdfs as [| pdf rest IH]; intros i st gi w;
    cbn [process_all shared_rows].
  - cbn [snd]. rewrite app_nil_r. reflexivity.
  - assert (Hsleep : forall w1, all_rows (if (i <? n)%nat then sleep w1 else w1) = all_rows w1)
      by (intros w1; destruct (i <? n)%nat; reflexivity).
    unfold process_pdf. rewrite Heq.
    destruct (attempt_of folder_name pdf) as [e | e | e | e created | e | data e | data];
      try destruct created; cbv zeta; rewrite IH, Hsleep;
      try reflexivity.
    + change (all_rows (log_error pdf e
                 (append_to_csv ALL_CSV_NAME data (extract_number_from_filename pdf)
                    (write_json folder_name pdf (count_llm_call w)))))
        with (all_rows (append_to_csv ALL_CSV_NAME data (extract_number_from_filename pdf)
                          (write_json folder_name pdf (count_llm_call w)))).
      rewrite all_rows_append, <- app_assoc. reflexivity.
    + rewrite !all_rows_append, <- !app_assoc. reflexivity.
Qed.

(** X21: a folder named [_all_papers] has the combined table as its own
    table.  A call with overwrite then erases every row the combined
    table held, and each document that goes through adds two rows to it,
    one under the number of its file name and one under the global
    index; without overwrite the old rows stay and the same rows are
    added. *)
Theorem process_folder_shared_table folder overwrite start w :
  name folder = "_all_papers" ->
  csv_name (name folder) = ALL_CSV_NAME
  /\ all_rows (snd (process_folder attempt_of folder overwrite start w))
     = (if overwrite then [] else all_rows w)
       ++ shared_rows attempt_of (name folder) start (to_process w folder overwrite).
Proof.
  intros Hname.
  assert (Heq : csv_name (name folder) = ALL_CSV_NAME) by (rewrite Hname; reflexivity).
  split; [exact Heq |].
  unfold process_folder. cbv zeta. rewrite Heq.
  set (w1 := if overwrite && bool_decide (is_Some (csv_files w !! ALL_CSV_NAME))
             then unlink_csv ALL_CSV_NAME w else w).
  set (w0 := init_csv ALL_CSV_NAME (init_csv ALL_CSV_NAME w1)).
  assert (Hjson : json_files w0 = json_files w).
  { unfold w0, w1. destruct (overwrite && _); reflexivity. }
  assert (Hrows0 : all_rows w0 = if overwrite then [] else all_rows w).
  { unfold all_rows, w0, w1, init_csv, unlink_csv, set_csv_files. cbn [csv_files].
    destruct overwrite; cbn [andb].
    - destruct (bool_decide (is_Some (csv_files w !! ALL_CSV_NAME))) eqn:Hex;
        cbn [csv_files].
      + rewrite lookup_delete_eq. rewrite !lookup_insert_eq. reflexivity.
      + apply bool_decide_eq_false in Hex.
        destruct (csv_files w !! ALL_CSV_NAME) as [rows |] eqn:Hf;
          [exfalso; apply Hex; eauto |].
        rewrite !lookup_insert_eq. reflexivity.
    - destruct (csv_files w !! ALL_CSV_NAME) as [rows |] eqn:Hf.
      + rewrite Hf, Hf. reflexivity.
      + rewrite !lookup_insert_eq. reflexivity. }
  pose proof (select_pdf_filter w0 (name folder) overwrite (pdf_files folder) []
                {| success := 0; skip := 0; fail := 0 |}) as Hsel.
  cbn [app] in Hsel.
  assert (Hfilter : List.filter (fun pdf => overwrite || negb (json_exists w0 (name folder) pdf))
                                (pdf_files folder)
                    = to_process w folder overwrite).
  { unfold to_process. apply List.filter_ext. intros pdf.
    rewrite (json_exists_same w w0 (name folder) pdf Hjson). reflexivity. }
  rewrite Hfilter in Hsel.
  destruct (fold_left (select_pdf w0 (name folder) overwrite) (pdf_files folder)
              ([], {| success := 0; skip := 0; fail := 0 |})) as [tp st0].
  cbn [fst] in Hsel. subst tp.
  destruct (to_process w folder overwrite) as [| pdf rest] eqn:Htp.
  - cbn [snd shared_rows]. rewrite app_nil_r. exact Hrows0.
  - pose proof (process_all_shared (name folder) (length (pdf :: rest)) (pdf :: rest) Heq
                  1%nat st0 start w0) as Hall.
    destruct (process_all attempt_of (name folder) (length (pdf :: rest)) 1 (pdf :: rest)
                (st0, start, w0)) as [[st2 gi2] w2].
    cbn [snd] in Hall |- *. rewrite Hall, Hrows0. reflexivity.
Qed.
End SharedTable.

(** A combined table with one row, and a folder of that name with one
    document: after a call with overwrite the old row is gone. *)
Lemma process_folder_shared_table_witness :
  AutoRunner.all_rows
    (snd (AutoRunner.process_folder (fun _ pdf => AutoRunner.Completed pdf)
            Samples.folder_all true 1 Samples.world_1))
  = [("07", "07_x.pdf"); ("1", "07_x.pdf")].
Proof.
  etransitivity;
    [exact (proj2 (process_folder_shared_table (fun _ pdf => AutoRunner.Completed pdf)
                     Samples.folder_all true 1 Samples.world_1 eq_refl)) |].
  vm_compute. reflexivity.
Defined.

(** ** The pages of a document *)
Section Pages.
Import AutoRunner.

Lemma text_parts_numbered (doc : list Py.text) :
  forall page_num,
    text_parts page_num doc
    = map (fun p => page_part (fst p) (snd p))
          (List.filter (fun p => Py.u_strip_nonempty (snd p)) (numbered_pages page_num doc)).
Proof.
  unfold numbered_pages.
  induction doc as [| t doc IH]; intros page_num; [reflexivity |].
  cbn [text_parts length seq combine List.filter snd].
  destruct (Py.u_strip_nonempty t); cbn [map fst snd]; rewrite IH; reflexivity.
Qed.

Lemma u_join_nil (sep : Py.text) (parts : list Py.text) :
  Forall (fun p => p <> []) parts -> Py.u_join sep parts = [] -> parts = [].
Proof.
  intros Hall. destruct Hall as [| p parts Hp Hall]; [reflexivity |].
  destruct parts as [| q parts]; cbn [Py.u_join]; intros H.
  - contradiction.
  - apply app_eq_nil in H as [H _]. contradiction.
Qed.

Lemma text_parts_nil (doc : list Py.text) :
  forall n, text_parts n doc = []
            <-> Forall (fun t => Py.u_strip_nonempty t = false) doc.
Proof.
  induction doc as [| t doc IH]; intros n; cbn [text_parts]; [split; constructor |].
  destruct (Py.u_strip_nonempty t) eqn:Ht.
  - split; [discriminate | intros H; inversion H; congruence].
  - rewrite IH. split; [intros H; constructor; assumption
                       | intros H; inversion H; assumption].
Qed.

Lemma text_parts_nonempty (doc : list Py.text) :
  forall n, Forall (fun p => p <> []) (text_parts n doc).
Proof.
  induction doc as [| t doc IH]; intros n; cbn [text_parts]; [constructor |].
  destruct (Py.u_strip_nonempty t); [constructor; [discriminate | apply IH] | apply IH].
Qed.

(** X22: the text of a document is made of its pages that are not blank,
    in order, each under a header with its own number in the document:
    blank pages are left out but counted.  The text is empty exactly
    when every page is blank. *)
Theorem extract_pdf_text_pages (doc : list Py.text) :
  full_text doc
  = Py.u_join [10; 10]%N
      (map (fun p => page_part (fst p) (snd p))
           (List.filter (fun p => Py.u_strip_nonempty (snd p)) (numbered_pages 1 doc)))
  /\ (forall k t, doc !! k = Some t -> (S k, t) ∈ numbered_pages 1 doc)
  /\ (extract_pdf_text doc = [] <-> Forall (fun t => Py.u_strip_nonempty t = false) doc).
Proof.
  split; [unfold full_text; rewrite text_parts_numbered; reflexivity |]. split.
  - unfold numbered_pages. intros k t Hk.
    apply list_elem_of_lookup. exists k.
    assert (Hlen : (k < length doc)%nat) by (apply lookup_lt_is_Some; eauto).
    apply lookup_zip_with_Some. exists (S k), t.
    split; [reflexivity |]. split; [| exact Hk].
    rewrite lookup_seq. split; [reflexivity | exact Hlen].
  - pose proof (text_parts_nil doc) as Hparts. pose proof (text_parts_nonempty doc) as Hne.
    rewrite <- (Hparts 1%nat). unfold extract_pdf_text, full_text. split.
    + destruct (MAX_PDF_CHARS <? length (Py.u_join [10; 10]%N (text_parts 1 doc)))%nat.
      * intros H. apply app_eq_nil in H as [_ H]. discriminate H.
      * apply u_join_nil, Hne.
    + intros ->. reflexivity.
Qed.
End Pages.

(** ** The row of a record *)
Section RowProps.
Import AutoRunner.
Variable repr : json -> string.

Lemma get_from_object (v : json) (key : string) (d : json) :
  is_object v = true -> exists x, get_from v key d = inl x.
Proof. destruct v; try discriminate. intros _. eexists; reflexivity. Qed.

Lemma extract_scores_ok (data : list (string * json)) :
  (exists sc, extract_scores_from_json data = inl sc) <-> scores_ok data = true.
Proof.
  unfold extract_scores_from_json, scores_ok. cbv zeta.
  destruct (default (JDict []) (json_get data "scores")) as [| | | | | |d1];
    destruct (default (JDict []) (json_get data "recommendation")) as [| | | | | |d2];
    cbn [get_from is_object andb];
    (split; [intros [sc H]; first [discriminate H | reflexivity]
            | intros H; first [discriminate H | eexists; reflexivity]]).
Qed.

Lemma path_lines_ok (idx : nat) (key : string) (value : json) :
  (exists lines, path_lines repr idx key value = inl lines) <-> entry_ok value = true.
Proof.
  unfold path_lines, entry_ok.
  destruct value as [| | | | | |d]; try (split; [reflexivity | eexists; reflexivity]).
  cbv zeta.
  destruct (default (JStr "") (json_get d "description")) as [| | | | text | |];
    try (split; [intros [l H]; discriminate H | discriminate]).
  destruct (default (JList []) (json_get d "keywords")) as [| [] | z | [[] | [] | | [] m e] | s | [| x0 l0] | [| x0 l0]];
    cbn [json_truthy keyword_texts];
    try (split; [intros [l H]; first [discriminate H | reflexivity]
                | intros H; first [discriminate H | eexists; reflexivity]]).
  - destruct (Z.eqb_spec z 0) as [-> | Hz]; cbn [negb];
      (split; [intros [l H]; first [discriminate H | reflexivity]
              | intros H; first [discriminate H | eexists; reflexivity]]).
  - destruct (Py.truthy s);
      (split; [reflexivity | intros _; eexists; reflexivity]).
Qed.

Lemma path_loop_ok (entries : list (string * json)) :
  forall idx,
    (exists lines, path_loop repr idx entries = inl lines)
    <-> forallb (fun entry => entry_ok (snd entry)) entries = true.
Proof.
  induction entries as [| [key value] rest IH]; intros idx; cbn [path_loop forallb snd].
  - split; [reflexivity | eexists; reflexivity].
  - rewrite andb_true_iff, <- (IH (S idx)), <- (path_lines_ok idx key value).
    destruct (path_lines repr idx key value) as [first | e].
    + destruct (path_loop repr (S idx) rest) as [more | e].
      * split; [intros _; split; eexists; reflexivity | intros _; eexists; reflexivity].
      * split; [intros [l H]; discriminate H | intros [_ [l H]]; discriminate H].
    + split; [intros [l H]; discriminate H | intros [[l H] _]; discriminate H].
Qed.

Lemma format_implementation_path_ok (data : list (string * json)) :
  (exists cell,
      format_implementation_path repr
        (default (JStr "") (json_get data "implementation_path")) = inl cell)
  <-> path_ok data = true.
Proof.
  unfold format_implementation_path, path_ok.
  destruct (default (JStr "") (json_get data "implementation_path"))
    as [| b | z | x | s | items | d];
    try (split; [reflexivity
                | intros _; match goal with
                            | |- context [if ?c then _ else _] => destruct c
                            end; eexists; reflexivity]).
  destruct d as [| entry d]; [split; [reflexivity | eexists; reflexivity] |].
  cbn [json_truthy negb]. rewrite <- (path_loop_ok (entry :: d) 1).
  destruct (path_loop repr 1 (entry :: d)) as [lines | e].
  - split; intros _; eexists; reflexivity.
  - split; intros [l H]; discriminate H.
Qed.

(** X23: a row is built exactly when the values under [scores] and
    [recommendation] are objects or absent and every entry of the
    implementation path that is an object has a text (or nothing) as
    description and keywords that can be looped over (or none); in every
    other case an exception is raised and nothing is written.  A row that
    is built has one cell per column of the header, twenty-one, the first
    one being the index it was given. *)
Theorem append_to_csv_row_built (data : list (string * json)) (index_value : string) :
  ((exists cells, append_to_csv_row repr data index_value = inl cells)
   <-> scores_ok data && path_ok data = true)
  /\ (forall cells,
        append_to_csv_row repr data index_value = inl cells ->
        length cells = length CSV_HEADERS
        /\ length cells = 21%nat
        /\ cells !! 0%nat = Some index_value)
  /\ NoDup CSV_HEADERS.
Proof.
  split; [| split].
  - rewrite andb_true_iff, <- extract_scores_ok, <- format_implementation_path_ok.
    unfold append_to_csv_row.
    destruct (extract_scores_from_json data) as [sc | e].
    + destruct (format_implementation_path repr
                  (default (JStr "") (json_get data "implementation_path"))) as [cell | e].
      * split; [intros _; split; eexists; reflexivity | intros _; eexists; reflexivity].
      * split; [intros [l H]; discriminate H | intros [_ [l H]]; discriminate H].
    + split; [intros [l H]; discriminate H | intros [[l H] _]; discriminate H].
  - intros cells. unfold append_to_csv_row.
    destruct (extract_scores_from_json data) as [sc | e]; [| discriminate].
    destruct (format_implementation_path repr
                (default (JStr "") (json_get data "implementation_path"))) as [cell | e];
      [| discriminate].
    intros [= <-]. repeat split; reflexivity.
  - apply (bool_decide_unpack _). vm_compute. exact I.
Qed.

(** The cell of a score in the row that was built. *)
Lemma score_cell_in_row (data : list (string * json)) (index_value : string)
    (cells : list string) (key col : string) :
  append_to_csv_row repr data index_value = inl cells ->
  (key, col) ∈ SCORE_COLUMNS ->
  Rescoring.dict_get (combine CSV_HEADERS cells) col
  = Some (score_cell repr (score_value data key)).
Proof.
  unfold append_to_csv_row, extract_scores_from_json, score_value. cbv zeta.
  destruct (default (JDict []) (json_get data "scores")) as [| | | | | |d1];
    try (cbn [get_from]; discriminate).
  destruct (default (JDict []) (json_get data "recommendation")) as [| | | | | |d2];
    try (cbn [get_from]; discriminate).
  cbn [get_from].
  destruct (format_implementation_path repr
              (default (JStr "") (json_get data "implementation_path"))) as [cell | e];
    [| discriminate].
  intros [= <-] Hin. unfold SCORE_COLUMNS in Hin.
  repeat (apply elem_of_cons in Hin as [[= -> ->] | Hin]; [reflexivity |]).
  inversion Hin.
Qed.

Lemma float_of_small_int (z : Z) :
  (1 <= z <= 10)%Z ->
  Py.truthy (Py.str_of_Z z) = true /\ Py.float (Py.str_of_Z z) = Some (Py.float_of_Z z).
Proof.
  intros Hz.
  assert (Hcases : (z = 1 \/ z = 2 \/ z = 3 \/ z = 4 \/ z = 5 \/ z = 6 \/ z = 7
                    \/ z = 8 \/ z = 9 \/ z = 10)%Z) by lia.
  repeat (destruct Hcases as [-> | Hcases]; [split; vm_compute; reflexivity |]).
  subst z. split; vm_compute; reflexivity.
Qed.

(** X24: what the first script writes for a score, the second reads
    back.  A score that is missing, null, zero, false or an empty text is
    written as an empty cell, and the second script reads an empty cell
    as 0.0; an integer score from 1 to 10 is written in decimal and read
    back as that number.  The row read is the header of the table paired
    with the cells written. *)
Theorem scores_written_are_read_back (data : list (string * json))
    (index_value : string) (cells : list string) (key col : string) :
  append_to_csv_row repr data index_value = inl cells ->
  (key, col) ∈ SCORE_COLUMNS ->
  (json_truthy (score_value data key) = false ->
   Rescoring.dict_get (combine CSV_HEADERS cells) col = Some ""
   /\ Rescoring.number_of (combine CSV_HEADERS cells) col = inl (Py.float_of_Z 0))
  /\ (forall z, score_value data key = JInt z -> (1 <= z <= 10)%Z ->
        Rescoring.dict_get (combine CSV_HEADERS cells) col = Some (Py.str_of_Z z)
        /\ Rescoring.number_of (combine CSV_HEADERS cells) col = inl (Py.float_of_Z z))
  /\ Rescoring.dict_get (combine CSV_HEADERS cells) "编号" = Some index_value.
Proof.
  intros Hrow Hin.
  pose proof (score_cell_in_row data index_value cells key col Hrow Hin) as Hcell.
  split; [| split].
  - intros Hfalse. unfold score_cell in Hcell. rewrite Hfalse in Hcell.
    split; [exact Hcell |]. unfold Rescoring.number_of. rewrite Hcell. reflexivity.
  - intros z Hz Hrange. unfold score_cell in Hcell. rewrite Hz in Hcell.
    cbn [json_truthy json_str] in Hcell.
    destruct (Z.eqb_spec z 0) as [Hz0 | _]; [lia |]. cbn [negb] in Hcell.
    split; [exact Hcell |]. unfold Rescoring.number_of. rewrite Hcell.
    destruct (float_of_small_int z Hrange) as [-> ->]. reflexivity.
  - revert Hrow. unfold append_to_csv_row.
    destruct (extract_scores_from_json data) as [sc | e]; [| discriminate].
    destruct (format_implementation_path repr
                (default (JStr "") (json_get data "implementation_path"))) as [cell | e];
      [| discriminate].
    intros [= <-]. reflexivity.
Qed.
End RowProps.

(** The record of the samples: the score 8 comes back as 8.0. *)
Lemma scores_written_are_read_back_witness :
  match AutoRunner.append_to_csv_row Samples.repr_0 Samples.record_0 "3" with
  | inl cells =>
      Rescoring.number_of (combine AutoRunner.CSV_HEADERS cells) "学术严谨度"
      = inl (Py.float_of_Z 8)
  | inr _ => False
  end.
Proof.
  destruct (AutoRunner.append_to_csv_row Samples.repr_0 Samples.record_0 "3")
    as [cells | e] eqn:Hrow; [| vm_compute in Hrow; discriminate].
  destruct (scores_written_are_read_back Samples.repr_0 Samples.record_0 "3" cells
              "rigor" "学术严谨度" Hrow) as (_ & Hback & _); [left |].
  exact (proj2 (Hback 8%Z eq_refl ltac:(lia))).
Defined.

(** ** The modes for all folders *)
Section AllMode.
Import AutoRunner.

(** X25: the selection that the modes for all folders return holds every
    folder with a pending document, and with the answer [A] nothing else:
    every folder it holds has one.  The counts of a folder are taken to
    be consistent, as the scan leaves them: no more documents pending
    than documents. *)
Theorem all_mode_selects_every_pending_folder folders inputs selected overwrite :
  get_user_choice folders inputs = Chosen All selected overwrite ->
  Forall (fun f => (pending f <= total_pdfs f)%nat) folders ->
  (forall idx folder,
      folders !! idx = Some folder -> (0 < pending folder)%nat ->
      Z.of_nat idx ∈ selected)
  /\ (overwrite = false ->
      forall i, i ∈ selected ->
                exists folder, folders !! Z.to_nat i = Some folder
                               /\ (0 < pending folder)%nat).
Proof.
  intros Hc Hcounts.
  destruct (dialogue_answered folders (length inputs) inputs (le_n _)) as [Hans _].
  rewrite Hc in Hans. cbn [answered] in Hans.
  split.
  - intros idx folder Hidx Hpending.
    assert (Hsel : exists p, selected = positions p 0 folders
                             /\ (forall f, f ∈ folders -> (0 < pending f)%nat -> p f = true)).
    { destruct overwrite.
      - destruct Hans as [-> _]. eexists. split; [reflexivity |].
        intros f Hf Hp. rewrite Forall_forall in Hcounts. specialize (Hcounts f Hf).
        apply Nat.ltb_lt. lia.
      - destruct Hans as [_ ->]. eexists. split; [reflexivity |].
        intros f _ Hp. apply Nat.ltb_lt. exact Hp. }
    destruct Hsel as (p & -> & Hp).
    apply positions_lookup. exists folder.
    replace (Z.to_nat (Z.of_nat idx - 0)) with idx by lia.
    split; [exact Hidx |]. split; [lia |].
    apply Hp; [| exact Hpending]. apply list_elem_of_lookup. eauto.
  - intros ->. destruct Hans as [_ ->]. intros i Hi.
    apply positions_lookup in Hi as (folder & Hf & Hle & Hp).
    exists folder. replace (Z.to_nat (i - 0)) with (Z.to_nat i) in Hf by lia.
    split; [exact Hf | apply Nat.ltb_lt, Hp].
Qed.
End AllMode.

(** The two sample folders and the answer [a]: the second folder, the
    one with pending documents, is selected. *)
Lemma all_mode_selects_every_pending_folder_witness :
  AutoRunner.get_user_choice [Samples.folder_a; Samples.folder_b] [" a "]
  = AutoRunner.Chosen AutoRunner.All [1%Z] false
  /\ Z.of_nat 1 ∈ [1%Z].
Proof.
  assert (Hc : AutoRunner.get_user_choice [Samples.folder_a; Samples.folder_b] [" a "]
               = AutoRunner.Chosen AutoRunner.All [1%Z] false) by (vm_compute; reflexivity).
  split; [exact Hc |].
  refine (proj1 (all_mode_selects_every_pending_folder _ _ _ _ Hc _) 1%nat
                Samples.folder_b eq_refl _).
  - repeat constructor.
  - cbn. lia.
Defined.
